(** * Asterisk: framehook pipeline and DSP tone detection

    A shallow embedding of [main/framehook.c] (attach, detach, list
    teardown and the read/write dispatch loop) and of the DSP routines
    (Goertzel filters, DTMF/MF digit detectors, call progress, silence and
    busy detection, digit queue), with the properties of the specification
    stated and settled against these definitions. *)

From Stdlib Require Import ZArith Lia Bool List Sorted Ascii.
From Stdlib Require Import Floats.SpecFloat.
From stdpp Require Import base list.

Local Open Scope Z_scope.

(** * C integer conversions *)

(** [unsigned int] is 32 bits wide: arithmetic wraps modulo 2^32.  A value
    converted to [int] is read in two's complement. *)
Module CInt.

Definition to_unsigned (z : Z) : Z := z mod 2 ^ 32.

Definition to_int (z : Z) : Z := (z + 2 ^ 31) mod 2 ^ 32 - 2 ^ 31.

Definition INT_MAX : Z := 2 ^ 31 - 1.

End CInt.

(** * main/framehook.c *)

Module Framehook.

(** [enum ast_framehook_event] *)
Inductive ast_framehook_event :=
| AST_FRAMEHOOK_EVENT_READ
| AST_FRAMEHOOK_EVENT_WRITE
| AST_FRAMEHOOK_EVENT_ATTACHED
| AST_FRAMEHOOK_EVENT_DETACHED.

Definition event_eqb (a b : ast_framehook_event) : bool :=
  match a, b with
  | AST_FRAMEHOOK_EVENT_READ, AST_FRAMEHOOK_EVENT_READ
  | AST_FRAMEHOOK_EVENT_WRITE, AST_FRAMEHOOK_EVENT_WRITE
  | AST_FRAMEHOOK_EVENT_ATTACHED, AST_FRAMEHOOK_EVENT_ATTACHED
  | AST_FRAMEHOOK_EVENT_DETACHED, AST_FRAMEHOOK_EVENT_DETACHED => true
  | _, _ => false
  end.

(** What the framehook code does to the outside world, in the order it
    happens: calls of a hook's event callback (with the hook's id, the event
    and the frame pointer passed in), calls of a destroy callback, frames
    released with [ast_frfree], hooks released with [ast_free], and the
    calls of [ast_framehook_detach] that a callback makes while it runs
    (with the id of the entry looked for and the value returned). *)
Inductive effect :=
| EventCb (id : Z) (event : ast_framehook_event) (frame : Z)
| DestroyCb (id : Z)
| FrFree (frame : Z)
| Free (id : Z)
| Detach (id : Z) (res : Z).

(** A frame is identified by its address; [NULL] is 0. *)
Definition NULL : Z := 0.

Section Hooks.

(** The memory the callbacks reach through their [data] pointers. *)
Context {U : Type}.

(** The value of the macro [AST_FRAMEHOOK_INTERFACE_VERSION], declared in
    asterisk/framehook.h. *)
Variable AST_FRAMEHOOK_INTERFACE_VERSION : Z.

(** The outcome of one call [event_cb(chan, frame, event, data)]: the frame
    returned, the new contents of the callbacks' memory, and the ids the
    callback passed to [ast_framehook_detach] on its channel while it ran,
    in call order. *)
Record cb_result := {
  cb_frame : Z;
  cb_data : U;
  cb_detach : list Z
}.

Definition event_cb_t : Type := ast_framehook_event -> Z -> U -> cb_result.
Definition destroy_cb_t : Type := U -> U.

(** [struct ast_framehook_interface]; a function pointer may be NULL. *)
Record ast_framehook_interface := {
  version : Z;
  event_cb : option event_cb_t;
  destroy_cb : option destroy_cb_t
}.

(** [struct ast_framehook].  The copy [i] of the interface is kept as its
    two function pointers; [ast_framehook_attach] only builds a hook after
    checking that [event_cb] is not NULL.  [fh_id] is an [unsigned int]. *)
Record ast_framehook := {
  i_event_cb : event_cb_t;
  i_destroy_cb : option destroy_cb_t;
  fh_id : Z;
  detach_and_destroy_me : Z
}.

(** [struct ast_framehook_list]: [count] and [id_count] are
    [unsigned int]; [fhl_list] is the linked list, head first. *)
Record ast_framehook_list := {
  fhl_count : Z;
  fhl_id_count : Z;
  fhl_list : list ast_framehook
}.

(** The part of a channel the framehook code touches:
    [ast_channel_framehooks(chan)] (NULL until the first attach), the
    callbacks' memory, and the effects so far. *)
Record channel := {
  framehooks : option ast_framehook_list;
  data : U;
  trace : list effect
}.

Definition mark_detach (framehook : ast_framehook) : ast_framehook :=
  {| i_event_cb := i_event_cb framehook;
     i_destroy_cb := i_destroy_cb framehook;
     fh_id := fh_id framehook;
     detach_and_destroy_me := 1 |}.

(** The traversal of [ast_framehook_detach]: the first entry whose id equals
    [id] (an [int], compared after conversion to [unsigned int]) is flagged
    and the traversal stops with 0; otherwise -1. *)
Fixpoint detach_traverse (l : list ast_framehook) (id : Z) : Z * list ast_framehook :=
  match l with
  | [] => (-1, [])
  | framehook :: rest =>
    if fh_id framehook =? CInt.to_unsigned id then (0, mark_detach framehook :: rest)
    else let '(res, rest') := detach_traverse rest id in (res, framehook :: rest')
  end.

Definition ast_framehook_detach (chan : channel) (id : Z) : Z * channel :=
  match framehooks chan with
  | None => (-1, chan)
  | Some fhl =>
    let '(res, l) := detach_traverse (fhl_list fhl) id in
    (res, {| framehooks := Some {| fhl_count := fhl_count fhl;
                                   fhl_id_count := fhl_id_count fhl;
                                   fhl_list := l |};
             data := data chan;
             trace := trace chan |})
  end.

(** The calls of [ast_framehook_detach] made from inside a callback act on
    the list the dispatcher is walking: only flags change. *)
Fixpoint run_detaches (ids : list Z) (l : list ast_framehook) (tr : list effect)
  : list ast_framehook * list effect :=
  match ids with
  | [] => (l, tr)
  | id :: ids' =>
    let '(res, l') := detach_traverse l id in
    run_detaches ids' l' (tr ++ [Detach (CInt.to_unsigned id) res])
  end.

(** The state of a walk over the list: the list itself, the local
    variables [frame] and [skip], the callbacks' memory and the effects. *)
Record walk := {
  w_list : list ast_framehook;
  w_frame : Z;
  w_skip : list Z;
  w_data : U;
  w_trace : list effect
}.

(** [framehook_detach_and_destroy], on a hook already unlinked; [st] holds
    the rest of the list. *)
Definition framehook_detach_and_destroy (framehook : ast_framehook) (st : walk) : walk :=
  let r := i_event_cb framehook AST_FRAMEHOOK_EVENT_DETACHED NULL (w_data st) in
  let tr := w_trace st ++ [EventCb (fh_id framehook) AST_FRAMEHOOK_EVENT_DETACHED NULL] in
  let '(l, tr) := run_detaches (cb_detach r) (w_list st) tr in
  let tr := if cb_frame r =? NULL then tr else tr ++ [FrFree (cb_frame r)] in
  let '(d, tr) :=
    match i_destroy_cb framehook with
    | Some destroy => (destroy (cb_data r), tr ++ [DestroyCb (fh_id framehook)])
    | None => (cb_data r, tr)
    end in
  {| w_list := l; w_frame := w_frame st; w_skip := w_skip st;
     w_data := d; w_trace := tr ++ [Free (fh_id framehook)] |}.

(** [AST_LIST_REMOVE_CURRENT] at position [pos]. *)
Definition remove_current (pos : nat) (st : walk) : walk :=
  {| w_list := delete pos (w_list st); w_frame := w_frame st; w_skip := w_skip st;
     w_data := w_data st; w_trace := w_trace st |}.

(** [frame = framehook->i.event_cb(framehook->chan, frame, event, ...)] *)
Definition call_event_cb (framehook : ast_framehook) (event : ast_framehook_event)
    (st : walk) : walk :=
  let r := i_event_cb framehook event (w_frame st) (w_data st) in
  let tr := w_trace st ++ [EventCb (fh_id framehook) event (w_frame st)] in
  let '(l, tr) := run_detaches (cb_detach r) (w_list st) tr in
  {| w_list := l; w_frame := cb_frame r; w_skip := w_skip st;
     w_data := cb_data r; w_trace := tr |}.

(** [skip[num] = 1] *)
Definition mark_skip (num : nat) (st : walk) : walk :=
  {| w_list := w_list st; w_frame := w_frame st; w_skip := <[num := 1]> (w_skip st);
     w_data := w_data st; w_trace := w_trace st |}.

(** One [AST_LIST_TRAVERSE_SAFE_BEGIN ... END] of [framehook_list_push_event],
    from the entry at position [pos].  The result is [None] when [skip] is
    read outside its bounds, or when [fuel] runs out; [fuel] bounds the
    number of entries still to visit.  A walk that ends with
    [w_frame] different from [original_frame] ended in [break]. *)
Fixpoint traverse (fuel : nat) (event : ast_framehook_event) (original_frame : Z)
    (pos num : nat) (st : walk) : option walk :=
  match w_list st !! pos with
  | None => Some st
  | Some framehook =>
    match fuel with
    | O => None
    | S fuel' =>
      if detach_and_destroy_me framehook =? 0 then
        match w_skip st !! num with
        | None => None
        | Some sk =>
          if sk =? 0 then
            let st' := call_event_cb framehook event st in
            if w_frame st' =? original_frame
            then traverse fuel' event original_frame (S pos) (S num) st'
            else Some (mark_skip num st')
          else traverse fuel' event original_frame (S pos) (S num) st
        end
      else
        traverse fuel' event original_frame pos num
                 (framehook_detach_and_destroy framehook (remove_current pos st))
    end
  end.

(** The [do ... while (frame != original_frame)] loop; [passes] counts the
    traversals made. *)
Fixpoint push_loop (fuel : nat) (event : ast_framehook_event) (st : walk) (passes : nat)
  : option (walk * nat) :=
  match fuel with
  | O => None
  | S fuel' =>
    let original_frame := w_frame st in
    match traverse (length (w_list st)) event original_frame 0 0 st with
    | None => None
    | Some st' =>
      if w_frame st' =? original_frame then Some (st', S passes)
      else push_loop fuel' event st' (S passes)
    end
  end.

(** [framehook_list_push_event(framehooks, frame, event)], where
    [framehooks] is the channel's list.  Returns the frame, the channel
    afterwards and the number of passes of the loop. *)
Definition framehook_list_push_event (chan : channel) (frame : Z)
    (event : ast_framehook_event) : option (Z * channel * nat) :=
  match framehooks chan with
  | None => Some (frame, chan, O)
  | Some fhl =>
    let skip := replicate (Z.to_nat (fhl_count fhl)) 0 in
    match push_loop (S (length (fhl_list fhl))) event
            {| w_list := fhl_list fhl; w_frame := frame; w_skip := skip;
               w_data := data chan; w_trace := trace chan |} O with
    | None => None
    | Some (st, passes) =>
      Some (w_frame st,
            {| framehooks := Some {| fhl_count := fhl_count fhl;
                                     fhl_id_count := fhl_id_count fhl;
                                     fhl_list := w_list st |};
               data := w_data st; trace := w_trace st |},
            passes)
    end
  end.

Definition ast_framehook_list_write_event (chan : channel) (frame : Z) :=
  framehook_list_push_event chan frame AST_FRAMEHOOK_EVENT_WRITE.

Definition ast_framehook_list_read_event (chan : channel) (frame : Z) :=
  framehook_list_push_event chan frame AST_FRAMEHOOK_EVENT_READ.

(** [ast_framehook_attach(chan, i)].  [calloc_hook] and [calloc_list] say
    whether the allocation of the hook and (when needed) of the list
    succeed. *)
Definition ast_framehook_attach (calloc_hook calloc_list : bool) (chan : channel)
    (i : ast_framehook_interface) : Z * channel :=
  if negb (version i =? AST_FRAMEHOOK_INTERFACE_VERSION) then (-1, chan)
  else
    match event_cb i with
    | None => (-1, chan)
    | Some cb =>
      if negb calloc_hook then (-1, chan)
      else
        let fh_list :=
          match framehooks chan with
          | Some fhl => Some fhl
          | None =>
            if calloc_list
            then Some {| fhl_count := 0; fhl_id_count := 0; fhl_list := [] |}
            else None
          end in
        match fh_list with
        | None => (-1, chan)
        | Some fhl =>
          let count := CInt.to_unsigned (fhl_count fhl + 1) in
          let id := CInt.to_unsigned (fhl_id_count fhl + 1) in
          let framehook :=
            {| i_event_cb := cb; i_destroy_cb := destroy_cb i;
               fh_id := id; detach_and_destroy_me := 0 |} in
          let l := fhl_list fhl ++ [framehook] in
          let r := cb AST_FRAMEHOOK_EVENT_ATTACHED NULL (data chan) in
          let tr := trace chan ++ [EventCb id AST_FRAMEHOOK_EVENT_ATTACHED NULL] in
          let '(l, tr) := run_detaches (cb_detach r) l tr in
          let tr := if cb_frame r =? NULL then tr else tr ++ [FrFree (cb_frame r)] in
          (CInt.to_int id,
           {| framehooks := Some {| fhl_count := count; fhl_id_count := id; fhl_list := l |};
              data := cb_data r; trace := tr |})
        end
    end.

(** The loop of [ast_framehook_list_destroy]: every entry is unlinked and
    destroyed, head first. *)
Fixpoint destroy_traverse (fuel : nat) (st : walk) : option walk :=
  match w_list st !! O with
  | None => Some st
  | Some framehook =>
    match fuel with
    | O => None
    | S fuel' =>
      destroy_traverse fuel' (framehook_detach_and_destroy framehook (remove_current O st))
    end
  end.

Definition ast_framehook_list_destroy (chan : channel) : option (Z * channel) :=
  match framehooks chan with
  | None => Some (0, chan)
  | Some fhl =>
    match destroy_traverse (length (fhl_list fhl))
            {| w_list := fhl_list fhl; w_frame := NULL; w_skip := [];
               w_data := data chan; w_trace := trace chan |} with
    | None => None
    | Some st => Some (0, {| framehooks := None; data := w_data st; trace := w_trace st |})
    end
  end.

Definition ast_framehook_list_is_empty (framehooks : option ast_framehook_list) : Z :=
  match framehooks with
  | None => 1
  | Some fhl => match fhl_list fhl with [] => 1 | _ => 0 end
  end.

Definition ast_framehook_list_contains_no_active (framehooks : option ast_framehook_list) : Z :=
  match framehooks with
  | None => 1
  | Some fhl =>
    if forallb (fun cur => negb (detach_and_destroy_me cur =? 0)) (fhl_list fhl) then 1 else 0
  end.

(** ** Sequences of calls on one channel *)

(** The calls a channel's owner makes between the creation of the channel
    and the teardown of its list. *)
Inductive call :=
| Attach (calloc_hook calloc_list : bool) (i : ast_framehook_interface)
| DetachId (id : Z)
| ReadEvent (frame : Z)
| WriteEvent (frame : Z).

(** Runs the calls in order and collects the value returned by every
    attach that did attach a hook (the others return -1). *)
Definition attach_succeeds (calloc_hook calloc_list : bool) (chan : channel)
    (i : ast_framehook_interface) : bool :=
  (version i =? AST_FRAMEHOOK_INTERFACE_VERSION)
  && match event_cb i with Some _ => true | None => false end
  && calloc_hook
  && match framehooks chan with Some _ => true | None => calloc_list end.

Fixpoint run_calls (calls : list call) (chan : channel) : option (list Z * channel) :=
  match calls with
  | [] => Some ([], chan)
  | c :: calls' =>
    match c with
    | Attach calloc_hook calloc_list i =>
      let '(res, chan') := ast_framehook_attach calloc_hook calloc_list chan i in
      match run_calls calls' chan' with
      | None => None
      | Some (rets, chan'') =>
        Some (if attach_succeeds calloc_hook calloc_list chan i then res :: rets else rets, chan'')
      end
    | DetachId id => run_calls calls' (snd (ast_framehook_detach chan id))
    | ReadEvent frame =>
      match ast_framehook_list_read_event chan frame with
      | None => None
      | Some (_, chan', _) => run_calls calls' chan'
      end
    | WriteEvent frame =>
      match ast_framehook_list_write_event chan frame with
      | None => None
      | Some (_, chan', _) => run_calls calls' chan'
      end
    end
  end.

(** The id counter of the channel's list; a channel without a list has
    issued no id. *)
Definition id_counter (chan : channel) : Z :=
  match framehooks chan with
  | None => 0
  | Some fhl => fhl_id_count fhl
  end.

Definition hook_list (chan : channel) : list ast_framehook :=
  match framehooks chan with
  | None => []
  | Some fhl => fhl_list fhl
  end.

(** The [skip] array of a dispatch has [count] slots: the dispatch stays
    inside it when the list is no longer than [count]. *)
Definition skip_fits (chan : channel) : Prop :=
  match framehooks chan with
  | None => True
  | Some fhl => (length (fhl_list fhl) <= Z.to_nat (fhl_count fhl))%nat
  end.

End Hooks.

(** ** Facts about the detach traversal *)

Section DetachFacts.

Context {U : Type}.

Implicit Types (l : list (@ast_framehook U)) (chan : @channel U).

Definition ids l : list Z := map fh_id l.

(** [flags_set l l']: [l'] is [l] with some more entries flagged. *)
Definition flags_set l l' : Prop :=
  Forall2 (fun a b => b = a \/ b = mark_detach a) l l'.

Lemma flags_set_refl l : flags_set l l.
Proof. induction l; constructor; auto. Qed.

Lemma mark_detach_idemp (a : @ast_framehook U) : mark_detach (mark_detach a) = mark_detach a.
Proof. reflexivity. Qed.

Lemma flags_set_trans l1 l2 l3 : flags_set l1 l2 -> flags_set l2 l3 -> flags_set l1 l3.
Proof.
  intros H12; revert l3; induction H12 as [|a b l1 l2 Hab _ IH]; intros l3 H23.
  - inversion H23; constructor.
  - inversion H23 as [|b' c l2' l3' Hbc Hrest]; subst. constructor; [|by apply IH].
    destruct Hab as [->| ->], Hbc as [->| ->]; auto.
Qed.

Lemma flags_set_length l l' : flags_set l l' -> length l' = length l.
Proof. intros H; symmetry; eapply Forall2_length, H. Qed.

Lemma flags_set_ids l l' : flags_set l l' -> ids l' = ids l.
Proof.
  induction 1 as [|a b l l' Hab _ IH]; [done|]. unfold ids in *; simpl.
  rewrite IH. by destruct Hab as [->| ->].
Qed.

Lemma flags_set_app l1 l2 l1' l2' :
  flags_set l1 l1' -> flags_set l2 l2' -> flags_set (l1 ++ l2) (l1' ++ l2').
Proof. apply Forall2_app. Qed.

Lemma flags_set_delete l l' pos : flags_set l l' -> flags_set (delete pos l) (delete pos l').
Proof.
  intros H; revert pos; induction H as [|a b l l' Hab Hl IH]; intros [|pos]; simpl.
  - constructor.
  - constructor.
  - exact Hl.
  - constructor; [exact Hab | apply IH].
Qed.

Lemma flags_set_lookup l l' pos b :
  flags_set l l' -> l' !! pos = Some b ->
  exists a, l !! pos = Some a /\ (b = a \/ b = mark_detach a).
Proof.
  intros H; revert pos; induction H as [|a0 b0 l l' Hab _ IH]; intros [|pos]; simpl; try done.
  - intros [= <-]. eauto.
  - apply IH.
Qed.

(** The traversal stops at the first entry that carries the id, flags it
    and answers 0; without such an entry nothing changes and the answer
    is -1. *)
Lemma detach_traverse_split l id :
  (detach_traverse l id = (-1, l) /\ Forall (fun fh => fh_id fh <> CInt.to_unsigned id) l) \/
  (exists l1 fh l2,
      l = l1 ++ fh :: l2 /\
      Forall (fun x => fh_id x <> CInt.to_unsigned id) l1 /\
      fh_id fh = CInt.to_unsigned id /\
      detach_traverse l id = (0, l1 ++ mark_detach fh :: l2)).
Proof.
  induction l as [|fh l IH]; simpl.
  - left. split; [done | constructor].
  - destruct (Z.eqb_spec (fh_id fh) (CInt.to_unsigned id)) as [E|E].
    + right. exists [], fh, l. repeat split; try done.
    + destruct IH as [[-> HF] | (l1 & fh' & l2 & -> & HF & Hid & ->)].
      * left. split; [done | by constructor].
      * right. exists (fh :: l1), fh', l2. repeat split; try done. by constructor.
Qed.

Lemma detach_traverse_flags l id : flags_set l (detach_traverse l id).2.
Proof.
  destruct (detach_traverse_split l id) as [[-> _] | (l1 & fh & l2 & -> & _ & _ & ->)]; simpl.
  - apply flags_set_refl.
  - apply flags_set_app; [apply flags_set_refl|]. constructor; [auto | apply flags_set_refl].
Qed.

Lemma run_detaches_flags reqs l tr : flags_set l (run_detaches reqs l tr).1.
Proof.
  revert l tr; induction reqs as [|id reqs IH]; intros l tr; simpl.
  - apply flags_set_refl.
  - pose proof (detach_traverse_flags l id) as H.
    destruct (detach_traverse l id) as [res l']; simpl in *.
    eapply flags_set_trans; [exact H | apply IH].
Qed.

Lemma run_detaches_trace reqs l tr :
  exists new, (run_detaches reqs l tr).2 = tr ++ new /\
              Forall (fun e => exists x res, e = Detach x res) new.
Proof.
  revert l tr; induction reqs as [|id reqs IH]; intros l tr; simpl.
  - exists []. by rewrite app_nil_r.
  - destruct (detach_traverse l id) as [res l'].
    destruct (IH l' (tr ++ [Detach (CInt.to_unsigned id) res])) as (new & -> & HF).
    exists (Detach (CInt.to_unsigned id) res :: new). rewrite <- app_assoc. split; [done|].
    constructor; eauto.
Qed.

End DetachFacts.

(** ** Detach *)

Section DetachTheorems.

Context {U : Type}.

Implicit Types (l : list (@ast_framehook U)) (chan : @channel U) (fhl : @ast_framehook_list U).

(** The channel after a detach that found its entry: the same channel with
    that one entry flagged. *)
Definition with_list chan fhl l : @channel U :=
  {| framehooks := Some {| fhl_count := fhl_count fhl;
                           fhl_id_count := fhl_id_count fhl;
                           fhl_list := l |};
     data := data chan;
     trace := trace chan |}.

Lemma with_list_same chan fhl : framehooks chan = Some fhl -> with_list chan fhl (fhl_list fhl) = chan.
Proof. destruct chan as [fo d t], fhl; simpl; intros ->; reflexivity. Qed.

Lemma detach_traverse_again l1 (fh : @ast_framehook U) l2 id :
  Forall (fun x => fh_id x <> CInt.to_unsigned id) l1 ->
  fh_id fh = CInt.to_unsigned id ->
  detach_traverse (l1 ++ mark_detach fh :: l2) id = (0, l1 ++ mark_detach fh :: l2).
Proof.
  intros HF Hid. induction HF as [|a l1 Ha _ IH]; simpl.
  - rewrite Hid, Z.eqb_refl. reflexivity.
  - destruct (Z.eqb_spec (fh_id a) (CInt.to_unsigned id)); [contradiction|]. by rewrite IH.
Qed.

Lemma not_in_ids l x : Forall (fun fh => fh_id fh <> x) l <-> ~ In x (ids l).
Proof.
  unfold ids. rewrite Forall_forall, in_map_iff. split.
  - intros H (fh & E & Hin). apply list_elem_of_In in Hin. by apply (H fh).
  - intros H fh Hin E. apply H. exists fh. split; [done|]. by apply list_elem_of_In.
Qed.

(** C10. Without a list, or without an entry that carries the id, detach
    returns -1 and the channel (list, counters, callbacks' memory, effects)
    is what it was.  Otherwise it returns 0 and the channel differs only in
    one entry, the first with that id: its flag [detach_and_destroy_me] is
    1 afterwards, its id and its callbacks are what they were.  The
    entries before it do not carry the id; the list keeps its entries and
    their order, so its ids and its length; [count] and [id_count] keep
    their values; no callback ran and nothing was released (the effects and
    the callbacks' memory are what they were).  A second detach of the same
    id returns 0 again and changes nothing more. *)
Theorem detach_only_flags chan id :
  (~ In (CInt.to_unsigned id) (ids (hook_list chan)) ->
     ast_framehook_detach chan id = (-1, chan)) /\
  (In (CInt.to_unsigned id) (ids (hook_list chan)) ->
     exists fhl l1 fh l2 chan' fhl' fh',
       framehooks chan = Some fhl /\
       fhl_list fhl = l1 ++ fh :: l2 /\
       ~ In (CInt.to_unsigned id) (ids l1) /\
       fh_id fh = CInt.to_unsigned id /\
       ast_framehook_detach chan id = (0, chan') /\
       data chan' = data chan /\
       trace chan' = trace chan /\
       framehooks chan' = Some fhl' /\
       fhl_count fhl' = fhl_count fhl /\
       fhl_id_count fhl' = fhl_id_count fhl /\
       fhl_list fhl' = l1 ++ fh' :: l2 /\
       detach_and_destroy_me fh' = 1 /\
       fh_id fh' = fh_id fh /\
       i_event_cb fh' = i_event_cb fh /\
       i_destroy_cb fh' = i_destroy_cb fh /\
       (forall pos, pos <> length l1 -> hook_list chan' !! pos = hook_list chan !! pos) /\
       ids (hook_list chan') = ids (hook_list chan) /\
       ast_framehook_detach chan' id = (0, chan')).
Proof.
  unfold ast_framehook_detach, hook_list.
  destruct (framehooks chan) as [fhl|] eqn:Efh.
  - destruct (detach_traverse_split (fhl_list fhl) id)
      as [[E HF] | (l1 & fh & l2 & El & HF & Hid & E)]; rewrite E.
    + split.
      * intros _. f_equal. by apply with_list_same.
      * intros Hin. by apply not_in_ids in HF.
    + split.
      * intros Hn. exfalso. apply Hn. rewrite El. unfold ids. rewrite map_app, in_app_iff.
        right. left. exact Hid.
      * intros _.
        exists fhl, l1, fh, l2, (with_list chan fhl (l1 ++ mark_detach fh :: l2)),
          {| fhl_count := fhl_count fhl; fhl_id_count := fhl_id_count fhl;
             fhl_list := l1 ++ mark_detach fh :: l2 |}, (mark_detach fh).
        cbn [with_list framehooks data trace fhl_count fhl_id_count fhl_list].
        split; [done|]. split; [done|]. split; [by apply not_in_ids|]. split; [done|].
        split; [done|]. split; [done|]. split; [done|]. split; [done|]. split; [done|].
        split; [done|]. split; [done|]. split; [done|]. split; [done|]. split; [done|].
        split; [done|]. split; [|split].
        -- intros pos Hpos. rewrite El.
           destruct (decide (pos < length l1)%nat) as [Hlt|Hge].
           ++ by rewrite !lookup_app_l.
           ++ rewrite !lookup_app_r by lia.
              destruct (pos - length l1)%nat as [|k] eqn:Ek; [lia|]. done.
        -- rewrite El. unfold ids. by rewrite !map_app.
        -- by rewrite detach_traverse_again.
  - split; [done | simpl; tauto].
Qed.

End DetachTheorems.

(** ** Ids *)

Section IdTheorems.

Context {U : Type}.
Variable AST_FRAMEHOOK_INTERFACE_VERSION : Z.

Implicit Types (l : list (@ast_framehook U)) (chan : @channel U) (fhl : @ast_framehook_list U).

Lemma attach_fails calloc_hook calloc_list chan i :
  attach_succeeds AST_FRAMEHOOK_INTERFACE_VERSION calloc_hook calloc_list chan i = false ->
  ast_framehook_attach AST_FRAMEHOOK_INTERFACE_VERSION calloc_hook calloc_list chan i = (-1, chan).
Proof.
  unfold attach_succeeds, ast_framehook_attach.
  destruct (version i =? AST_FRAMEHOOK_INTERFACE_VERSION); simpl; [|done].
  destruct (event_cb i); simpl; [|done].
  destruct calloc_hook; simpl; [|done].
  destruct (framehooks chan); simpl; [done|].
  destruct calloc_list; done.
Qed.

Lemma attach_id calloc_hook calloc_list chan i :
  attach_succeeds AST_FRAMEHOOK_INTERFACE_VERSION calloc_hook calloc_list chan i = true ->
  let r := ast_framehook_attach AST_FRAMEHOOK_INTERFACE_VERSION calloc_hook calloc_list chan i in
  id_counter r.2 = CInt.to_unsigned (id_counter chan + 1) /\
  r.1 = CInt.to_int (id_counter r.2).
Proof.
  unfold attach_succeeds, ast_framehook_attach, id_counter.
  destruct (version i =? AST_FRAMEHOOK_INTERFACE_VERSION); simpl; [|done].
  destruct (event_cb i) as [cb|]; simpl; [|done].
  destruct calloc_hook; simpl; [|done].
  destruct (framehooks chan) as [fhl|]; simpl.
  - intros _. destruct (run_detaches _ _ _); simpl. done.
  - destruct calloc_list; [|done]. intros _. destruct (run_detaches _ _ _); simpl. done.
Qed.

Lemma detach_id_counter chan id : id_counter (ast_framehook_detach chan id).2 = id_counter chan.
Proof.
  unfold ast_framehook_detach, id_counter. destruct (framehooks chan) as [fhl|] eqn:E.
  - destruct (detach_traverse _ _); done.
  - simpl. by rewrite E.
Qed.

Lemma push_event_id_counter chan frame event frame' chan' passes :
  framehook_list_push_event chan frame event = Some (frame', chan', passes) ->
  id_counter chan' = id_counter chan.
Proof.
  unfold framehook_list_push_event, id_counter. destruct (framehooks chan) as [fhl|] eqn:E.
  - destruct (push_loop _ _ _ _) as [[st p]|]; [|done]. by intros [= <- <- <-].
  - intros [= <- <- <-]. by rewrite E.
Qed.

Lemma small_id z : 0 <= z -> z + 1 <= CInt.INT_MAX ->
  CInt.to_unsigned (z + 1) = z + 1 /\ CInt.to_int (z + 1) = z + 1.
Proof.
  unfold CInt.to_unsigned, CInt.to_int, CInt.INT_MAX. intros H0 H1. split.
  - apply Z.mod_small. lia.
  - rewrite Z.mod_small; lia.
Qed.

(** C8, as amended.  Over any sequence of attach, detach, read and write
    calls on a channel, as long as the list's id counter stays within the
    range of [int], the ids returned by the attaches that succeed are
    strictly increasing, each greater than the counter at the start (so
    positive, and greater than every id handed out before), and the counter
    ends at the last id returned: no id comes back, whatever was detached
    and destroyed in between. *)
Theorem attach_ids_increase calls chan rets chan' :
  run_calls AST_FRAMEHOOK_INTERFACE_VERSION calls chan = Some (rets, chan') ->
  0 <= id_counter chan ->
  id_counter chan + Z.of_nat (length rets) <= CInt.INT_MAX ->
  StronglySorted Z.lt rets /\
  Forall (fun r => id_counter chan < r <= id_counter chan') rets /\
  id_counter chan' = id_counter chan + Z.of_nat (length rets).
Proof.
  revert chan rets chan'. induction calls as [|c calls IH]; intros chan rets chan'; simpl.
  - intros [= <- <-] _ _. simpl. repeat split; [constructor | constructor | lia].
  - destruct c as [ch cl i | id | frame | frame].
    + destruct (ast_framehook_attach _ ch cl chan i) as [res chan1] eqn:Ea.
      destruct (run_calls _ calls chan1) as [[rets0 chan2]|] eqn:Er; [|done].
      destruct (attach_succeeds _ ch cl chan i) eqn:Es.
      * intros [= <- <-] H0 Hmax. simpl in Hmax.
        pose proof (attach_id ch cl chan i Es) as [Hc Hr]. rewrite Ea in Hc, Hr; simpl in Hc, Hr.
        destruct (small_id (id_counter chan) H0 ltac:(lia)) as [Eu Ei].
        rewrite Eu in Hc. rewrite Hc, Ei in Hr. subst res.
        destruct (IH chan1 rets0 chan2 Er ltac:(lia) ltac:(lia)) as (Hs & Hf & Hlen).
        repeat split.
        -- constructor; [done|]. eapply Forall_impl; [exact Hf|]. simpl; intros; lia.
        -- constructor; [lia|]. eapply Forall_impl; [exact Hf|]. simpl; intros; lia.
        -- simpl length. lia.
      * intros [= <- <-] H0 Hmax. rewrite (attach_fails ch cl chan i Es) in Ea.
        injection Ea as <- <-. by apply IH.
    + intros Hr H0 Hmax.
      destruct (IH _ _ _ Hr) as (Hs & Hf & Hlen); rewrite ?detach_id_counter; try done.
      rewrite detach_id_counter in Hf, Hlen. done.
    + unfold ast_framehook_list_read_event.
      destruct (framehook_list_push_event chan frame _) as [[[f chan1] p]|] eqn:Ep; [|done].
      apply push_event_id_counter in Ep. intros Hr H0 Hmax.
      destruct (IH _ _ _ Hr) as (Hs & Hf & Hlen); rewrite ?Ep; try done.
      rewrite Ep in Hf, Hlen. done.
    + unfold ast_framehook_list_write_event.
      destruct (framehook_list_push_event chan frame _) as [[[f chan1] p]|] eqn:Ep; [|done].
      apply push_event_id_counter in Ep. intros Hr H0 Hmax.
      destruct (IH _ _ _ Hr) as (Hs & Hf & Hlen); rewrite ?Ep; try done.
      rewrite Ep in Hf, Hlen. done.
Qed.

End IdTheorems.

(** ** The dispatch loop terminates *)

Section Termination.

Context {U : Type}.

Implicit Types (l : list (@ast_framehook U)) (chan : @channel U) (st : @walk U)
  (framehook : @ast_framehook U).

Lemma destroy_fields framehook st :
  flags_set (w_list st) (w_list (framehook_detach_and_destroy framehook st)) /\
  w_frame (framehook_detach_and_destroy framehook st) = w_frame st /\
  w_skip (framehook_detach_and_destroy framehook st) = w_skip st.
Proof.
  unfold framehook_detach_and_destroy.
  pose proof (run_detaches_flags
    (cb_detach (i_event_cb framehook AST_FRAMEHOOK_EVENT_DETACHED NULL (w_data st)))
    (w_list st)
    (w_trace st ++ [EventCb (fh_id framehook) AST_FRAMEHOOK_EVENT_DETACHED NULL])) as H.
  destruct (run_detaches _ _ _) as [l tr]. destruct (i_destroy_cb framehook); simpl in *; done.
Qed.

Lemma call_fields framehook event st :
  flags_set (w_list st) (w_list (call_event_cb framehook event st)) /\
  w_skip (call_event_cb framehook event st) = w_skip st.
Proof.
  unfold call_event_cb.
  pose proof (run_detaches_flags
    (cb_detach (i_event_cb framehook event (w_frame st) (w_data st)))
    (w_list st)
    (w_trace st ++ [EventCb (fh_id framehook) event (w_frame st)])) as H.
  destruct (run_detaches _ _ _) as [l tr]. simpl in *; done.
Qed.

(** The outcome of one traversal that starts with [frame] equal to
    [original_frame]: it either runs to the end of the list, leaving
    [frame] and [skip] alone, or breaks with another frame after marking
    one slot of [skip] that was free and lies within the list. *)
Lemma traverse_total fuel event original_frame pos num st :
  (length (w_list st) - pos <= fuel)%nat ->
  (num <= pos)%nat ->
  (length (w_list st) <= length (w_skip st))%nat ->
  w_frame st = original_frame ->
  exists st',
    traverse fuel event original_frame pos num st = Some st' /\
    (length (w_list st') <= length (w_list st))%nat /\
    ((w_frame st' = original_frame /\ w_skip st' = w_skip st) \/
     (w_frame st' <> original_frame /\
      exists k, (k < length (w_list st))%nat /\ w_skip st !! k = Some 0 /\
                w_skip st' = <[k := 1]> (w_skip st))).
Proof.
  revert pos num st. induction fuel as [|fuel IH]; intros pos num st Hfuel Hnum Hskip Hframe.
  - simpl. destruct (w_list st !! pos) eqn:E.
    + apply lookup_lt_Some in E. lia.
    + exists st. split; [done|]. split; [lia|]. by left.
  - simpl. destruct (w_list st !! pos) as [framehook|] eqn:E.
    2:{ exists st. split; [done|]. split; [lia|]. by left. }
    pose proof (lookup_lt_Some _ _ _ E) as Hpos.
    destruct (detach_and_destroy_me framehook =? 0) eqn:Eflag.
    + destruct (w_skip st !! num) as [sk|] eqn:Esk.
      2:{ apply lookup_ge_None in Esk. lia. }
      destruct (Z.eqb_spec sk 0) as [->|Hsk].
      * destruct (call_fields framehook event st) as [Hl Hs].
        pose proof (flags_set_length _ _ Hl) as Hlen.
        destruct (Z.eqb_spec (w_frame (call_event_cb framehook event st)) original_frame)
          as [Hsame|Hdiff].
        -- destruct (IH (S pos) (S num) (call_event_cb framehook event st))
             as (st' & -> & Hlen' & Hres); [lia | lia | rewrite Hs; lia | done |].
           exists st'. split; [done|]. split; [lia|].
           rewrite Hs, Hlen in Hres. done.
        -- eexists. split; [done|]. simpl. split; [lia|]. right. split; [done|].
           exists num. rewrite Hs. repeat split; [lia|done].
      * destruct (IH (S pos) (S num) st) as (st' & -> & Hlen' & Hres); [lia | lia | lia | done |].
        exists st'. done.
    + destruct (destroy_fields framehook (remove_current pos st)) as (Hl & Hf & Hs).
      pose proof (flags_set_length _ _ Hl) as Hlen. simpl in Hlen, Hf, Hs.
      rewrite length_delete in Hlen by (by eexists).
      destruct (IH pos num (framehook_detach_and_destroy framehook (remove_current pos st)))
        as (st' & -> & Hlen' & Hres); [lia | lia | rewrite Hs; simpl; lia | congruence |].
      exists st'. split; [done|]. split; [lia|].
      rewrite Hs, Hlen in Hres.
      destruct Hres as [Hres | (Hd & k & Hk & Hres)]; [by left|].
      right. split; [done|]. exists k. split; [lia|done].
Qed.

(** The free slots of [skip] among its first [n]. *)
Fixpoint free_slots (n : nat) (skip : list Z) : nat :=
  match n, skip with
  | S n', z :: skip' => ((if (z =? 0)%Z then 1 else 0) + free_slots n' skip')%nat
  | _, _ => O
  end.

Lemma free_slots_le n skip : (free_slots n skip <= n)%nat.
Proof.
  revert skip; induction n as [|n IH]; intros [|z skip]; simpl; try lia.
  specialize (IH skip). destruct (z =? 0); lia.
Qed.

Lemma free_slots_mono n n' skip : (n' <= n)%nat -> (free_slots n' skip <= free_slots n skip)%nat.
Proof.
  revert n' skip; induction n as [|n IH]; intros [|n'] [|z skip] H; simpl; try lia.
  specialize (IH n' skip). destruct (z =? 0); lia.
Qed.

Lemma free_slots_mark n k skip :
  (k < n)%nat -> skip !! k = Some 0 ->
  (free_slots n (<[k := 1%Z]> skip) + 1 = free_slots n skip)%nat.
Proof.
  revert k skip; induction n as [|n IH]; intros k [|z skip] Hk E; simpl in *; try lia; try done.
  destruct k as [|k]; simpl in *.
  - injection E as ->. simpl. lia.
  - rewrite <- (IH k skip) by (done || lia). lia.
Qed.

Definition free_in st : nat := free_slots (length (w_list st)) (w_skip st).

Lemma push_loop_total fuel event st passes :
  (free_in st < fuel)%nat ->
  (length (w_list st) <= length (w_skip st))%nat ->
  exists st' p,
    push_loop fuel event st passes = Some (st', p) /\
    (p <= passes + free_in st + 1)%nat.
Proof.
  revert st passes. induction fuel as [|fuel IH]; intros st passes Hfuel Hskip; [lia|].
  simpl.
  destruct (traverse_total (length (w_list st)) event (w_frame st) 0 0 st)
    as (st' & -> & Hlen & Hres); [lia | lia | lia | done |].
  destruct Hres as [[Hsame _] | (Hdiff & k & Hk & Hfree & Hmark)].
  - rewrite Hsame, Z.eqb_refl. eexists _, _. split; [done|]. lia.
  - destruct (Z.eqb_spec (w_frame st') (w_frame st)); [done|].
    assert (free_in st' + 1 <= free_in st)%nat as Hdec.
    { unfold free_in. rewrite Hmark.
      rewrite <- (free_slots_mark (length (w_list st)) k (w_skip st)) by done.
      pose proof (free_slots_mono (length (w_list st)) (length (w_list st'))
                    (<[k:=1]> (w_skip st)) Hlen). lia. }
    destruct (IH st' (S passes)) as (st'' & p & -> & Hp); [lia | |].
    { rewrite Hmark, length_insert. lia. }
    eexists _, _. split; [done|]. lia.
Qed.

(** C7, as amended.  On a channel whose list is no longer than its
    [count], a dispatch returns, and the loop makes at most one pass more
    than the list has hooks: every pass but the last marks a slot of
    [skip] that was free. *)
Theorem push_event_terminates chan frame event :
  skip_fits chan ->
  exists frame' chan' passes,
    framehook_list_push_event chan frame event = Some (frame', chan', passes) /\
    (passes <= length (hook_list chan) + 1)%nat.
Proof.
  unfold skip_fits, framehook_list_push_event, hook_list.
  destruct (framehooks chan) as [fhl|]; intros Hfit.
  - set (st := {| w_list := fhl_list fhl; w_frame := frame;
                  w_skip := replicate (Z.to_nat (fhl_count fhl)) 0;
                  w_data := data chan; w_trace := trace chan |}).
    assert (free_in st <= length (fhl_list fhl))%nat as Hfree by apply free_slots_le.
    destruct (push_loop_total (S (length (fhl_list fhl))) event st O)
      as (st' & p & -> & Hp); [lia | |].
    { simpl. rewrite length_replicate. done. }
    eexists _, _, _. split; [done|]. lia.
  - eexists _, _, _. split; [done|]. simpl. lia.
Qed.

End Termination.

(** ** What a hook receives once it is flagged *)

(** [is_rw x e]: [e] is a READ or WRITE call of the event callback of the
    hook with id [x]. *)
Definition is_rw (x : Z) (e : effect) : bool :=
  match e with
  | EventCb id AST_FRAMEHOOK_EVENT_READ _
  | EventCb id AST_FRAMEHOOK_EVENT_WRITE _ => id =? x
  | _ => false
  end.




(** No READ or WRITE reaches hook [x] in [tr]. *)
Definition quiet (x : Z) (tr : list effect) : Prop :=
  Forall (fun e => is_rw x e = false) tr.


Section Deferred.

Context {U : Type}.

Implicit Types (l : list (@ast_framehook U)) (chan : @channel U) (st : @walk U)
  (framehook fh : @ast_framehook U) (tr new : list effect).

(** Every entry of [l] that carries id [x] is flagged for destruction. *)
Definition dead (x : Z) l : Prop :=
  Forall (fun fh => fh_id fh = x -> detach_and_destroy_me fh <> 0) l.


















End Deferred.

Section Invariants.

Context {U : Type}.

Implicit Types (l : list (@ast_framehook U)) (chan : @channel U) (st : @walk U)
  (framehook fh : @ast_framehook U) (tr new : list effect).

(** A property of the walk that every unlink-and-destroy, every callback
    call and every mark of [skip] keeps is kept by a traversal, by the
    dispatch loop and by the teardown loop. *)
Section Preservation.

Variable P : @walk U -> Prop.
Variable event : ast_framehook_event.

Hypothesis P_destroy : forall st pos fh,
  P st -> w_list st !! pos = Some fh ->
  P (framehook_detach_and_destroy fh (remove_current pos st)).
Hypothesis P_call : forall st pos fh,
  P st -> w_list st !! pos = Some fh -> detach_and_destroy_me fh = 0 ->
  P (call_event_cb fh event st).
Hypothesis P_skip : forall st num, P st -> P (mark_skip num st).

Lemma traverse_preserves fuel original_frame pos num st st' :
  P st -> traverse fuel event original_frame pos num st = Some st' -> P st'.
Proof.
  revert pos num st. induction fuel as [|fuel IH]; intros pos num st HP; simpl.
  - destruct (w_list st !! pos); [done|]. by intros [= <-].
  - destruct (w_list st !! pos) as [fh|] eqn:E; [|by intros [= <-]].
    destruct (Z.eqb_spec (detach_and_destroy_me fh) 0) as [Hflag|Hflag].
    + destruct (w_skip st !! num) as [sk|]; [|done].
      destruct (sk =? 0).
      * destruct (w_frame (call_event_cb fh event st) =? original_frame).
        -- apply IH. by eapply P_call.
        -- intros [= <-]. apply P_skip. by eapply P_call.
      * by apply IH.
    + apply IH. by eapply P_destroy.
Qed.

Lemma push_loop_preserves fuel st passes st' p :
  P st -> push_loop fuel event st passes = Some (st', p) -> P st'.
Proof.
  revert st passes. induction fuel as [|fuel IH]; intros st passes HP; simpl; [done|].
  destruct (traverse _ _ _ _ _ st) as [st1|] eqn:Et; [|done].
  apply traverse_preserves in Et; [|done].
  destruct (w_frame st1 =? w_frame st).
  - by intros [= <- <-].
  - by apply IH.
Qed.


End Preservation.

(** The effects of one unlink-and-destroy and of one callback call. *)
Definition detach_calls (tr : list effect) : Prop :=
  Forall (fun e => exists x res, e = Detach x res) tr.

Lemma destroy_trace fh st :
  exists dets,
    detach_calls dets /\
    w_trace (framehook_detach_and_destroy fh st) =
      w_trace st ++ [EventCb (fh_id fh) AST_FRAMEHOOK_EVENT_DETACHED NULL] ++ dets
        ++ (if cb_frame (i_event_cb fh AST_FRAMEHOOK_EVENT_DETACHED NULL (w_data st)) =? NULL
            then []
            else [FrFree (cb_frame (i_event_cb fh AST_FRAMEHOOK_EVENT_DETACHED NULL (w_data st)))])
        ++ match i_destroy_cb fh with Some _ => [DestroyCb (fh_id fh)] | None => [] end
        ++ [Free (fh_id fh)].
Proof.
  unfold framehook_detach_and_destroy.
  destruct (run_detaches_trace
    (cb_detach (i_event_cb fh AST_FRAMEHOOK_EVENT_DETACHED NULL (w_data st)))
    (w_list st)
    (w_trace st ++ [EventCb (fh_id fh) AST_FRAMEHOOK_EVENT_DETACHED NULL])) as (dets & E & HF).
  destruct (run_detaches _ _ _) as [l tr]. simpl in E. subst tr.
  exists dets. split; [done|].
  destruct (_ =? NULL), (i_destroy_cb fh); simpl; rewrite <- ?app_assoc; simpl; try done.
  all: by rewrite ?app_nil_r.
Qed.



(** *** Counting DETACHED and destroy calls *)

Section Counting.

Variable l0 : list (@ast_framehook U).
Variable tr0 : list effect.





End Counting.

End Invariants.

Section Safety.

Context {U : Type}.

Implicit Types (l : list (@ast_framehook U)) (chan : @channel U) (st : @walk U)
  (framehook fh : @ast_framehook U) (tr new : list effect).

Variable l0 : list (@ast_framehook U).
Variable tr0 : list effect.

(** What holds of the list [l] and of the effects [new] since the start
    [l0] of a dispatch: ids stay distinct; an id whose entries were all
    flagged (or gone) at the start, or for which a detach has succeeded
    since, has only flagged entries left and has received no READ or WRITE
    from then on. *)
Definition safe l new : Prop :=
  NoDup (ids l) /\
  (forall x, dead x l0 -> dead x l) /\
  (forall x, dead x l0 -> quiet x new) /\
  (forall x pre post, new = pre ++ Detach x 0 :: post -> quiet x post) /\
  (forall x, In (Detach x 0) new -> dead x l).

Definition safe_walk st : Prop :=
  exists new, w_trace st = tr0 ++ new /\ safe (w_list st) new.











Lemma safe_skip st num : safe_walk st -> safe_walk (mark_skip num st).
Proof. done. Qed.

End Safety.

Section LastPass.

Context {U : Type}.

Implicit Types (l : list (@ast_framehook U)) (chan : @channel U) (st : @walk U)
  (framehook fh : @ast_framehook U) (tr new : list effect).





End LastPass.

Section DeferredDestruction.

Context {U : Type}.

Implicit Types (l : list (@ast_framehook U)) (chan : @channel U) (st : @walk U)
  (framehook fh : @ast_framehook U) (tr new : list effect).














End DeferredDestruction.

(** ** A hook detached from inside a callback *)

Section InCallback.

Context {U : Type}.

Implicit Types (l : list (@ast_framehook U)) (chan : @channel U) (st : @walk U)
  (framehook fh : @ast_framehook U) (tr new : list effect).






(** *** Where the hooks and the detach calls of a walk come from *)

Section Rooted.

Variable l0 : list (@ast_framehook U).
Variable tr0 : list effect.





End Rooted.

(** *** A hook that detaches itself *)

Section Selfish.

Variable x : Z.
Variable tr0 : list effect.









End Selfish.




End InCallback.

Section DeferredTheorem.

Context {U : Type}.

Implicit Types (l : list (@ast_framehook U)) (chan : @channel U).






End DeferredTheorem.

(** ** Scenarios *)

(** Concrete hooks over callbacks that keep no memory of their own. *)
Section Scenarios.

(** The interface version the scenarios are compiled against. *)
Definition scenario_version : Z := 1.

(** A hook that returns the frame it is given. *)
Definition passive : @event_cb_t unit :=
  fun _ frame u => {| cb_frame := frame; cb_data := u; cb_detach := [] |}.

(** A hook that answers frame [old] with frame [new]. *)
Definition substitute (old new : Z) : @event_cb_t unit :=
  fun _ frame u =>
    {| cb_frame := if frame =? old then new else frame; cb_data := u; cb_detach := [] |}.

(** A hook that detaches itself (it knows its id) from its READ and WRITE
    callback and returns the frame it is given. *)
Definition one_shot (id : Z) : @event_cb_t unit :=
  fun event frame u =>
    {| cb_frame := frame; cb_data := u;
       cb_detach := match event with
                    | AST_FRAMEHOOK_EVENT_READ | AST_FRAMEHOOK_EVENT_WRITE => [id]
                    | _ => []
                    end |}.

Definition iface (cb : @event_cb_t unit) : @ast_framehook_interface unit :=
  {| version := scenario_version; event_cb := Some cb; destroy_cb := None |}.

Definition fresh : @channel unit := {| framehooks := None; data := tt; trace := [] |}.

Definition attached (chan : @channel unit) (cb : @event_cb_t unit) : @channel unit :=
  (ast_framehook_attach scenario_version true true chan (iface cb)).2.

(** Hooks A, B, C attached in that order (ids 1, 2, 3); B substitutes frame
    200 for frame 100. *)
Definition chan_abc : @channel unit :=
  attached (attached (attached fresh passive) (substitute 100 200)) passive.

(** The same with a hook A that detaches itself when it is called. *)
Definition chan_one_shot_abc : @channel unit :=
  attached (attached (attached fresh (one_shot 1)) (substitute 100 200)) passive.

(** One hook that substitutes. *)
Definition chan_one : @channel unit := attached fresh (substitute 100 200).

(** Two passive hooks. *)
Definition chan_two : @channel unit := attached (attached fresh passive) passive.

(** A channel whose list has handed out [INT_MAX] ids and is empty again. *)
Definition chan_worn : @channel unit :=
  {| framehooks := Some {| fhl_count := CInt.INT_MAX; fhl_id_count := CInt.INT_MAX;
                           fhl_list := [] |};
     data := tt; trace := [] |}.

(** The effects of a dispatch on [chan], after those [chan] already had. *)
Definition new_effects (chan : @channel unit)
    (r : option (Z * @channel unit * nat)) : option (list effect) :=
  match r with
  | Some (_, chan', _) => Some (drop (length (trace chan)) (trace chan'))
  | None => None
  end.

(** With hooks A, B, C where only B substitutes, a dispatch calls A, then
    B, then A again and C with the new frame, and returns the new frame. *)
Lemma abc_order :
  new_effects chan_abc (ast_framehook_list_read_event chan_abc 100) =
    Some [EventCb 1 AST_FRAMEHOOK_EVENT_READ 100;
          EventCb 2 AST_FRAMEHOOK_EVENT_READ 100;
          EventCb 1 AST_FRAMEHOOK_EVENT_READ 200;
          EventCb 3 AST_FRAMEHOOK_EVENT_READ 200] /\
  option_map (fun r => r.1.1) (ast_framehook_list_read_event chan_abc 100) = Some 200.
Proof. split; reflexivity. Qed.

(** C1, at an input where the code departs from it.  Hook A detaches
    itself in its callback and B substitutes.  On the second pass A is
    unlinked, so B moves to slot 0 of [skip] while the mark it got sits in
    slot 1: B is called again, with the frame it substituted itself, and C,
    now at slot 1, is skipped and never sees a frame. *)
Theorem skip_mark_shifts_on_unlink :
  new_effects chan_one_shot_abc (ast_framehook_list_read_event chan_one_shot_abc 100) =
    Some [EventCb 1 AST_FRAMEHOOK_EVENT_READ 100;
          Detach 1 0;
          EventCb 2 AST_FRAMEHOOK_EVENT_READ 100;
          EventCb 1 AST_FRAMEHOOK_EVENT_DETACHED 0;
          Free 1;
          EventCb 2 AST_FRAMEHOOK_EVENT_READ 200] /\
  option_map (fun r => (r.1.1, ids (hook_list r.1.2)))
             (ast_framehook_list_read_event chan_one_shot_abc 100) = Some (200, [2; 3]).
Proof. split; reflexivity. Qed.

(** C7 as stated fails: with one hook, which substitutes, the loop makes
    two passes. *)
Lemma one_hook_two_passes :
  length (hook_list chan_one) = 1%nat /\
  option_map (fun r => r.2) (ast_framehook_list_read_event chan_one 100) = Some 2%nat.
Proof. split; reflexivity. Qed.

(** C8 as stated fails: the attach after id [INT_MAX] succeeds and
    returns a negative id. *)
Lemma attach_id_overflows :
  id_counter chan_worn = 2147483647 /\
  attach_succeeds scenario_version true true chan_worn (iface passive) = true /\
  (ast_framehook_attach scenario_version true true chan_worn (iface passive)).1 = -2147483648.
Proof. repeat split; reflexivity. Qed.

(** C9, at the input of the scenario it names.  Two hooks are attached,
    hook 1 is detached and a frame is dispatched: hook 1 is unlinked and
    destroyed, only hook 2 sees the frame, one hook is left in the list, and
    [count] still says 2. *)
Theorem count_is_not_decremented :
  let chan := (ast_framehook_detach chan_two 1).2 in
  new_effects chan (ast_framehook_list_read_event chan 100) =
    Some [EventCb 1 AST_FRAMEHOOK_EVENT_DETACHED 0; Free 1;
          EventCb 2 AST_FRAMEHOOK_EVENT_READ 100] /\
  option_map (fun r => (ids (hook_list r.1.2), option_map fhl_count (framehooks r.1.2)))
             (ast_framehook_list_read_event chan 100) = Some ([2], Some 2).
Proof. split; reflexivity. Qed.

End Scenarios.

(** In general no dispatch changes [count], whatever it unlinks. *)
Lemma push_event_keeps_count {U} (chan : @channel U) frame event frame' chan' passes :
  framehook_list_push_event chan frame event = Some (frame', chan', passes) ->
  option_map fhl_count (framehooks chan') = option_map fhl_count (framehooks chan).
Proof.
  unfold framehook_list_push_event. destruct (framehooks chan) as [fhl|] eqn:E.
  - destruct (push_loop _ _ _ _) as [[st p]|]; [|done]. by intros [= <- <- <-].
  - intros [= <- <- <-]. by rewrite E.
Qed.

(** ** Witnesses *)

Lemma detach_only_flags_witness :
  In (CInt.to_unsigned 1) (ids (hook_list chan_two)) /\
  Forall (fun fh => detach_and_destroy_me fh = 0) (hook_list chan_two) /\
  exists chan' fh',
    ast_framehook_detach chan_two 1 = (0, chan') /\
    In fh' (hook_list chan') /\
    fh_id fh' = 1 /\
    detach_and_destroy_me fh' = 1 /\
    ids (hook_list chan') = [1; 2] /\
    trace chan' = trace chan_two /\
    ast_framehook_detach chan' 1 = (0, chan').
Proof.
  assert (In (CInt.to_unsigned 1) (ids (hook_list chan_two))) as Hin by (left; reflexivity).
  split; [exact Hin|].
  split; [repeat (apply List.Forall_cons; [reflexivity|]); apply List.Forall_nil|].
  destruct (proj2 (detach_only_flags chan_two 1) Hin)
    as (fhl & l1 & fh & l2 & chan' & fhl' & fh' & _ & _ & _ & Hid & E1 & _ & Etr & Efh & _ & _
        & El & Hflag & Hid' & _ & _ & _ & Hids & E2).
  exists chan', fh'. split; [exact E1|]. split.
  - unfold hook_list. rewrite Efh, El. apply in_elt.
  - split; [rewrite Hid', Hid; reflexivity|]. split; [exact Hflag|].
    split; [rewrite Hids; reflexivity|]. split; [exact Etr|exact E2].
Defined.

Definition scenario_calls : list (@call unit) :=
  [Attach true true (iface passive); Attach true true (iface passive); DetachId 1;
   ReadEvent 100; Attach true true (iface passive)].

Definition chan_after_calls : @channel unit :=
  match run_calls scenario_version scenario_calls fresh with
  | Some (_, chan) => chan
  | None => fresh
  end.

Lemma attach_ids_increase_witness :
  run_calls scenario_version scenario_calls fresh = Some ([1; 2; 3], chan_after_calls) /\
  0 <= id_counter fresh /\
  id_counter fresh + Z.of_nat (length [1; 2; 3]) <= CInt.INT_MAX /\
  StronglySorted Z.lt [1; 2; 3] /\
  Forall (fun r => id_counter fresh < r <= id_counter chan_after_calls) [1; 2; 3] /\
  id_counter chan_after_calls = id_counter fresh + Z.of_nat (length [1; 2; 3]).
Proof.
  assert (run_calls scenario_version scenario_calls fresh = Some ([1; 2; 3], chan_after_calls))
    as Hrun by reflexivity.
  assert (0 <= id_counter fresh) as H0 by (vm_compute; discriminate).
  assert (id_counter fresh + Z.of_nat (length [1; 2; 3]) <= CInt.INT_MAX) as Hmax
    by (vm_compute; discriminate).
  split; [exact Hrun|]. split; [exact H0|]. split; [exact Hmax|].
  exact (attach_ids_increase scenario_version scenario_calls fresh [1; 2; 3]
           chan_after_calls Hrun H0 Hmax).
Defined.

Lemma push_event_terminates_witness :
  skip_fits chan_abc /\
  exists frame' chan' passes,
    framehook_list_push_event chan_abc 100 AST_FRAMEHOOK_EVENT_READ
      = Some (frame', chan', passes) /\
    (passes <= length (hook_list chan_abc) + 1)%nat.
Proof.
  assert (skip_fits chan_abc) as Hfit by (vm_compute; lia).
  split; [exact Hfit|].
  exact (push_event_terminates chan_abc 100 AST_FRAMEHOOK_EVENT_READ Hfit).
Defined.



(** ** Attach, teardown and dispatch through inactive or passive hooks *)

(** The calls that end a hook's life, in the order the code makes them:
    the DETACHED event, the destroy callback when there is one, and the
    release of the hook. *)
Definition is_teardown (e : effect) : bool :=
  match e with
  | EventCb _ AST_FRAMEHOOK_EVENT_DETACHED _ | DestroyCb _ | Free _ => true
  | _ => false
  end.

(** Effects in which no hook is told of a frame or of an attachment: the
    calls of a teardown, the detach calls made from inside a callback, and
    the release of a frame a callback returned. *)
Definition is_lifecycle (e : effect) : bool :=
  match e with
  | EventCb _ AST_FRAMEHOOK_EVENT_DETACHED frame => frame =? NULL
  | EventCb _ _ _ => false
  | _ => true
  end.

(** The [count] field of the channel's list. *)
Definition hook_count {U} (chan : @channel U) : Z :=
  match framehooks chan with
  | None => 0
  | Some fhl => fhl_count fhl
  end.

Section Lifecycle.

Context {U : Type}.
Variable AST_FRAMEHOOK_INTERFACE_VERSION : Z.

Implicit Types (l : list (@ast_framehook U)) (chan : @channel U) (st : @walk U)
  (fh : @ast_framehook U) (tr new : list effect).

Definition teardown_of fh : list effect :=
  EventCb (fh_id fh) AST_FRAMEHOOK_EVENT_DETACHED NULL
  :: match i_destroy_cb fh with Some _ => [DestroyCb (fh_id fh)] | None => [] end
  ++ [Free (fh_id fh)].

Definition flagged fh : Prop := detach_and_destroy_me fh <> 0.

Lemma teardown_of_flags l l' :
  flags_set l l' -> flat_map teardown_of l' = flat_map teardown_of l.
Proof.
  induction 1 as [|a b l l' Hab _ IH]; [done|]. simpl. rewrite IH.
  by destruct Hab as [->| ->].
Qed.

Lemma flagged_flags l l' : flags_set l l' -> Forall flagged l -> Forall flagged l'.
Proof.
  induction 1 as [|a b l l' Hab _ IH]; [done|]. intros HF.
  apply List.Forall_cons_iff in HF as [Ha Hl]. constructor; [|by apply IH].
  destruct Hab as [->| ->]; [done|]. unfold flagged. simpl. lia.
Qed.

Lemma detach_calls_filter (p : effect -> bool) dets :
  (forall x res, p (Detach x res) = false) -> detach_calls dets -> List.filter p dets = [].
Proof.
  intros Hp. induction 1 as [|e dets (x & res & ->) _ IH]; [done|]. simpl.
  by rewrite Hp.
Qed.

Lemma detach_calls_lifecycle dets : detach_calls dets -> Forall (fun e => is_lifecycle e = true) dets.
Proof. intros HF. eapply Forall_impl; [exact HF|]. by intros e (x & res & ->). Qed.

(** One unlink-and-destroy adds the hook's teardown calls and nothing a
    hook could take for a frame. *)
Lemma destroy_step fh st :
  exists new,
    w_trace (framehook_detach_and_destroy fh st) = w_trace st ++ new /\
    List.filter is_teardown new = teardown_of fh /\
    Forall (fun e => is_lifecycle e = true) new.
Proof.
  destruct (destroy_trace fh st) as (dets & Hdets & E).
  eexists. split; [exact E|]. split.
  - rewrite !List.filter_app, (detach_calls_filter is_teardown dets) by done.
    unfold teardown_of. simpl. destruct (_ =? NULL), (i_destroy_cb fh); done.
  - apply Forall_app. split; [by repeat constructor|].
    apply Forall_app. split; [by apply detach_calls_lifecycle|].
    apply Forall_app. split; [destruct (_ =? NULL); by repeat constructor|].
    apply Forall_app. split; [destruct (i_destroy_cb fh); by repeat constructor|].
    by repeat constructor.
Qed.

(** The teardown loop: every hook, head first. *)
Lemma destroy_traverse_order fuel st :
  (length (w_list st) <= fuel)%nat ->
  exists st' new,
    destroy_traverse fuel st = Some st' /\
    w_list st' = [] /\ w_frame st' = w_frame st /\ w_skip st' = w_skip st /\
    w_trace st' = w_trace st ++ new /\
    List.filter is_teardown new = flat_map teardown_of (w_list st) /\
    Forall (fun e => is_lifecycle e = true) new.
Proof.
  revert st. induction fuel as [|fuel IH]; intros st Hlen; simpl.
  - destruct (w_list st) eqn:E; simpl in *; [|lia].
    exists st, []. rewrite app_nil_r, E. done.
  - destruct (w_list st) as [|fh l] eqn:E; simpl.
    + exists st, []. rewrite app_nil_r. done.
    + destruct (destroy_fields fh (remove_current O st)) as (Hl & Hf & Hs).
      destruct (destroy_step fh (remove_current O st)) as (new1 & Etr & Hfil & Hlife).
      simpl in Hl, Hf, Hs, Etr. rewrite E in Hl. simpl in Hl.
      destruct (IH (framehook_detach_and_destroy fh (remove_current O st)))
        as (st' & new2 & -> & Hnil & Hf' & Hs' & Etr' & Hfil' & Hlife').
      { rewrite (flags_set_length _ _ Hl). simpl in Hlen. lia. }
      exists st', (new1 ++ new2). split_and!; try done; try congruence.
      * rewrite Etr', Etr. by rewrite app_assoc.
      * rewrite List.filter_app, Hfil, Hfil', (teardown_of_flags _ _ Hl). done.
      * apply Forall_app. done.
Qed.

(** X1. [ast_framehook_list_destroy] always returns 0 and leaves the
    channel without a list.  Every hook of the list, head first (the order
    of attachment), gets its DETACHED event, then its destroy callback when
    it has one, then is released; no hook is told of a frame or of an
    attachment meanwhile.  The channel's list is empty afterwards, a
    second teardown does nothing, and the id counter is gone with the
    list: the next hook attached gets id 1 again. *)
Theorem list_destroy_tears_down_in_order chan :
  exists chan' new,
    ast_framehook_list_destroy chan = Some (0, chan') /\
    framehooks chan' = None /\
    trace chan' = trace chan ++ new /\
    List.filter is_teardown new = flat_map teardown_of (hook_list chan) /\
    Forall (fun e => is_lifecycle e = true) new /\
    ast_framehook_list_is_empty (framehooks chan') = 1 /\
    ast_framehook_list_destroy chan' = Some (0, chan') /\
    forall calloc_hook calloc_list i,
      attach_succeeds AST_FRAMEHOOK_INTERFACE_VERSION calloc_hook calloc_list chan' i = true ->
      (ast_framehook_attach AST_FRAMEHOOK_INTERFACE_VERSION calloc_hook calloc_list chan' i).1
      = 1.
Proof.
  assert (forall chan', framehooks chan' = None ->
    forall calloc_hook calloc_list i,
      attach_succeeds AST_FRAMEHOOK_INTERFACE_VERSION calloc_hook calloc_list chan' i = true ->
      (ast_framehook_attach AST_FRAMEHOOK_INTERFACE_VERSION calloc_hook calloc_list chan' i).1
      = 1) as Hnext.
  { intros chan' Hnone calloc_hook calloc_list i Hs.
    destruct (attach_id AST_FRAMEHOOK_INTERFACE_VERSION _ _ _ _ Hs) as [E1 E2].
    simpl in E1, E2. rewrite E2, E1. unfold id_counter. by rewrite Hnone. }
  unfold ast_framehook_list_destroy, hook_list.
  destruct (framehooks chan) as [fhl|] eqn:E.
  - destruct (destroy_traverse_order (length (fhl_list fhl))
                {| w_list := fhl_list fhl; w_frame := NULL; w_skip := [];
                   w_data := data chan; w_trace := trace chan |})
      as (st' & new & -> & _ & _ & _ & Etr & Hfil & Hlife); [simpl; lia|].
    eexists _, new. split; [reflexivity|]. simpl. split_and!; try done.
    by apply Hnext.
  - exists chan, []. rewrite E, app_nil_r. split_and!; try done. by apply Hnext.
Qed.

(** With every entry flagged, a traversal of the dispatch loop is the
    teardown loop. *)
Lemma traverse_inactive fuel event st :
  Forall flagged (w_list st) ->
  traverse fuel event (w_frame st) 0 0 st = destroy_traverse fuel st.
Proof.
  revert st. induction fuel as [|fuel IH]; intros st HF; simpl; [done|].
  destruct (w_list st) as [|fh l] eqn:E; simpl; [done|].
  apply List.Forall_cons_iff in HF as [Hfh Hl].
  destruct (Z.eqb_spec (detach_and_destroy_me fh) 0) as [Hz|_]; [done|].
  destruct (destroy_fields fh (remove_current O st)) as (Hfl & Hf & _).
  simpl in Hfl, Hf. rewrite E in Hfl. simpl in Hfl.
  rewrite <- Hf. apply IH. by eapply flagged_flags.
Qed.

(** X2. When [ast_framehook_list_contains_no_active] returns 1, a read or
    write event returns the frame it was given.  No hook is told of the
    frame: the dispatch only tears the flagged hooks down, head first, and
    leaves an empty list. *)
Theorem inactive_list_passes_frame chan frame event :
  ast_framehook_list_contains_no_active (framehooks chan) = 1 ->
  exists chan' passes new,
    framehook_list_push_event chan frame event = Some (frame, chan', passes) /\
    (passes <= 1)%nat /\
    hook_list chan' = [] /\
    ast_framehook_list_is_empty (framehooks chan') = 1 /\
    trace chan' = trace chan ++ new /\
    List.filter is_teardown new = flat_map teardown_of (hook_list chan) /\
    Forall (fun e => is_lifecycle e = true) new.
Proof.
  unfold ast_framehook_list_contains_no_active, framehook_list_push_event, hook_list.
  destruct (framehooks chan) as [fhl|] eqn:E.
  - destruct (forallb _ _) eqn:Hall; [intros _|done].
    assert (Forall flagged (fhl_list fhl)) as HF.
    { apply List.Forall_forall. intros fh Hin.
      rewrite forallb_forall in Hall. specialize (Hall fh Hin). unfold flagged.
      destruct (Z.eqb_spec (detach_and_destroy_me fh) 0); done. }
    set (st := {| w_list := fhl_list fhl; w_frame := frame;
                  w_skip := replicate (Z.to_nat (fhl_count fhl)) 0;
                  w_data := data chan; w_trace := trace chan |}).
    destruct (destroy_traverse_order (length (fhl_list fhl)) st)
      as (st' & new & Ed & Hnil & Hf & _ & Etr & Hfil & Hlife); [simpl; lia|].
    simpl. change (fhl_list fhl) with (w_list st) at 1. change frame with (w_frame st) at 1.
    rewrite traverse_inactive by done. simpl. rewrite Ed, Hf. simpl. rewrite Z.eqb_refl.
    eexists _, _, new. split; [by rewrite Hf|]. simpl. rewrite Hnil.
    split_and!; done.
  - intros _. exists chan, O, []. rewrite E, app_nil_r. split_and!; done || lia.
Qed.

End Lifecycle.

(** ** Attach *)

Section AttachFacts.

Context {U : Type}.
Variable AST_FRAMEHOOK_INTERFACE_VERSION : Z.

Implicit Types (l : list (@ast_framehook U)) (chan : @channel U) (st : @walk U)
  (fh : @ast_framehook U) (i : @ast_framehook_interface U).

Lemma attach_succeeds_iff calloc_hook calloc_list chan i :
  attach_succeeds AST_FRAMEHOOK_INTERFACE_VERSION calloc_hook calloc_list chan i = false <->
  version i <> AST_FRAMEHOOK_INTERFACE_VERSION \/ event_cb i = None \/ calloc_hook = false \/
  (framehooks chan = None /\ calloc_list = false).
Proof.
  unfold attach_succeeds.
  destruct (Z.eqb_spec (version i) AST_FRAMEHOOK_INTERFACE_VERSION) as [Ev|Ev],
    (event_cb i) as [cb|], calloc_hook, (framehooks chan) as [fhl|], calloc_list;
    simpl; split; intros Hx; try done; try tauto;
    solve [ destruct Hx as [Hx | [Hx | [Hx | [Hx Hy]]]]; done ].
Qed.

(** X3. While fewer than [INT_MAX] ids have been handed out,
    [ast_framehook_attach] returns -1 exactly when it fails: the interface
    version is not the one compiled against, the event callback is NULL,
    or an allocation fails.  A failed attach leaves the channel as it was
    (no list is created, no callback is called); a successful one returns
    the id counter plus one, which is positive. *)
Theorem attach_fails_cleanly calloc_hook calloc_list chan i :
  0 <= id_counter chan < CInt.INT_MAX ->
  ((ast_framehook_attach AST_FRAMEHOOK_INTERFACE_VERSION calloc_hook calloc_list chan i).1 = -1
   <-> version i <> AST_FRAMEHOOK_INTERFACE_VERSION \/ event_cb i = None \/
       calloc_hook = false \/ (framehooks chan = None /\ calloc_list = false)) /\
  ((ast_framehook_attach AST_FRAMEHOOK_INTERFACE_VERSION calloc_hook calloc_list chan i).1 = -1
   -> (ast_framehook_attach AST_FRAMEHOOK_INTERFACE_VERSION calloc_hook calloc_list chan i).2
      = chan) /\
  ((ast_framehook_attach AST_FRAMEHOOK_INTERFACE_VERSION calloc_hook calloc_list chan i).1 <> -1
   -> (ast_framehook_attach AST_FRAMEHOOK_INTERFACE_VERSION calloc_hook calloc_list chan i).1
      = id_counter chan + 1).
Proof.
  intros Hid. rewrite <- attach_succeeds_iff.
  destruct (attach_succeeds AST_FRAMEHOOK_INTERFACE_VERSION calloc_hook calloc_list chan i)
    eqn:Hs.
  - destruct (attach_id AST_FRAMEHOOK_INTERFACE_VERSION _ _ _ _ Hs) as [E1 E2].
    simpl in E1, E2. rewrite E2, E1.
    destruct (small_id (id_counter chan)) as [-> ->]; [lia | lia |].
    split_and!; try done; lia.
  - rewrite (attach_fails AST_FRAMEHOOK_INTERFACE_VERSION _ _ _ _ Hs). simpl.
    split_and!; done.
Qed.

(** X4. A successful [ast_framehook_attach] puts the new hook, unflagged
    and with the next id, at the tail of the list, behind the hooks that
    were there; [count] and [id_count] grow by one.  The hook's event
    callback is called once, with the ATTACHED event and no frame, before
    the function returns; whatever frame it returns is released.  Nothing
    else changes, but for the flags set by detach calls the callback makes
    itself. *)
Theorem attach_appends_hook calloc_hook calloc_list chan i :
  attach_succeeds AST_FRAMEHOOK_INTERFACE_VERSION calloc_hook calloc_list chan i = true ->
  exists cb dets,
    event_cb i = Some cb /\
    flags_set
      (hook_list chan ++
       [{| i_event_cb := cb; i_destroy_cb := destroy_cb i;
           fh_id := CInt.to_unsigned (id_counter chan + 1); detach_and_destroy_me := 0 |}])
      (hook_list
         (ast_framehook_attach AST_FRAMEHOOK_INTERFACE_VERSION calloc_hook calloc_list chan i).2) /\
    (cb_detach (cb AST_FRAMEHOOK_EVENT_ATTACHED NULL (data chan)) = [] ->
     hook_list
       (ast_framehook_attach AST_FRAMEHOOK_INTERFACE_VERSION calloc_hook calloc_list chan i).2
     = hook_list chan ++
       [{| i_event_cb := cb; i_destroy_cb := destroy_cb i;
           fh_id := CInt.to_unsigned (id_counter chan + 1); detach_and_destroy_me := 0 |}]) /\
    hook_count
      (ast_framehook_attach AST_FRAMEHOOK_INTERFACE_VERSION calloc_hook calloc_list chan i).2
    = CInt.to_unsigned (hook_count chan + 1) /\
    id_counter
      (ast_framehook_attach AST_FRAMEHOOK_INTERFACE_VERSION calloc_hook calloc_list chan i).2
    = CInt.to_unsigned (id_counter chan + 1) /\
    data (ast_framehook_attach AST_FRAMEHOOK_INTERFACE_VERSION calloc_hook calloc_list chan i).2
    = cb_data (cb AST_FRAMEHOOK_EVENT_ATTACHED NULL (data chan)) /\
    detach_calls dets /\
    trace (ast_framehook_attach AST_FRAMEHOOK_INTERFACE_VERSION calloc_hook calloc_list chan i).2
    = trace chan
      ++ [EventCb (CInt.to_unsigned (id_counter chan + 1)) AST_FRAMEHOOK_EVENT_ATTACHED NULL]
      ++ dets
      ++ (if cb_frame (cb AST_FRAMEHOOK_EVENT_ATTACHED NULL (data chan)) =? NULL then []
          else [FrFree (cb_frame (cb AST_FRAMEHOOK_EVENT_ATTACHED NULL (data chan)))]).
Proof.
  unfold attach_succeeds, ast_framehook_attach, hook_list, hook_count, id_counter.
  destruct (version i =? AST_FRAMEHOOK_INTERFACE_VERSION); simpl; [|done].
  destruct (event_cb i) as [cb|]; simpl; [|done].
  destruct calloc_hook; simpl; [|done].
  assert (forall fhl : @ast_framehook_list U,
    let hook := {| i_event_cb := cb; i_destroy_cb := destroy_cb i;
                   fh_id := CInt.to_unsigned (fhl_id_count fhl + 1);
                   detach_and_destroy_me := 0 |} in
    let r := cb AST_FRAMEHOOK_EVENT_ATTACHED NULL (data chan) in
    exists dets,
      flags_set (fhl_list fhl ++ [hook])
        (run_detaches (cb_detach r) (fhl_list fhl ++ [hook])
           (trace chan ++ [EventCb (fh_id hook) AST_FRAMEHOOK_EVENT_ATTACHED NULL])).1 /\
      (cb_detach r = [] ->
       (run_detaches (cb_detach r) (fhl_list fhl ++ [hook])
          (trace chan ++ [EventCb (fh_id hook) AST_FRAMEHOOK_EVENT_ATTACHED NULL])).1
       = fhl_list fhl ++ [hook]) /\
      detach_calls dets /\
      (run_detaches (cb_detach r) (fhl_list fhl ++ [hook])
         (trace chan ++ [EventCb (fh_id hook) AST_FRAMEHOOK_EVENT_ATTACHED NULL])).2
      = trace chan ++ [EventCb (fh_id hook) AST_FRAMEHOOK_EVENT_ATTACHED NULL] ++ dets)
    as Hrun.
  { intros fhl hook r.
    destruct (run_detaches_trace (cb_detach r) (fhl_list fhl ++ [hook])
                (trace chan ++ [EventCb (fh_id hook) AST_FRAMEHOOK_EVENT_ATTACHED NULL]))
      as (dets & E & Hd).
    exists dets. split_and!; try done.
    - apply run_detaches_flags.
    - by intros ->.
    - by rewrite E, <- app_assoc. }
  destruct (framehooks chan) as [fhl|] eqn:E; simpl.
  - intros _. destruct (Hrun fhl) as (dets & Hfl & Hsame & Hd & Etr). simpl in *.
    destruct (run_detaches _ _ _) as [l tr]. simpl in *. subst tr.
    exists cb, dets. split_and!; try done.
    destruct (_ =? NULL); simpl; by rewrite <- ?app_assoc, ?app_nil_r.
  - destruct calloc_list; [intros _|done].
    destruct (Hrun {| fhl_count := 0; fhl_id_count := 0; fhl_list := [] |})
      as (dets & Hfl & Hsame & Hd & Etr). simpl in *.
    destruct (run_detaches _ _ _) as [l tr]. simpl in *. subst tr.
    exists cb, dets. split_and!; try done.
    destruct (_ =? NULL); simpl; by rewrite <- ?app_assoc, ?app_nil_r.
Qed.

End AttachFacts.

(** ** Dispatch through hooks that pass the frame on *)

Section PassiveDispatch.

Context {U : Type}.

Implicit Types (l : list (@ast_framehook U)) (chan : @channel U) (st : @walk U)
  (fh : @ast_framehook U).

(** A hook that is not flagged and whose callback, handed [frame] with
    [event], returns that frame and detaches nothing, whatever the
    callbacks' memory holds. *)
Definition passes_on (event : ast_framehook_event) (frame : Z) fh : Prop :=
  detach_and_destroy_me fh = 0 /\
  forall d : U, cb_frame (i_event_cb fh event frame d) = frame /\
                cb_detach (i_event_cb fh event frame d) = [].

(** The memory of the callbacks after the hooks of [l] ran in order. *)
Definition data_after (event : ast_framehook_event) (frame : Z) l (d : U) : U :=
  foldl (fun d fh => cb_data (i_event_cb fh event frame d)) d l.

Definition calls_of (event : ast_framehook_event) (frame : Z) l : list effect :=
  map (fun fh => EventCb (fh_id fh) event frame) l.

Lemma traverse_passive event frame l skip fuel pos (d : U) tr :
  Forall (passes_on event frame) l ->
  Forall (fun z => z = 0) skip ->
  (length l <= length skip)%nat ->
  (length l - pos <= fuel)%nat ->
  traverse fuel event frame pos pos
    {| w_list := l; w_frame := frame; w_skip := skip; w_data := d; w_trace := tr |}
  = Some {| w_list := l; w_frame := frame; w_skip := skip;
            w_data := data_after event frame (drop pos l) d;
            w_trace := tr ++ calls_of event frame (drop pos l) |}.
Proof.
  intros Hp Hz Hlen. revert pos d tr.
  induction fuel as [|fuel IH]; intros pos d tr Hfuel.
  - simpl. rewrite lookup_ge_None_2 by lia. rewrite drop_ge by lia. simpl.
    by rewrite app_nil_r.
  - simpl. destruct (l !! pos) as [fh|] eqn:E.
    + rewrite (drop_S _ _ _ E). simpl.
      pose proof (proj1 (List.Forall_forall _ _) Hp fh) as Hfh.
      destruct Hfh as [Hflag Hcb]; [apply list_elem_of_In; by eapply list_elem_of_lookup_2|].
      rewrite Hflag. simpl.
      destruct (skip !! pos) as [sk|] eqn:Esk.
      2:{ apply lookup_ge_None in Esk. apply lookup_lt_Some in E. lia. }
      assert (sk = 0) as ->.
      { eapply (proj1 (List.Forall_forall _ _) Hz). apply list_elem_of_In.
        by eapply list_elem_of_lookup_2. }
      simpl. destruct (Hcb d) as [Hf Hd].
      unfold call_event_cb. simpl. rewrite Hd, Hf. simpl. rewrite Z.eqb_refl.
      rewrite IH by lia. by rewrite <- app_assoc.
    + rewrite drop_ge by (apply lookup_ge_None in E; lia). simpl. by rewrite app_nil_r.
Qed.

(** X5. When no hook of the list is flagged and every hook's callback
    returns the frame it is handed (for this event and frame) without
    detaching anything, a read or write event calls every hook's callback
    exactly once, in list order (the order of attachment), each with the
    frame and the event; it returns the frame after a single pass and
    leaves the list as it was. *)
Theorem passive_hooks_see_frame_once chan frame event :
  skip_fits chan ->
  Forall (passes_on event frame) (hook_list chan) ->
  exists chan' passes,
    framehook_list_push_event chan frame event = Some (frame, chan', passes) /\
    (passes <= 1)%nat /\
    framehooks chan' = framehooks chan /\
    trace chan' = trace chan ++ calls_of event frame (hook_list chan) /\
    data chan' = data_after event frame (hook_list chan) (data chan).
Proof.
  unfold skip_fits, hook_list, framehook_list_push_event.
  destruct (framehooks chan) as [fhl|] eqn:E.
  - intros Hfit Hp. simpl.
    rewrite (traverse_passive event frame (fhl_list fhl)); try done; try lia.
    + simpl. rewrite Z.eqb_refl. eexists _, _. split; [reflexivity|]. simpl.
      split_and!; try done. by destruct fhl.
    + apply Forall_replicate. done.
    + by rewrite length_replicate.
  - intros _ _. exists chan, O. rewrite E. simpl. rewrite app_nil_r.
    split_and!; try done. lia.
Qed.

End PassiveDispatch.

(** ** Sequences of calls stay inside [skip] *)

Section ApiSafety.

Context {U : Type}.
Variable AST_FRAMEHOOK_INTERFACE_VERSION : Z.

Implicit Types (l : list (@ast_framehook U)) (chan : @channel U) (st : @walk U)
  (fh : @ast_framehook U).

(** The list is no longer than [count], and [count] can grow [k] more
    times before it wraps. *)
Definition room chan (k : Z) : Prop :=
  skip_fits chan /\ 0 <= hook_count chan /\ hook_count chan + k < 2 ^ 32.

Lemma room_attach calloc_hook calloc_list chan i k :
  0 <= k -> room chan (k + 1) ->
  room (ast_framehook_attach AST_FRAMEHOOK_INTERFACE_VERSION calloc_hook calloc_list chan i).2 k
  /\ hook_count chan
     <= hook_count
          (ast_framehook_attach AST_FRAMEHOOK_INTERFACE_VERSION calloc_hook calloc_list chan i).2
     <= hook_count chan + 1.
Proof.
  intros Hk (Hfit & H0 & Hmax).
  unfold ast_framehook_attach.
  destruct (version i =? AST_FRAMEHOOK_INTERFACE_VERSION); simpl;
    [|unfold room; split_and!; done || lia].
  destruct (event_cb i) as [cb|]; simpl; [|unfold room; split_and!; done || lia].
  destruct calloc_hook; simpl; [|unfold room; split_and!; done || lia].
  unfold room, skip_fits, hook_count in *.
  destruct (framehooks chan) as [fhl|] eqn:E; simpl.
  - pose proof (run_detaches_flags
      (cb_detach (cb AST_FRAMEHOOK_EVENT_ATTACHED NULL (data chan)))
      (fhl_list fhl ++
       [{| i_event_cb := cb; i_destroy_cb := destroy_cb i;
           fh_id := CInt.to_unsigned (fhl_id_count fhl + 1); detach_and_destroy_me := 0 |}])
      (trace chan ++
       [EventCb (CInt.to_unsigned (fhl_id_count fhl + 1)) AST_FRAMEHOOK_EVENT_ATTACHED NULL]))
      as Hfl.
    apply flags_set_length in Hfl. rewrite length_app in Hfl. simpl in Hfl.
    destruct (run_detaches _ _ _) as [l tr]. simpl in *.
    unfold CInt.to_unsigned. rewrite Z.mod_small by lia. split_and!; lia.
  - destruct calloc_list; simpl; [|rewrite E; split_and!; done || lia].
    pose proof (run_detaches_flags
      (cb_detach (cb AST_FRAMEHOOK_EVENT_ATTACHED NULL (data chan)))
      ([] ++
       [{| i_event_cb := cb; i_destroy_cb := destroy_cb i;
           fh_id := CInt.to_unsigned (0 + 1); detach_and_destroy_me := 0 |}])
      (trace chan ++
       [EventCb (CInt.to_unsigned (0 + 1)) AST_FRAMEHOOK_EVENT_ATTACHED NULL]))
      as Hfl.
    apply flags_set_length in Hfl. simpl in Hfl.
    destruct (run_detaches _ _ _) as [l tr]. simpl in *.
    unfold CInt.to_unsigned. rewrite Z.mod_small by lia. split_and!; lia.
Qed.

Lemma room_detach chan id k :
  room chan k ->
  room (ast_framehook_detach chan id).2 k /\
  hook_count (ast_framehook_detach chan id).2 = hook_count chan.
Proof.
  unfold room, skip_fits, hook_count, ast_framehook_detach.
  destruct (framehooks chan) as [fhl|] eqn:E; simpl.
  - pose proof (detach_traverse_flags (fhl_list fhl) id) as Hfl.
    apply flags_set_length in Hfl.
    destruct (detach_traverse _ _) as [res l]. simpl in *. rewrite Hfl. done.
  - rewrite E. done.
Qed.

Lemma room_push_event chan frame event k :
  room chan k ->
  exists frame' chan' passes,
    framehook_list_push_event chan frame event = Some (frame', chan', passes) /\
    room chan' k /\ hook_count chan' = hook_count chan.
Proof.
  unfold room, skip_fits, hook_count, framehook_list_push_event.
  destruct (framehooks chan) as [fhl|] eqn:E; simpl.
  - intros (Hfit & H0 & Hmax).
    set (st := {| w_list := fhl_list fhl; w_frame := frame;
                  w_skip := replicate (Z.to_nat (fhl_count fhl)) 0;
                  w_data := data chan; w_trace := trace chan |}).
    destruct (push_loop_total (S (length (fhl_list fhl))) event st O) as (st' & p & Ep & _).
    { unfold free_in. pose proof (free_slots_le (length (w_list st)) (w_skip st)).
      simpl in *. lia. }
    { simpl. by rewrite length_replicate. }
    assert (length (w_list st') <= length (fhl_list fhl))%nat as Hlen.
    { apply (push_loop_preserves
               (fun s => (length (w_list s) <= length (fhl_list fhl))%nat) event)
        with (fuel := S (length (fhl_list fhl))) (st := st) (passes := O) (p := p).
      - intros s pos fh Hs Hpos.
        destruct (destroy_fields fh (remove_current pos s)) as (Hfl & _).
        rewrite (flags_set_length _ _ Hfl). simpl.
        rewrite length_delete by (by eexists). lia.
      - intros s pos fh Hs Hpos _.
        destruct (call_fields fh event s) as (Hfl & _).
        by rewrite (flags_set_length _ _ Hfl).
      - intros s num Hs. done.
      - simpl. lia.
      - exact Ep. }
    change (S (length (fhl_list fhl))) with (S (length (w_list st))) in Ep.
    fold st. simpl in Ep. rewrite Ep.
    eexists _, _, _. split; [reflexivity|]. simpl. split_and!; try done; lia.
  - intros Hr. eexists _, _, _. split; [reflexivity|]. rewrite E. done.
Qed.

(** X6. On a channel whose list is no longer than its [count], a sequence
    of attach, detach, read and write calls short enough for [count] not to
    wrap runs to its end: every dispatch returns, and none reads [skip]
    outside the [count] slots it has.  The list stays no longer than
    [count], which grows by one with each successful attach and never
    shrinks. *)
Theorem calls_stay_inside_skip calls chan :
  skip_fits chan ->
  0 <= hook_count chan ->
  hook_count chan + Z.of_nat (length calls) < 2 ^ 32 ->
  exists rets chan',
    run_calls AST_FRAMEHOOK_INTERFACE_VERSION calls chan = Some (rets, chan') /\
    skip_fits chan' /\
    hook_count chan <= hook_count chan' <= hook_count chan + Z.of_nat (length calls).
Proof.
  intros Hfit H0 Hmax.
  assert (room chan (Z.of_nat (length calls))) as Hroom by done.
  clear Hfit H0 Hmax. revert chan Hroom.
  induction calls as [|c calls IH]; intros chan Hroom.
  - exists [], chan. simpl. destruct Hroom as (Hfit & _). split_and!; done || lia.
  - assert (Z.of_nat (length (c :: calls)) = Z.of_nat (length calls) + 1) as Elen
      by (simpl; lia).
    rewrite Elen in Hroom |- *.
    destruct c as [calloc_hook calloc_list i | id | frame | frame]; simpl.
    + destruct (room_attach calloc_hook calloc_list chan i (Z.of_nat (length calls)))
        as [Hroom' Hcount]; [lia | done |].
      destruct (ast_framehook_attach _ _ _ _ _) as [res chan1]. simpl in *.
      destruct (IH chan1 Hroom') as (rets & chan' & -> & Hfit' & Hc').
      eexists _, chan'. split; [reflexivity|]. split; [done|]. lia.
    + destruct (room_detach chan id (Z.of_nat (length calls))) as [Hroom' Hcount].
      { destruct Hroom as (? & ? & ?). split_and!; done || lia. }
      destruct (IH _ Hroom') as (rets & chan' & -> & Hfit' & Hc').
      eexists _, chan'. split; [reflexivity|]. split; [done|]. lia.
    + destruct (room_push_event chan frame AST_FRAMEHOOK_EVENT_READ (Z.of_nat (length calls)))
        as (frame' & chan1 & passes & E & Hroom' & Hcount).
      { destruct Hroom as (? & ? & ?). split_and!; done || lia. }
      unfold ast_framehook_list_read_event. rewrite E.
      destruct (IH _ Hroom') as (rets & chan' & -> & Hfit' & Hc').
      eexists _, chan'. split; [reflexivity|]. split; [done|]. lia.
    + destruct (room_push_event chan frame AST_FRAMEHOOK_EVENT_WRITE (Z.of_nat (length calls)))
        as (frame' & chan1 & passes & E & Hroom' & Hcount).
      { destruct Hroom as (? & ? & ?). split_and!; done || lia. }
      unfold ast_framehook_list_write_event. rewrite E.
      destruct (IH _ Hroom') as (rets & chan' & -> & Hfit' & Hc').
      eexists _, chan'. split; [reflexivity|]. split; [done|]. lia.
Qed.

End ApiSafety.

(** ** Witnesses for the attach, teardown and dispatch theorems *)

(** Two passive hooks, both detached. *)
Definition chan_two_inactive : @channel unit :=
  (ast_framehook_detach (ast_framehook_detach chan_two 1).2 2).2.

Lemma inactive_list_passes_frame_witness :
  ast_framehook_list_contains_no_active (framehooks chan_two_inactive) = 1 /\
  exists chan' passes,
    ast_framehook_list_read_event chan_two_inactive 100 = Some (100, chan', passes) /\
    hook_list chan' = [] /\
    List.filter is_teardown (drop (length (trace chan_two_inactive)) (trace chan'))
    = [EventCb 1 AST_FRAMEHOOK_EVENT_DETACHED NULL; Free 1;
       EventCb 2 AST_FRAMEHOOK_EVENT_DETACHED NULL; Free 2].
Proof.
  assert (ast_framehook_list_contains_no_active (framehooks chan_two_inactive) = 1) as Hno
    by (vm_compute; reflexivity).
  split; [exact Hno|].
  destruct (inactive_list_passes_frame chan_two_inactive 100 AST_FRAMEHOOK_EVENT_READ Hno)
    as (chan' & passes & new & E & _ & Hnil & _ & Etr & Hfil & _).
  exists chan', passes. split; [exact E|]. split; [exact Hnil|].
  rewrite Etr, drop_app_length. exact Hfil.
Defined.

Lemma attach_fails_cleanly_witness :
  0 <= id_counter chan_two < CInt.INT_MAX /\
  (ast_framehook_attach scenario_version false true chan_two (iface passive)).2 = chan_two /\
  (ast_framehook_attach scenario_version true true chan_two (iface passive)).1 = 3.
Proof.
  assert (0 <= id_counter chan_two < CInt.INT_MAX) as Hid
    by (vm_compute; split; [discriminate | reflexivity]).
  split; [exact Hid|]. split.
  - apply (proj1 (proj2 (attach_fails_cleanly scenario_version false true chan_two
                           (iface passive) Hid))).
    reflexivity.
  - apply (proj2 (proj2 (attach_fails_cleanly scenario_version true true chan_two
                           (iface passive) Hid))).
    vm_compute. discriminate.
Defined.

Lemma attach_appends_hook_witness :
  attach_succeeds scenario_version true true chan_two (iface passive) = true /\
  ids (hook_list (ast_framehook_attach scenario_version true true chan_two (iface passive)).2)
  = [1; 2; 3] /\
  id_counter (ast_framehook_attach scenario_version true true chan_two (iface passive)).2 = 3.
Proof.
  assert (attach_succeeds scenario_version true true chan_two (iface passive) = true) as Hs
    by reflexivity.
  split; [exact Hs|].
  destruct (attach_appends_hook scenario_version true true chan_two (iface passive) Hs)
    as (cb & dets & _ & Hfl & _ & _ & Hid & _).
  split; [|exact Hid].
  rewrite (flags_set_ids _ _ Hfl). unfold ids. rewrite map_app. reflexivity.
Defined.

Lemma passive_hooks_see_frame_once_witness :
  skip_fits chan_two /\
  Forall (passes_on AST_FRAMEHOOK_EVENT_READ 100) (hook_list chan_two) /\
  exists chan' passes,
    ast_framehook_list_read_event chan_two 100 = Some (100, chan', passes) /\
    trace chan'
    = trace chan_two ++ [EventCb 1 AST_FRAMEHOOK_EVENT_READ 100;
                         EventCb 2 AST_FRAMEHOOK_EVENT_READ 100].
Proof.
  assert (skip_fits chan_two) as Hfit by (vm_compute; lia).
  assert (Forall (passes_on AST_FRAMEHOOK_EVENT_READ 100) (hook_list chan_two)) as Hp.
  { let l := eval cbv in (hook_list chan_two) in change (hook_list chan_two) with l.
    repeat apply List.Forall_cons; try apply List.Forall_nil;
      (split; [reflexivity | intros d; split; reflexivity]). }
  split; [exact Hfit|]. split; [exact Hp|].
  destruct (passive_hooks_see_frame_once chan_two 100 AST_FRAMEHOOK_EVENT_READ Hfit Hp)
    as (chan' & passes & E & _ & _ & Etr & _).
  exists chan', passes. split; [exact E | exact Etr].
Defined.

Lemma calls_stay_inside_skip_witness :
  skip_fits fresh /\
  0 <= hook_count fresh /\
  hook_count fresh + Z.of_nat (length scenario_calls) < 2 ^ 32 /\
  exists rets chan',
    run_calls scenario_version scenario_calls fresh = Some (rets, chan') /\
    skip_fits chan'.
Proof.
  assert (skip_fits fresh) as Hfit by exact I.
  assert (0 <= hook_count fresh) as H0 by (vm_compute; discriminate).
  assert (hook_count fresh + Z.of_nat (length scenario_calls) < 2 ^ 32) as Hmax
    by (vm_compute; reflexivity).
  split; [exact Hfit|]. split; [exact H0|]. split; [exact Hmax|].
  destruct (calls_stay_inside_skip scenario_version scenario_calls fresh Hfit H0 Hmax)
    as (rets & chan' & E & Hfit' & _).
  exists rets, chan'. split; [exact E | exact Hfit'].
Defined.
End Framehook.


(** * C floating point *)

(** Values of type [float] are IEEE 754 binary32 numbers and values of type
    [double] binary64 numbers, both as [spec_float] in the canonical form
    of their format; every operation rounds to nearest, ties to even.  An
    expression that mixes [float] with a [double] constant is evaluated in
    [double], as C's usual arithmetic conversions say, and rounded when it
    is stored in a [float]. *)
Module CFloat.

Definition float : Type := spec_float.
Definition double : Type := spec_float.

Definition zero : float := S754_zero false.

Definition add (x y : float) : float := SFadd 24 128 x y.
Definition sub (x y : float) : float := SFsub 24 128 x y.
Definition mul (x y : float) : float := SFmul 24 128 x y.

(** [int] to [float] and [int] to [double] *)
Definition of_int (z : Z) : float := binary_normalize 24 128 z 0 false.
Definition double_of_int (z : Z) : double := binary_normalize 53 1024 z 0 false.

(** [float] to [double] (exact) and [double] to [float] (rounded) *)
Definition to_double (x : float) : double :=
  match x with
  | S754_finite s m e => binary_round 53 1024 s m e
  | _ => x
  end.

Definition to_float (x : double) : float :=
  match x with
  | S754_finite s m e => binary_round 24 128 s m e
  | _ => x
  end.

Definition dmul (x y : double) : double := SFmul 53 1024 x y.

(** Comparisons; both sides in the same format.  With a NaN every
    comparison is false. *)
Definition lt (x y : spec_float) : bool := SFltb x y.
Definition le (x y : spec_float) : bool := SFleb x y.
Definition gt (x y : spec_float) : bool := SFltb y x.
Definition ge (x y : spec_float) : bool := SFleb y x.

(** A [double] constant [m * 2^e]. *)
Definition dconst (m e : Z) : double := binary_normalize 53 1024 m e false.

(** [x * c] and the comparisons of a [float] with a [double]. *)
Definition mul_d (x : float) (c : double) : double := dmul (to_double x) c.
Definition lt_d (x : float) (c : double) : bool := lt (to_double x) c.
Definition gt_d (x : float) (c : double) : bool := gt (to_double x) c.
Definition ge_d (x : float) (c : double) : bool := ge (to_double x) c.

End CFloat.

(** * The DSP routines *)

Module Dsp.

Import CFloat.

(** ** Constants of the file *)

Definition DEFAULT_THRESHOLD : Z := 1024.
Definition BUSY_THRESHOLD : Z := 100.
Definition BUSY_MIN : Z := 80.
Definition BUSY_MAX : Z := 1100.
Definition DSP_HISTORY : Z := 5.
Definition GSAMP_SIZE : Z := 183.

Definition HZ_350 : nat := 0.
Definition HZ_440 : nat := 1.
Definition HZ_480 : nat := 2.
Definition HZ_620 : nat := 3.
Definition HZ_950 : nat := 4.
Definition HZ_1400 : nat := 5.
Definition HZ_1800 : nat := 6.

(** 10.0, 1e8 and their product 1e9 *)
Definition TONE_THRESH : double := dconst 10 0.
Definition TONE_MIN_THRESH : double := dconst 100000000 0.
Definition TONE_MIN_THRESH_x_TONE_THRESH : double := dmul TONE_MIN_THRESH TONE_THRESH.
Definition COUNT_THRESH : Z := 3.

Definition TONE_STATE_SILENCE : Z := 0.
Definition TONE_STATE_RINGING : Z := 1.
Definition TONE_STATE_DIALTONE : Z := 2.
Definition TONE_STATE_TALKING : Z := 3.
Definition TONE_STATE_BUSY : Z := 4.
Definition TONE_STATE_SPECIAL1 : Z := 5.
Definition TONE_STATE_SPECIAL2 : Z := 6.
Definition TONE_STATE_SPECIAL3 : Z := 7.

Definition MAX_DTMF_DIGITS : Z := 128.

(** ** Constants of the headers *)

(** The values of the macros of asterisk/dsp.h and asterisk/frame.h that
    the routines use; the headers are not part of the sources at hand. *)
Class Headers := {
  DSP_FEATURE_SILENCE_SUPPRESS : Z;
  DSP_FEATURE_BUSY_DETECT : Z;
  DSP_FEATURE_CALL_PROGRESS : Z;
  DSP_FEATURE_DTMF_DETECT : Z;
  DSP_DIGITMODE_DTMF : Z;
  DSP_DIGITMODE_MF : Z;
  DSP_DIGITMODE_NOQUELCH : Z;
  DSP_DIGITMODE_MUTECONF : Z;
  DSP_DIGITMODE_MUTEMAX : Z;
  DSP_DIGITMODE_RELAXDTMF : Z;
  AST_CONTROL_RINGING : Z;
  AST_CONTROL_ANSWER : Z;
  AST_CONTROL_BUSY : Z;
  AST_CONTROL_CONGESTION : Z
}.

(** ** Goertzel filters *)

Record goertzel_state_t := {
  v2 : float;
  v3 : float;
  fac : float
}.

(** [v1 = s->v2; s->v2 = s->v3; s->v3 = s->fac * s->v2 - v1 + fsamp] *)
Definition goertzel_step (fsamp : float) (s : goertzel_state_t) : goertzel_state_t :=
  let v1 := v2 s in
  {| v2 := v3 s; v3 := add (sub (mul (fac s) (v3 s)) v1) fsamp; fac := fac s |}.

Definition goertzel_sample (s : goertzel_state_t) (sample : Z) : goertzel_state_t :=
  goertzel_step (of_int sample) s.

Definition goertzel_update (s : goertzel_state_t) (samps : list Z) (count : nat)
  : goertzel_state_t :=
  foldl goertzel_sample s (take count samps).

Definition goertzel_result (s : goertzel_state_t) : float :=
  sub (add (mul (v3 s) (v3 s)) (mul (v2 s) (v2 s))) (mul (mul (v2 s) (v3 s)) (fac s)).

Definition goertzel_reset (s : goertzel_state_t) : goertzel_state_t :=
  {| v2 := zero; v3 := zero; fac := fac s |}.

(** [goertzel_init]: the coefficient [2.0 * cos(2.0 * M_PI * (freq / 8000.0))],
    computed by the C library in [double] and stored as [float], is given
    by [coefficient freq]. *)
Definition goertzel_init (coefficient : Z -> double) (freq : Z) : goertzel_state_t :=
  {| v2 := zero; v3 := zero; fac := to_float (coefficient freq) |}.

(** Element [i] of an array of filters. *)
Definition filter_at (l : list goertzel_state_t) (i : nat) : goertzel_state_t :=
  nth i l {| v2 := zero; v3 := zero; fac := zero |}.

(** ** Call progress *)

Definition pair_there (p1 p2 i1 i2 e : float) : Z :=
  if lt_d p1 TONE_MIN_THRESH || lt_d p2 TONE_MIN_THRESH then 0
  else
    let i2 := to_float (mul_d i2 TONE_THRESH) in
    let i1 := to_float (mul_d i1 TONE_THRESH) in
    let e := to_float (mul_d e TONE_THRESH) in
    if lt p1 i1 || lt p1 i2 || lt p1 e then 0
    else if lt p2 i1 || lt p2 i2 || lt p2 e then 0
    else 1.

(** ** Detector state *)

(** [dtmf_detect_state_t]; [digits] has [MAX_DTMF_DIGITS + 1] bytes. *)
Record dtmf_detect_state_t := {
  hit1 : Z;
  hit2 : Z;
  hit3 : Z;
  hit4 : Z;
  mhit : Z;
  row_out : list goertzel_state_t;
  col_out : list goertzel_state_t;
  row_out2nd : list goertzel_state_t;
  col_out2nd : list goertzel_state_t;
  fax_tone : goertzel_state_t;
  fax_tone2nd : goertzel_state_t;
  energy : float;
  current_sample : Z;
  digits : list Z;
  current_digits : Z;
  detected_digits : Z;
  lost_digits : Z;
  digit_hits : list Z;
  fax_hits : Z
}.

(** [mf_detect_state_t] *)
Record mf_detect_state_t := {
  mf_hit1 : Z;
  mf_hit2 : Z;
  mf_hit3 : Z;
  mf_hit4 : Z;
  mf_mhit : Z;
  tone_out : list goertzel_state_t;
  tone_out2nd : list goertzel_state_t;
  mf_energy : float;
  mf_current_sample : Z;
  mf_digits : list Z;
  mf_current_digits : Z;
  mf_detected_digits : Z;
  mf_lost_digits : Z;
  mf_fax_hits : Z
}.

(** The union [td] of [struct ast_dsp] holds the state of one of the two
    detectors. *)
Inductive td_t :=
| td_dtmf (dtmf : dtmf_detect_state_t)
| td_mf (mf : mf_detect_state_t).

(** [struct ast_dsp], without its output frame [f]. *)
Record ast_dsp := {
  threshold : Z;
  totalsilence : Z;
  totalnoise : Z;
  features : Z;
  busymaybe : Z;
  busycount : Z;
  historicnoise : list Z;
  historicsilence : list Z;
  freqs : list goertzel_state_t;
  gsamps : Z;
  tstate : Z;
  tcount : Z;
  digitmode : Z;
  thinkdigit : Z;
  genergy : float;
  td : td_t
}.

(** ** Call progress, continued *)

Section Routines.

Context `{Headers}.

(** The changes [__ast_dsp_call_progress] makes to the handle. *)
Definition set_progress (dsp : ast_dsp) (features' : Z) (freqs' : list goertzel_state_t)
    (gsamps' tstate' tcount' : Z) (genergy' : float) : ast_dsp :=
  {| threshold := threshold dsp; totalsilence := totalsilence dsp;
     totalnoise := totalnoise dsp; features := features';
     busymaybe := busymaybe dsp; busycount := busycount dsp;
     historicnoise := historicnoise dsp; historicsilence := historicsilence dsp;
     freqs := freqs'; gsamps := gsamps'; tstate := tstate'; tcount := tcount';
     digitmode := digitmode dsp; thinkdigit := thinkdigit dsp;
     genergy := genergy'; td := td dsp |}.

(** The body of [for (x=0;x<pass;x++)]: the seven filters and the energy
    take sample [s[x]]. *)
Definition progress_sample (dsp : ast_dsp) (sx : Z) : ast_dsp :=
  set_progress dsp (features dsp)
    (map (fun f => goertzel_sample f sx) (freqs dsp))
    (gsamps dsp) (tstate dsp) (tcount dsp)
    (add (genergy dsp) (of_int (sx * sx))).

(** The chain of tests that picks [newstate] at the end of a block.  When
    1400 Hz or 1800 Hz is found and the state is not the special state
    before it, no branch assigns [newstate]: it keeps the value it had. *)
Definition progress_newstate (dsp : ast_dsp) (newstate : Z) : Z :=
  let hz_350 := goertzel_result (filter_at (freqs dsp) HZ_350) in
  let hz_440 := goertzel_result (filter_at (freqs dsp) HZ_440) in
  let hz_480 := goertzel_result (filter_at (freqs dsp) HZ_480) in
  let hz_620 := goertzel_result (filter_at (freqs dsp) HZ_620) in
  let hz_950 := goertzel_result (filter_at (freqs dsp) HZ_950) in
  let hz_1400 := goertzel_result (filter_at (freqs dsp) HZ_1400) in
  let hz_1800 := goertzel_result (filter_at (freqs dsp) HZ_1800) in
  if negb (pair_there hz_480 hz_620 hz_350 hz_440 (genergy dsp) =? 0) then TONE_STATE_BUSY
  else if negb (pair_there hz_440 hz_480 hz_350 hz_620 (genergy dsp) =? 0) then TONE_STATE_RINGING
  else if negb (pair_there hz_350 hz_440 hz_480 hz_620 (genergy dsp) =? 0) then TONE_STATE_DIALTONE
  else if gt_d hz_950 TONE_MIN_THRESH_x_TONE_THRESH then TONE_STATE_SPECIAL1
  else if gt_d hz_1400 TONE_MIN_THRESH_x_TONE_THRESH then
    if tstate dsp =? TONE_STATE_SPECIAL1 then TONE_STATE_SPECIAL2 else newstate
  else if gt_d hz_1800 TONE_MIN_THRESH_x_TONE_THRESH then
    if tstate dsp =? TONE_STATE_SPECIAL2 then TONE_STATE_SPECIAL3 else newstate
  else if gt_d (genergy dsp) TONE_MIN_THRESH_x_TONE_THRESH then TONE_STATE_TALKING
  else TONE_STATE_SILENCE.

(** The end of a block ([dsp->gsamps == GSAMP_SIZE]); returns [newstate],
    [res] and the handle. *)
Definition progress_block (dsp : ast_dsp) (newstate res : Z) : Z * Z * ast_dsp :=
  let newstate := progress_newstate dsp newstate in
  let freqs' := map goertzel_reset (freqs dsp) in
  if newstate =? tstate dsp then
    let tcount' := CInt.to_int (tcount dsp + 1) in
    if tcount' =? COUNT_THRESH then
      if tstate dsp =? TONE_STATE_BUSY then
        (newstate, AST_CONTROL_BUSY,
         set_progress dsp (Z.land (features dsp) (Z.lnot DSP_FEATURE_CALL_PROGRESS))
                      freqs' 0 (tstate dsp) tcount' zero)
      else if tstate dsp =? TONE_STATE_TALKING then
        (newstate, AST_CONTROL_ANSWER,
         set_progress dsp (Z.land (features dsp) (Z.lnot DSP_FEATURE_CALL_PROGRESS))
                      freqs' 0 (tstate dsp) tcount' zero)
      else if tstate dsp =? TONE_STATE_RINGING then
        (newstate, AST_CONTROL_RINGING,
         set_progress dsp (features dsp) freqs' 0 (tstate dsp) tcount' zero)
      else if tstate dsp =? TONE_STATE_SPECIAL3 then
        (newstate, AST_CONTROL_CONGESTION,
         set_progress dsp (Z.land (features dsp) (Z.lnot DSP_FEATURE_CALL_PROGRESS))
                      freqs' 0 (tstate dsp) tcount' zero)
      else (newstate, res, set_progress dsp (features dsp) freqs' 0 (tstate dsp) tcount' zero)
    else (newstate, res, set_progress dsp (features dsp) freqs' 0 (tstate dsp) tcount' zero)
  else (newstate, res, set_progress dsp (features dsp) freqs' 0 newstate 1 zero).

(** The [while (len)] loop.  [newstate] is a local variable of the
    function, so it keeps its value from one block to the next. *)
Fixpoint progress_loop (fuel : nat) (dsp : ast_dsp) (s : list Z) (len newstate res : Z)
  : option (Z * ast_dsp) :=
  if len =? 0 then Some (res, dsp)
  else
    match fuel with
    | O => None
    | S fuel' =>
      let pass := if len >? GSAMP_SIZE - gsamps dsp then GSAMP_SIZE - gsamps dsp else len in
      let dsp := foldl progress_sample dsp (take (Z.to_nat pass) s) in
      let s := drop (Z.to_nat pass) s in
      let dsp := set_progress dsp (features dsp) (freqs dsp) (gsamps dsp + pass)
                              (tstate dsp) (tcount dsp) (genergy dsp) in
      let len := len - pass in
      if gsamps dsp =? GSAMP_SIZE then
        let '(newstate, res, dsp) := progress_block dsp newstate res in
        progress_loop fuel' dsp s len newstate res
      else progress_loop fuel' dsp s len newstate res
    end.

(** [__ast_dsp_call_progress(dsp, s, len)].  [newstate] is declared without
    an initial value: [junk] is what the variable holds when the function
    is entered. *)
Definition __ast_dsp_call_progress (junk : Z) (dsp : ast_dsp) (s : list Z) (len : Z)
  : option (Z * ast_dsp) :=
  progress_loop (S (Z.to_nat len)) dsp s len junk 0.

(** ** Silence and busy detection *)

(** The changes the silence and busy routines make to the handle. *)
Definition set_silence (dsp : ast_dsp) (totalsilence' totalnoise' busymaybe' : Z)
    (historicnoise' historicsilence' : list Z) : ast_dsp :=
  {| threshold := threshold dsp; totalsilence := totalsilence';
     totalnoise := totalnoise'; features := features dsp;
     busymaybe := busymaybe'; busycount := busycount dsp;
     historicnoise := historicnoise'; historicsilence := historicsilence';
     freqs := freqs dsp; gsamps := gsamps dsp; tstate := tstate dsp; tcount := tcount dsp;
     digitmode := digitmode dsp; thinkdigit := thinkdigit dsp;
     genergy := genergy dsp; td := td dsp |}.

(** [memmove(h, h + 1, sizeof(h) - sizeof(h[0])); h[DSP_HISTORY - 1] = v] *)
Definition push_history (h : list Z) (v : Z) : list Z := drop 1 h ++ [v].

(** [__ast_dsp_silence(dsp, s, len, totalsilence)]; the value stored through
    [totalsilence], when it is not NULL, is [totalsilence] of the handle
    returned.  With [len = 0] the mean divides by zero. *)
Definition __ast_dsp_silence (dsp : ast_dsp) (s : list Z) (len : Z) : option (Z * ast_dsp) :=
  let accum := foldl (fun accum sx => CInt.to_int (accum + Z.abs sx)) 0 (take (Z.to_nat len) s) in
  let x := Z.max len 0 in
  if x =? 0 then None
  else
    let accum := Z.quot accum x in
    if accum <? threshold dsp then
      let totalsilence' := CInt.to_int (totalsilence dsp + Z.quot len 8) in
      if totalnoise dsp =? 0 then
        Some (1, set_silence dsp totalsilence' 0 (busymaybe dsp)
                             (historicnoise dsp) (historicsilence dsp))
      else
        Some (1, set_silence dsp totalsilence' 0 1
                             (push_history (historicnoise dsp) (totalnoise dsp))
                             (historicsilence dsp))
    else
      let totalnoise' := CInt.to_int (totalnoise dsp + Z.quot len 8) in
      if totalsilence dsp =? 0 then
        Some (0, set_silence dsp 0 totalnoise' (busymaybe dsp)
                             (historicnoise dsp) (historicsilence dsp))
      else
        Some (0, set_silence dsp 0 totalnoise' 1
                             (historicnoise dsp)
                             (push_history (historicsilence dsp) (totalsilence dsp))).

(** Element [x] of an array of [int]; [None] outside its bounds. *)
Definition int_at (a : list Z) (x : Z) : option Z :=
  if x <? 0 then None else a !! Z.to_nat x.

(** The loop of [ast_dsp_busydetect] over the slots [xs]. *)
Fixpoint busy_scan (dsp : ast_dsp) (xs : list Z) (min max : Z) : option (Z * Z) :=
  match xs with
  | [] => Some (min, max)
  | x :: xs' =>
    match int_at (historicsilence dsp) x, int_at (historicnoise dsp) x with
    | Some hs, Some hn =>
      let min := if hs <? min then hs else min in
      let min := if hn <? min then hn else min in
      let max := if hs >? max then hs else max in
      let max := if hn >? max then hn else max in
      busy_scan dsp xs' min max
    | _, _ => None
    end
  end.

Definition ast_dsp_busydetect (dsp : ast_dsp) : option (Z * ast_dsp) :=
  if busymaybe dsp =? 0 then Some (0, dsp)
  else
    let dsp' := set_silence dsp (totalsilence dsp) (totalnoise dsp) 0
                            (historicnoise dsp) (historicsilence dsp) in
    match busy_scan dsp (seqZ (DSP_HISTORY - busycount dsp) (busycount dsp)) 9999 0 with
    | None => None
    | Some (min, max) =>
      if (CInt.to_int (max - min) <? BUSY_THRESHOLD) && (max <? BUSY_MAX) && (min >? BUSY_MIN)
      then Some (1, dsp')
      else Some (0, dsp')
    end.


Definition ast_dsp_set_features (dsp : ast_dsp) (features' : Z) : ast_dsp :=
  set_progress dsp features' (freqs dsp) (gsamps dsp) (tstate dsp) (tcount dsp) (genergy dsp).

(** ** The digit queue *)

(** [n] bytes of [src] from offset [off]; [None] outside the array. *)
Definition read_bytes (src : list Z) (off n : Z) : option (list Z) :=
  if (0 <=? off) && (0 <=? n) && (off + n <=? Z.of_nat (length src))
  then Some (take (Z.to_nat n) (drop (Z.to_nat off) src))
  else None.

(** [dst] with [bytes] stored from its start; [None] when they do not fit. *)
Definition write_bytes (dst bytes : list Z) : option (list Z) :=
  if (length bytes <=? length dst)%nat
  then Some (bytes ++ drop (length bytes) dst)
  else None.

(** [memcpy(dst, src + off, n)] and, the same on lists, [memmove]: the
    bytes are read before any is written. *)
Definition copy_bytes (dst src : list Z) (off n : Z) : option (list Z) :=
  match read_bytes src off n with
  | Some bytes => write_bytes dst bytes
  | None => None
  end.

(** [a[i] = v] on an array of bytes; [None] outside the array. *)
Definition store_byte (a : list Z) (i v : Z) : option (list Z) :=
  if (0 <=? i) && (i <? Z.of_nat (length a)) then Some (<[Z.to_nat i := v]> a) else None.

(** The body of either branch of [ast_dsp_getdigits], on the queue
    [digits], [current_digits] of the detector in use: returns [max], the
    caller's buffer, and the queue. *)
Definition getdigits (digits : list Z) (current_digits : Z) (buf : list Z) (max : Z)
  : option (Z * list Z * list Z * Z) :=
  let max := if max >? current_digits then current_digits else max in
  let moved :=
    if max >? 0 then
      match copy_bytes buf digits 0 max with
      | Some buf' =>
        match copy_bytes digits digits max (current_digits - max) with
        | Some digits' => Some (buf', digits', current_digits - max)
        | None => None
        end
      | None => None
      end
    else Some (buf, digits, current_digits) in
  match moved with
  | Some (buf', digits', current_digits') =>
    match store_byte buf' max 0 with
    | Some buf'' => Some (max, buf'', digits', current_digits')
    | None => None
    end
  | None => None
  end.

Definition set_td (dsp : ast_dsp) (td' : td_t) : ast_dsp :=
  {| threshold := threshold dsp; totalsilence := totalsilence dsp;
     totalnoise := totalnoise dsp; features := features dsp;
     busymaybe := busymaybe dsp; busycount := busycount dsp;
     historicnoise := historicnoise dsp; historicsilence := historicsilence dsp;
     freqs := freqs dsp; gsamps := gsamps dsp; tstate := tstate dsp; tcount := tcount dsp;
     digitmode := digitmode dsp; thinkdigit := thinkdigit dsp;
     genergy := genergy dsp; td := td' |}.

Definition dtmf_set_queue (s : dtmf_detect_state_t) (digits' : list Z)
    (current_digits' lost_digits' : Z) : dtmf_detect_state_t :=
  {| hit1 := hit1 s; hit2 := hit2 s; hit3 := hit3 s; hit4 := hit4 s; mhit := mhit s;
     row_out := row_out s; col_out := col_out s;
     row_out2nd := row_out2nd s; col_out2nd := col_out2nd s;
     fax_tone := fax_tone s; fax_tone2nd := fax_tone2nd s; energy := energy s;
     current_sample := current_sample s;
     digits := digits'; current_digits := current_digits';
     detected_digits := detected_digits s; lost_digits := lost_digits';
     digit_hits := digit_hits s; fax_hits := fax_hits s |}.

Definition mf_set_queue (s : mf_detect_state_t) (digits' : list Z)
    (current_digits' lost_digits' : Z) : mf_detect_state_t :=
  {| mf_hit1 := mf_hit1 s; mf_hit2 := mf_hit2 s; mf_hit3 := mf_hit3 s; mf_hit4 := mf_hit4 s;
     mf_mhit := mf_mhit s; tone_out := tone_out s; tone_out2nd := tone_out2nd s;
     mf_energy := mf_energy s; mf_current_sample := mf_current_sample s;
     mf_digits := digits'; mf_current_digits := current_digits';
     mf_detected_digits := mf_detected_digits s; mf_lost_digits := lost_digits';
     mf_fax_hits := mf_fax_hits s |}.

(** [ast_dsp_getdigits(dsp, buf, max)]: returns the count, the caller's
    buffer and the handle.  The member of the union [td] is chosen by the
    MF bit of [digitmode]; [None] when the union holds the state of the
    other detector, or when a copy leaves an array. *)
Definition ast_dsp_getdigits (dsp : ast_dsp) (buf : list Z) (max : Z)
  : option (Z * list Z * ast_dsp) :=
  if negb (Z.land (digitmode dsp) DSP_DIGITMODE_MF =? 0) then
    match td dsp with
    | td_mf mf =>
      match getdigits (mf_digits mf) (mf_current_digits mf) buf max with
      | Some (max, buf', digits', current_digits') =>
        Some (max, buf',
              set_td dsp (td_mf (mf_set_queue mf digits' current_digits' (mf_lost_digits mf))))
      | None => None
      end
    | td_dtmf _ => None
    end
  else
    match td dsp with
    | td_dtmf dtmf =>
      match getdigits (digits dtmf) (current_digits dtmf) buf max with
      | Some (max, buf', digits', current_digits') =>
        Some (max, buf',
              set_td dsp (td_dtmf (dtmf_set_queue dtmf digits' current_digits' (lost_digits dtmf))))
      | None => None
      end
    | td_mf _ => None
    end.


(** The filters and the block energy of the DTMF detector. *)
Definition dtmf_set_filters (s : dtmf_detect_state_t) (row_out' : list goertzel_state_t) (col_out' : list goertzel_state_t) (row_out2nd' : list goertzel_state_t) (col_out2nd' : list goertzel_state_t) (fax_tone' : goertzel_state_t) (fax_tone2nd' : goertzel_state_t) (energy' : float) : dtmf_detect_state_t :=
  {| hit1 := hit1 s; hit2 := hit2 s; hit3 := hit3 s; hit4 := hit4 s; mhit := mhit s;
     row_out := row_out'; col_out := col_out'; row_out2nd := row_out2nd';
     col_out2nd := col_out2nd'; fax_tone := fax_tone'; fax_tone2nd := fax_tone2nd';
     energy := energy'; current_sample := current_sample s; digits := digits s;
     current_digits := current_digits s; detected_digits := detected_digits s;
     lost_digits := lost_digits s; digit_hits := digit_hits s; fax_hits := fax_hits s |}.

(** [s->current_sample = ...] *)
Definition dtmf_set_current_sample (s : dtmf_detect_state_t) (current_sample' : Z) : dtmf_detect_state_t :=
  {| hit1 := hit1 s; hit2 := hit2 s; hit3 := hit3 s; hit4 := hit4 s; mhit := mhit s;
     row_out := row_out s; col_out := col_out s; row_out2nd := row_out2nd s;
     col_out2nd := col_out2nd s; fax_tone := fax_tone s; fax_tone2nd := fax_tone2nd s;
     energy := energy s; current_sample := current_sample'; digits := digits s;
     current_digits := current_digits s; detected_digits := detected_digits s;
     lost_digits := lost_digits s; digit_hits := digit_hits s; fax_hits := fax_hits s |}.

(** [s->mhit = ...] *)
Definition dtmf_set_mhit (s : dtmf_detect_state_t) (mhit' : Z) : dtmf_detect_state_t :=
  {| hit1 := hit1 s; hit2 := hit2 s; hit3 := hit3 s; hit4 := hit4 s; mhit := mhit';
     row_out := row_out s; col_out := col_out s; row_out2nd := row_out2nd s;
     col_out2nd := col_out2nd s; fax_tone := fax_tone s; fax_tone2nd := fax_tone2nd s;
     energy := energy s; current_sample := current_sample s; digits := digits s;
     current_digits := current_digits s; detected_digits := detected_digits s;
     lost_digits := lost_digits s; digit_hits := digit_hits s; fax_hits := fax_hits s |}.

(** [s->detected_digits] and [s->digit_hits] *)
Definition dtmf_set_detected (s : dtmf_detect_state_t) (detected_digits' : Z) (digit_hits' : list Z) : dtmf_detect_state_t :=
  {| hit1 := hit1 s; hit2 := hit2 s; hit3 := hit3 s; hit4 := hit4 s; mhit := mhit s;
     row_out := row_out s; col_out := col_out s; row_out2nd := row_out2nd s;
     col_out2nd := col_out2nd s; fax_tone := fax_tone s; fax_tone2nd := fax_tone2nd s;
     energy := energy s; current_sample := current_sample s; digits := digits s;
     current_digits := current_digits s; detected_digits := detected_digits';
     lost_digits := lost_digits s; digit_hits := digit_hits'; fax_hits := fax_hits s |}.

(** [s->fax_hits = ...] *)
Definition dtmf_set_fax_hits (s : dtmf_detect_state_t) (fax_hits' : Z) : dtmf_detect_state_t :=
  {| hit1 := hit1 s; hit2 := hit2 s; hit3 := hit3 s; hit4 := hit4 s; mhit := mhit s;
     row_out := row_out s; col_out := col_out s; row_out2nd := row_out2nd s;
     col_out2nd := col_out2nd s; fax_tone := fax_tone s; fax_tone2nd := fax_tone2nd s;
     energy := energy s; current_sample := current_sample s; digits := digits s;
     current_digits := current_digits s; detected_digits := detected_digits s;
     lost_digits := lost_digits s; digit_hits := digit_hits s; fax_hits := fax_hits' |}.

(** [s->hit1], [s->hit2] and [s->hit3] *)
Definition dtmf_set_hits (s : dtmf_detect_state_t) (hit1' : Z) (hit2' : Z) (hit3' : Z) : dtmf_detect_state_t :=
  {| hit1 := hit1'; hit2 := hit2'; hit3 := hit3'; hit4 := hit4 s; mhit := mhit s;
     row_out := row_out s; col_out := col_out s; row_out2nd := row_out2nd s;
     col_out2nd := col_out2nd s; fax_tone := fax_tone s; fax_tone2nd := fax_tone2nd s;
     energy := energy s; current_sample := current_sample s; digits := digits s;
     current_digits := current_digits s; detected_digits := detected_digits s;
     lost_digits := lost_digits s; digit_hits := digit_hits s; fax_hits := fax_hits s |}.

(** The filters and the block energy of the MF detector. *)
Definition mf_set_filters (s : mf_detect_state_t) (tone_out' : list goertzel_state_t) (tone_out2nd' : list goertzel_state_t) (energy' : float) : mf_detect_state_t :=
  {| mf_hit1 := mf_hit1 s; mf_hit2 := mf_hit2 s; mf_hit3 := mf_hit3 s; mf_hit4 := mf_hit4 s;
     mf_mhit := mf_mhit s; tone_out := tone_out'; tone_out2nd := tone_out2nd';
     mf_energy := energy'; mf_current_sample := mf_current_sample s;
     mf_digits := mf_digits s; mf_current_digits := mf_current_digits s;
     mf_detected_digits := mf_detected_digits s; mf_lost_digits := mf_lost_digits s;
     mf_fax_hits := mf_fax_hits s |}.

(** [s->current_sample = ...] *)
Definition mf_set_current_sample (s : mf_detect_state_t) (current_sample' : Z) : mf_detect_state_t :=
  {| mf_hit1 := mf_hit1 s; mf_hit2 := mf_hit2 s; mf_hit3 := mf_hit3 s; mf_hit4 := mf_hit4 s;
     mf_mhit := mf_mhit s; tone_out := tone_out s; tone_out2nd := tone_out2nd s;
     mf_energy := mf_energy s; mf_current_sample := current_sample';
     mf_digits := mf_digits s; mf_current_digits := mf_current_digits s;
     mf_detected_digits := mf_detected_digits s; mf_lost_digits := mf_lost_digits s;
     mf_fax_hits := mf_fax_hits s |}.

(** [s->mhit = ...] *)
Definition mf_set_mhit (s : mf_detect_state_t) (mhit' : Z) : mf_detect_state_t :=
  {| mf_hit1 := mf_hit1 s; mf_hit2 := mf_hit2 s; mf_hit3 := mf_hit3 s; mf_hit4 := mf_hit4 s;
     mf_mhit := mhit'; tone_out := tone_out s; tone_out2nd := tone_out2nd s;
     mf_energy := mf_energy s; mf_current_sample := mf_current_sample s;
     mf_digits := mf_digits s; mf_current_digits := mf_current_digits s;
     mf_detected_digits := mf_detected_digits s; mf_lost_digits := mf_lost_digits s;
     mf_fax_hits := mf_fax_hits s |}.

(** [s->detected_digits = ...] *)
Definition mf_set_detected (s : mf_detect_state_t) (detected_digits' : Z) : mf_detect_state_t :=
  {| mf_hit1 := mf_hit1 s; mf_hit2 := mf_hit2 s; mf_hit3 := mf_hit3 s; mf_hit4 := mf_hit4 s;
     mf_mhit := mf_mhit s; tone_out := tone_out s; tone_out2nd := tone_out2nd s;
     mf_energy := mf_energy s; mf_current_sample := mf_current_sample s;
     mf_digits := mf_digits s; mf_current_digits := mf_current_digits s;
     mf_detected_digits := detected_digits'; mf_lost_digits := mf_lost_digits s;
     mf_fax_hits := mf_fax_hits s |}.

(** [s->hit1], [s->hit2] and [s->hit3] *)
Definition mf_set_hits (s : mf_detect_state_t) (hit1' : Z) (hit2' : Z) (hit3' : Z) : mf_detect_state_t :=
  {| mf_hit1 := hit1'; mf_hit2 := hit2'; mf_hit3 := hit3'; mf_hit4 := mf_hit4 s;
     mf_mhit := mf_mhit s; tone_out := tone_out s; tone_out2nd := tone_out2nd s;
     mf_energy := mf_energy s; mf_current_sample := mf_current_sample s;
     mf_digits := mf_digits s; mf_current_digits := mf_current_digits s;
     mf_detected_digits := mf_detected_digits s; mf_lost_digits := mf_lost_digits s;
     mf_fax_hits := mf_fax_hits s |}.

(** ** Digit detection: tables and thresholds *)

Definition chr (c : Ascii.ascii) : Z := Z.of_N (Ascii.N_of_ascii c).

Definition dtmf_row : list Z := [697; 770; 852; 941].
Definition dtmf_col : list Z := [1209; 1336; 1477; 1633].
Definition mf_tones : list Z := [700; 900; 1100; 1300; 1500; 1700].
Definition fax_freq : Z := 1100.

(** ["123A" "456B" "789C" "*0#D"] *)
Definition dtmf_positions : list Z :=
  map chr ["1"; "2"; "3"; "A"; "4"; "5"; "6"; "B"; "7"; "8"; "9"; "C"; "*"; "0"; "#"; "D"]%char
  ++ [0].

Definition mf_hit : list (list Z) :=
  [ [0; chr "1"; chr "2"; chr "4"; chr "7"; chr "C"];
    [chr "1"; 0; chr "3"; chr "5"; chr "8"; chr "A"];
    [chr "2"; chr "3"; 0; chr "6"; chr "9"; chr "*"];
    [chr "4"; chr "5"; chr "6"; 0; chr "0"; chr "B"];
    [chr "7"; chr "8"; chr "9"; chr "0"; 0; chr "#"];
    [chr "C"; chr "A"; chr "*"; chr "B"; chr "#"; 0] ].

(** 8.0e7, 2.0, 6.3, 63.1, 5.3, 1.7, 2.5, 4.0, 42.0 and 21.0 as [double]s. *)
Definition DTMF_THRESHOLD : double := dconst 80000000 0.
Definition FAX_THRESHOLD : double := dconst 80000000 0.
Definition FAX_2ND_HARMONIC : double := dconst 2 0.
Definition DTMF_NORMAL_TWIST : double := dconst 7093169413108531 (-50).
Definition DTMF_RELATIVE_PEAK_ROW : double := dconst 7093169413108531 (-50).
Definition DTMF_RELATIVE_PEAK_COL : double := dconst 7093169413108531 (-50).
Definition DTMF_2ND_HARMONIC_COL : double := dconst 8880535515221197 (-47).
Definition MF_RELATIVE_PEAK : double := dconst 5967269506265907 (-50).
Definition MF_2ND_HARMONIC : double := dconst 7656119366529843 (-52).
Definition MF_GSIZE : Z := 160.

(** [(digitmode & DSP_DIGITMODE_RELAXDTMF) ? 4.0 : 2.5] *)
Definition DTMF_REVERSE_TWIST (digitmode : Z) : double :=
  if negb (Z.land digitmode DSP_DIGITMODE_RELAXDTMF =? 0) then dconst 4 0 else dconst 5 (-1).

(** [(digitmode & DSP_DIGITMODE_RELAXDTMF) ? 1.7 : 2.5] *)
Definition DTMF_2ND_HARMONIC_ROW (digitmode : Z) : double :=
  if negb (Z.land digitmode DSP_DIGITMODE_RELAXDTMF =? 0)
  then dconst 7656119366529843 (-52) else dconst 5 (-1).

(** Element [i] of an array of energies. *)
Definition energy_at (e : list float) (i : nat) : float := nth i e zero.

(** The index of the first greatest of the [n] energies: the loop
    [for (best = 0, i = 1; i < n; i++) if (e[i] > e[best]) best = i]. *)
Definition best_of (e : list float) (n : nat) : nat :=
  foldl (fun best i => if gt (energy_at e i) (energy_at e best) then i else best)
        O (seq 1 (n - 1)).

(** [for (i=sample;i<limit;i++) amp[i] = 0] *)
Definition zero_amp (amp : list Z) (sample limit : Z) : list Z :=
  imap (fun i a => if (sample <=? Z.of_nat i) && (Z.of_nat i <? limit) then 0 else a) amp.

(** The samples [amp[sample]] to [amp[limit - 1]]. *)
Definition amp_range (amp : list Z) (sample limit : Z) : list Z :=
  take (Z.to_nat (limit - sample)) (drop (Z.to_nat sample) amp).

(** ** DTMF detection *)

(** A confirmed digit enters the queue, or is counted as lost:
    [if (s->current_digits < MAX_DTMF_DIGITS) { s->digits[s->current_digits++] = hit;
    s->digits[s->current_digits] = '\0'; } else { s->lost_digits++; }] *)
Definition dtmf_queue_digit (s : dtmf_detect_state_t) (hit : Z) : dtmf_detect_state_t :=
  if current_digits s <? MAX_DTMF_DIGITS then
    dtmf_set_queue s
      (<[Z.to_nat (current_digits s + 1) := 0]>
         (<[Z.to_nat (current_digits s) := hit]> (digits s)))
      (current_digits s + 1) (lost_digits s)
  else
    dtmf_set_queue s (digits s) (current_digits s) (CInt.to_int (lost_digits s + 1)).

(** The body of the sample loop: the block energy and the eighteen
    filters take sample [amp[j]]. *)
Definition dtmf_sample (s : dtmf_detect_state_t) (a : Z) : dtmf_detect_state_t :=
  let famp := of_int a in
  let fax_tone' := goertzel_step famp (fax_tone s) in
  let fax_tone2nd' :=
    let v1 := v2 fax_tone' in
    {| v2 := v3 (fax_tone2nd s);
       v3 := add (sub (mul (fac (fax_tone2nd s)) (v3 (fax_tone2nd s))) v1) famp;
       fac := fac (fax_tone2nd s) |} in
  dtmf_set_filters s
    (map (goertzel_step famp) (row_out s)) (map (goertzel_step famp) (col_out s))
    (map (goertzel_step famp) (row_out2nd s)) (map (goertzel_step famp) (col_out2nd s))
    fax_tone' fax_tone2nd' (add (energy s) (mul famp famp)).

(** The end of a detection block, first part: the digit tests.  Returns
    the state, the samples, [hit] and [*writeback]. *)
Definition dtmf_block_digit (s : dtmf_detect_state_t) (amp : list Z)
    (sample limit digitmode writeback : Z) : dtmf_detect_state_t * list Z * Z * Z :=
  let row_energy := map goertzel_result (row_out s) in
  let col_energy := map goertzel_result (col_out s) in
  let best_row := best_of row_energy 4 in
  let best_col := best_of col_energy 4 in
  let row := energy_at row_energy in
  let col := energy_at col_energy in
  let level_and_twist :=
    ge_d (row best_row) DTMF_THRESHOLD
    && ge_d (col best_col) DTMF_THRESHOLD
    && lt (to_double (col best_col)) (mul_d (row best_row) (DTMF_REVERSE_TWIST digitmode))
    && gt (mul_d (col best_col) DTMF_NORMAL_TWIST) (to_double (row best_row)) in
  let relative_peak :=
    forallb (fun i =>
      negb ((negb (i =? best_col)%nat
             && gt (mul_d (col i) DTMF_RELATIVE_PEAK_COL) (to_double (col best_col)))
            || (negb (i =? best_row)%nat
                && gt (mul_d (row i) DTMF_RELATIVE_PEAK_ROW) (to_double (row best_row)))))
      (seq 0 4) in
  let second_harmonic :=
    gt (to_double (add (row best_row) (col best_col))) (mul_d (energy s) (dconst 42 0))
    && lt (mul_d (goertzel_result (filter_at (col_out2nd s) best_col)) DTMF_2ND_HARMONIC_COL)
          (to_double (col best_col))
    && lt (mul_d (goertzel_result (filter_at (row_out2nd s) best_row))
                 (DTMF_2ND_HARMONIC_ROW digitmode))
          (to_double (row best_row)) in
  if level_and_twist && relative_peak && second_harmonic then
    let hit := nth (best_row * 4 + best_col) dtmf_positions 0 in
    let s' :=
      if (hit =? hit3 s) && negb (hit3 s =? hit2 s) then
        dtmf_queue_digit
          (dtmf_set_detected (dtmf_set_mhit s hit)
             (CInt.to_int (detected_digits s + 1))
             (alter (fun n => CInt.to_int (n + 1)) (best_row * 4 + best_col)%nat
                    (digit_hits s)))
          hit
      else s in
    if Z.land digitmode DSP_DIGITMODE_NOQUELCH =? 0
    then (s', zero_amp amp sample limit, hit, 1)
    else (s', amp, hit, writeback)
  else (s, amp, 0, writeback).

(** Second part: the fax tone, with the energy [fax_energy] it had when
    the block ended.  Returns the state and [hit]. *)
Definition dtmf_block_fax (s : dtmf_detect_state_t) (fax_energy : float) (hit : Z)
  : dtmf_detect_state_t * Z :=
  if (hit =? 0) && ge_d fax_energy FAX_THRESHOLD
     && gt (to_double fax_energy) (mul_d (energy s) (dconst 21 0)) then
    let fax_energy_2nd := goertzel_result (fax_tone2nd s) in
    if lt (mul_d fax_energy_2nd FAX_2ND_HARMONIC) (to_double fax_energy)
    then (dtmf_set_fax_hits s (CInt.to_int (fax_hits s + 1)), chr "f")
    else (s, hit)
  else if fax_hits s >? 5 then
    (dtmf_set_fax_hits
       (dtmf_queue_digit
          (dtmf_set_detected (dtmf_set_mhit s (chr "f"))
             (CInt.to_int (detected_digits s + 1)) (digit_hits s))
          (chr "f"))
       0,
     chr "f")
  else (dtmf_set_fax_hits s 0, hit).

(** Last part: the hit history moves on and the detector is reinitialised
    for the next block. *)
Definition dtmf_block_reset (s : dtmf_detect_state_t) (hit : Z) : dtmf_detect_state_t :=
  let s := dtmf_set_hits s (hit2 s) (hit3 s) hit in
  let s := dtmf_set_filters s
             (map goertzel_reset (row_out s)) (map goertzel_reset (col_out s))
             (map goertzel_reset (row_out2nd s)) (map goertzel_reset (col_out2nd s))
             (goertzel_reset (fax_tone s)) (goertzel_reset (fax_tone2nd s)) zero in
  dtmf_set_current_sample s 0.

(** The end of a detection block: returns the state, the samples, [hit]
    and [*writeback]. *)
Definition dtmf_block (s : dtmf_detect_state_t) (amp : list Z)
    (sample limit digitmode writeback : Z) : dtmf_detect_state_t * list Z * Z * Z :=
  let fax_energy := goertzel_result (fax_tone s) in
  let '(s, amp, hit, writeback) := dtmf_block_digit s amp sample limit digitmode writeback in
  let '(s, hit) := dtmf_block_fax s fax_energy hit in
  (dtmf_block_reset s hit, amp, hit, writeback).

(** The loop [for (sample = 0; sample < samples; sample = limit)]. *)
Fixpoint dtmf_loop (fuel : nat) (s : dtmf_detect_state_t) (amp : list Z)
    (samples sample hit digitmode writeback : Z)
  : option (dtmf_detect_state_t * list Z * Z * Z) :=
  if sample <? samples then
    match fuel with
    | O => None
    | S fuel' =>
      let limit :=
        if samples - sample >=? 102 - current_sample s
        then sample + (102 - current_sample s) else samples in
      let s := foldl dtmf_sample s (amp_range amp sample limit) in
      let s := dtmf_set_current_sample s (current_sample s + (limit - sample)) in
      if current_sample s <? 102 then
        if negb (hit =? 0) && (Z.land digitmode DSP_DIGITMODE_NOQUELCH =? 0)
        then dtmf_loop fuel' s (zero_amp amp sample limit) samples limit hit digitmode 1
        else dtmf_loop fuel' s amp samples limit hit digitmode writeback
      else
        let '(s, amp, hit, writeback) := dtmf_block s amp sample limit digitmode writeback in
        dtmf_loop fuel' s amp samples limit hit digitmode writeback
    end
  else Some (s, amp, hit, writeback).

(** [dtmf_detect(s, amp, samples, digitmode, writeback)]: returns the
    value returned, the state, the samples and [*writeback]. *)
Definition dtmf_detect (s : dtmf_detect_state_t) (amp : list Z)
    (samples digitmode writeback : Z) : option (Z * dtmf_detect_state_t * list Z * Z) :=
  match dtmf_loop (Z.to_nat samples) s amp samples 0 0 digitmode writeback with
  | None => None
  | Some (s, amp, hit, writeback) =>
    if (mhit s =? 0) || negb (mhit s =? hit)
    then Some (0, dtmf_set_mhit s 0, amp, writeback)
    else Some (hit, s, amp, writeback)
  end.

(** ** MF detection *)

(** What the read of [s->tone_out2nd[6]], one element past the end of the
    array, yields: the bytes of the fields that follow it in the state. *)
Variable tone_out2nd_6 : mf_detect_state_t -> goertzel_state_t.

(** As for DTMF, with room for [MAX_DTMF_DIGITS - 2] digits. *)
Definition mf_queue_digit (s : mf_detect_state_t) (hit : Z) : mf_detect_state_t :=
  if mf_current_digits s <? MAX_DTMF_DIGITS - 2 then
    mf_set_queue s
      (<[Z.to_nat (mf_current_digits s + 1) := 0]>
         (<[Z.to_nat (mf_current_digits s) := hit]> (mf_digits s)))
      (mf_current_digits s + 1) (mf_lost_digits s)
  else
    mf_set_queue s (mf_digits s) (mf_current_digits s) (CInt.to_int (mf_lost_digits s + 1)).

(** The body of the sample loop.  The six tone filters and the second
    harmonics 0 to 3 are updated like DTMF's; second harmonic 4 multiplies
    its coefficient with [v2] of second harmonic 2, and second harmonic 5
    is computed from second harmonic 3 and from [tone_out2nd[6]]. *)
Definition mf_sample (s : mf_detect_state_t) (a : Z) : mf_detect_state_t :=
  let famp := of_int a in
  let energy' := add (mf_energy s) (mul famp famp) in
  let tone_out' := map (goertzel_step famp) (tone_out s) in
  let t0 := goertzel_step famp (filter_at (tone_out2nd s) 0) in
  let t1 := goertzel_step famp (filter_at (tone_out2nd s) 1) in
  let t2 := goertzel_step famp (filter_at (tone_out2nd s) 2) in
  let t3 := goertzel_step famp (filter_at (tone_out2nd s) 3) in
  let o4 := filter_at (tone_out2nd s) 4 in
  let t4 := {| v2 := v3 o4; v3 := add (sub (mul (fac o4) (v2 t2)) (v2 o4)) famp;
               fac := fac o4 |} in
  let o5 := filter_at (tone_out2nd s) 5 in
  let t6 := tone_out2nd_6 (mf_set_filters s tone_out' [t0; t1; t2; t3; t4; o5] energy') in
  let t5 := {| v2 := v3 t6; v3 := add (sub (mul (fac t6) (v2 t3)) (v2 t3)) famp;
               fac := fac o5 |} in
  mf_set_filters s tone_out' [t0; t1; t2; t3; t4; t5] energy'.

(** The index of the second highest tone, as the code finds it. *)
Definition mf_best2 (tone_energy : list float) (best1 : nat) : nat :=
  let max := if (best1 =? 0)%nat then energy_at tone_energy 1 else energy_at tone_energy 0 in
  snd (foldl (fun '(max, best2) i =>
                if (i =? best1)%nat then (max, best2)
                else if gt (energy_at tone_energy i) max then (energy_at tone_energy i, i)
                else (max, best2))
             (max, O) (seq 0 6)).

(** The end of a detection block, first part: the tests. *)
Definition mf_block_digit (s : mf_detect_state_t) (amp : list Z)
    (sample limit digitmode writeback : Z) : mf_detect_state_t * list Z * Z * Z :=
  let tone_energy := map goertzel_result (tone_out s) in
  let tone := energy_at tone_energy in
  let best1 := best_of tone_energy 6 in
  let best2 := mf_best2 tone_energy best1 in
  let relative :=
    forallb (fun i =>
      (i =? best1)%nat || (i =? best2)%nat
      || negb (lt (to_double (tone best1)) (mul_d (tone i) MF_RELATIVE_PEAK)
               || lt (to_double (tone best2)) (mul_d (tone i) MF_RELATIVE_PEAK)))
      (seq 0 6) in
  let harmonic := mul_d (goertzel_result (filter_at (tone_out2nd s) best1)) MF_2ND_HARMONIC in
  let sofarsogood :=
    relative
    && negb (gt harmonic (to_double (tone best1)))
    && negb (gt harmonic (to_double (tone best2))) in
  if sofarsogood then
    let hit := nth best2 (nth best1 mf_hit []) 0 in
    let s' :=
      if (hit =? mf_hit3 s) && negb (mf_hit3 s =? mf_hit2 s) then
        mf_queue_digit
          (mf_set_detected (mf_set_mhit s hit) (CInt.to_int (mf_detected_digits s + 1)))
          hit
      else s in
    if Z.land digitmode DSP_DIGITMODE_NOQUELCH =? 0
    then (s', zero_amp amp sample limit, hit, 1)
    else (s', amp, hit, writeback)
  else (s, amp, 0, writeback).

(** Last part: the hit history moves on and the detector is reinitialised
    for the next block. *)
Definition mf_block_reset (s : mf_detect_state_t) (hit : Z) : mf_detect_state_t :=
  let s := mf_set_hits s (mf_hit2 s) (mf_hit3 s) hit in
  let s := mf_set_filters s (map goertzel_reset (tone_out s))
                          (map goertzel_reset (tone_out2nd s)) zero in
  mf_set_current_sample s 0.

Definition mf_block (s : mf_detect_state_t) (amp : list Z)
    (sample limit digitmode writeback : Z) : mf_detect_state_t * list Z * Z * Z :=
  let '(s, amp, hit, writeback) := mf_block_digit s amp sample limit digitmode writeback in
  (mf_block_reset s hit, amp, hit, writeback).

Fixpoint mf_loop (fuel : nat) (s : mf_detect_state_t) (amp : list Z)
    (samples sample hit digitmode writeback : Z)
  : option (mf_detect_state_t * list Z * Z * Z) :=
  if sample <? samples then
    match fuel with
    | O => None
    | S fuel' =>
      let limit :=
        if samples - sample >=? MF_GSIZE - mf_current_sample s
        then sample + (MF_GSIZE - mf_current_sample s) else samples in
      let s := foldl mf_sample s (amp_range amp sample limit) in
      let s := mf_set_current_sample s (mf_current_sample s + (limit - sample)) in
      if mf_current_sample s <? MF_GSIZE then
        if negb (hit =? 0) && (Z.land digitmode DSP_DIGITMODE_NOQUELCH =? 0)
        then mf_loop fuel' s (zero_amp amp sample limit) samples limit hit digitmode 1
        else mf_loop fuel' s amp samples limit hit digitmode writeback
      else
        let '(s, amp, hit, writeback) := mf_block s amp sample limit digitmode writeback in
        mf_loop fuel' s amp samples limit hit digitmode writeback
    end
  else Some (s, amp, hit, writeback).

Definition mf_detect (s : mf_detect_state_t) (amp : list Z)
    (samples digitmode writeback : Z) : option (Z * mf_detect_state_t * list Z * Z) :=
  match mf_loop (Z.to_nat samples) s amp samples 0 0 digitmode writeback with
  | None => None
  | Some (s, amp, hit, writeback) =>
    if (mf_mhit s =? 0) || negb (mf_mhit s =? hit)
    then Some (0, mf_set_mhit s 0, amp, writeback)
    else Some (hit, s, amp, writeback)
  end.

(** [__ast_dsp_digitdetect(dsp, s, len, writeback)] *)
Definition __ast_dsp_digitdetect (dsp : ast_dsp) (s : list Z) (len writeback : Z)
  : option (Z * ast_dsp * list Z * Z) :=
  if negb (Z.land (digitmode dsp) DSP_DIGITMODE_MF =? 0) then
    match td dsp with
    | td_mf mf =>
      match mf_detect mf s len (Z.land (digitmode dsp) DSP_DIGITMODE_RELAXDTMF) writeback with
      | Some (res, mf, s, writeback) => Some (res, set_td dsp (td_mf mf), s, writeback)
      | None => None
      end
    | td_dtmf _ => None
    end
  else
    match td dsp with
    | td_dtmf dtmf =>
      match dtmf_detect dtmf s len (Z.land (digitmode dsp) DSP_DIGITMODE_RELAXDTMF) writeback with
      | Some (res, dtmf, s, writeback) => Some (res, set_td dsp (td_dtmf dtmf), s, writeback)
      | None => None
      end
    | td_mf _ => None
    end.

(** ** Creation and configuration *)

(** [2.0 * cos(2.0 * M_PI * (freq / 8000.0))] for a frequency in Hz, as the
    C library computes it. *)
Variable coefficient : Z -> double.

(** [ast_dtmf_detect_init] assigns every field but [hit3], [hit4],
    [digit_hits] and [fax_hits], which keep what the memory held. *)
Definition ast_dtmf_detect_init (s : dtmf_detect_state_t) : dtmf_detect_state_t :=
  {| hit1 := 0; hit2 := 0; hit3 := hit3 s; hit4 := hit4 s; mhit := 0;
     row_out := map (goertzel_init coefficient) dtmf_row;
     col_out := map (goertzel_init coefficient) dtmf_col;
     row_out2nd := map (fun f => goertzel_init coefficient (f * 2)) dtmf_row;
     col_out2nd := map (fun f => goertzel_init coefficient (f * 2)) dtmf_col;
     fax_tone := goertzel_init coefficient fax_freq;
     fax_tone2nd := goertzel_init coefficient (fax_freq * 2);
     energy := zero; current_sample := 0;
     digits := replicate (Z.to_nat (MAX_DTMF_DIGITS + 1)) 0;
     current_digits := 0; detected_digits := 0; lost_digits := 0;
     digit_hits := digit_hits s; fax_hits := fax_hits s |}.

(** [ast_mf_detect_init] leaves [hit3], [hit4] and [fax_hits] alone. *)
Definition ast_mf_detect_init (s : mf_detect_state_t) : mf_detect_state_t :=
  {| mf_hit1 := 0; mf_hit2 := 0; mf_hit3 := mf_hit3 s; mf_hit4 := mf_hit4 s; mf_mhit := 0;
     tone_out := map (goertzel_init coefficient) mf_tones;
     tone_out2nd := map (fun f => goertzel_init coefficient (f * 2)) mf_tones;
     mf_energy := zero; mf_current_sample := 0;
     mf_digits := replicate (Z.to_nat (MAX_DTMF_DIGITS + 1)) 0;
     mf_current_digits := 0; mf_detected_digits := 0; mf_lost_digits := 0;
     mf_fax_hits := mf_fax_hits s |}.

(** The DTMF state of a handle fresh from [memset(dsp, 0, ...)]. *)
Definition zeroed_dtmf : dtmf_detect_state_t :=
  let g := {| v2 := zero; v3 := zero; fac := zero |} in
  {| hit1 := 0; hit2 := 0; hit3 := 0; hit4 := 0; mhit := 0;
     row_out := replicate 4 g; col_out := replicate 4 g;
     row_out2nd := replicate 4 g; col_out2nd := replicate 4 g;
     fax_tone := g; fax_tone2nd := g; energy := zero; current_sample := 0;
     digits := replicate (Z.to_nat (MAX_DTMF_DIGITS + 1)) 0;
     current_digits := 0; detected_digits := 0; lost_digits := 0;
     digit_hits := replicate 16 0; fax_hits := 0 |}.

(** [ast_dsp_new()], when [malloc] succeeds. *)
Definition ast_dsp_new : ast_dsp :=
  {| threshold := DEFAULT_THRESHOLD; totalsilence := 0; totalnoise := 0;
     features := DSP_FEATURE_SILENCE_SUPPRESS; busymaybe := 0; busycount := 3;
     historicnoise := replicate (Z.to_nat DSP_HISTORY) 0;
     historicsilence := replicate (Z.to_nat DSP_HISTORY) 0;
     freqs := map (goertzel_init coefficient) [350; 440; 480; 620; 950; 1400; 1800];
     gsamps := 0; tstate := 0; tcount := 0; digitmode := 0; thinkdigit := 0;
     genergy := zero; td := td_dtmf (ast_dtmf_detect_init zeroed_dtmf) |}.

(** What the bytes of the union [td] read as the state of the other
    detector. *)
Variable dtmf_as_mf : dtmf_detect_state_t -> mf_detect_state_t.
Variable mf_as_dtmf : mf_detect_state_t -> dtmf_detect_state_t.

Definition ast_dsp_digitmode (dsp : ast_dsp) (digitmode' : Z) : Z * ast_dsp :=
  let mask := Z.lor (Z.lor (Z.lor DSP_DIGITMODE_DTMF DSP_DIGITMODE_MF)
                           DSP_DIGITMODE_MUTECONF) DSP_DIGITMODE_MUTEMAX in
  let old := Z.land (digitmode dsp) mask in
  let new := Z.land digitmode' mask in
  let td' :=
    if negb (old =? new) then
      if negb (Z.land new DSP_DIGITMODE_MF =? 0) then
        td_mf (ast_mf_detect_init
                 match td dsp with td_mf mf => mf | td_dtmf dtmf => dtmf_as_mf dtmf end)
      else
        td_dtmf (ast_dtmf_detect_init
                   match td dsp with td_dtmf dtmf => dtmf | td_mf mf => mf_as_dtmf mf end)
    else td dsp in
  (0, {| threshold := threshold dsp; totalsilence := totalsilence dsp;
         totalnoise := totalnoise dsp; features := features dsp;
         busymaybe := busymaybe dsp; busycount := busycount dsp;
         historicnoise := historicnoise dsp; historicsilence := historicsilence dsp;
         freqs := freqs dsp; gsamps := gsamps dsp; tstate := tstate dsp; tcount := tcount dsp;
         digitmode := digitmode'; thinkdigit := thinkdigit dsp;
         genergy := genergy dsp; td := td' |}).

End Routines.

(** ** Well-formed states *)

(** The digit queue of a detector: the first [current_digits] bytes of
    [digits]. *)
Definition queue (digits : list Z) (current_digits : Z) : list Z :=
  take (Z.to_nat current_digits) digits.

(** [digits] has its [MAX_DTMF_DIGITS + 1] bytes, and the counters stay
    inside the arrays they index. *)
Definition dtmf_wf (s : dtmf_detect_state_t) : Prop :=
  length (digits s) = Z.to_nat (MAX_DTMF_DIGITS + 1) /\
  0 <= current_digits s <= MAX_DTMF_DIGITS /\
  0 <= current_sample s < 102.

Definition mf_wf (s : mf_detect_state_t) : Prop :=
  length (mf_digits s) = Z.to_nat (MAX_DTMF_DIGITS + 1) /\
  0 <= mf_current_digits s <= MAX_DTMF_DIGITS /\
  0 <= mf_current_sample s < MF_GSIZE.

(** The union holds the state of the detector that [digitmode] selects. *)
Definition td_wf `{Headers} (dsp : ast_dsp) : Prop :=
  match td dsp with
  | td_dtmf s => Z.land (digitmode dsp) DSP_DIGITMODE_MF = 0 /\ dtmf_wf s
  | td_mf s => Z.land (digitmode dsp) DSP_DIGITMODE_MF <> 0 /\ mf_wf s
  end.

(** The queue of the detector in use. *)
Definition dsp_queue (dsp : ast_dsp) : list Z :=
  match td dsp with
  | td_dtmf s => queue (digits s) (current_digits s)
  | td_mf s => queue (mf_digits s) (mf_current_digits s)
  end.

(** The busy detector looks at [busycount] slots of histories of
    [DSP_HISTORY] slots. *)
Definition busy_wf (dsp : ast_dsp) : Prop :=
  length (historicsilence dsp) = Z.to_nat DSP_HISTORY /\
  length (historicnoise dsp) = Z.to_nat DSP_HISTORY /\
  1 <= busycount dsp <= DSP_HISTORY.

(** ** The digit queue is drained in order *)

Section GetDigits.

Context `{Headers}.

Lemma queue_length digits current_digits :
  0 <= current_digits <= Z.of_nat (length digits) ->
  Z.of_nat (length (queue digits current_digits)) = current_digits.
Proof. intros Hc. unfold queue. rewrite length_take. lia. Qed.

Lemma read_bytes_ok src off n :
  0 <= off -> 0 <= n -> off + n <= Z.of_nat (length src) ->
  read_bytes src off n = Some (take (Z.to_nat n) (drop (Z.to_nat off) src)).
Proof.
  intros H1 H2 H3. unfold read_bytes.
  destruct (Z.leb_spec 0 off), (Z.leb_spec 0 n), (Z.leb_spec (off + n) (Z.of_nat (length src)));
    simpl; (done || lia).
Qed.

Lemma write_bytes_ok dst bytes :
  (length bytes <= length dst)%nat ->
  write_bytes dst bytes = Some (bytes ++ drop (length bytes) dst).
Proof. intros Hl. unfold write_bytes. destruct (Nat.leb_spec (length bytes) (length dst)); (done || lia). Qed.

Lemma store_byte_ok a i v :
  0 <= i < Z.of_nat (length a) -> store_byte a i v = Some (<[Z.to_nat i := v]> a).
Proof.
  intros Hi. unfold store_byte.
  destruct (Z.leb_spec 0 i), (Z.ltb_spec i (Z.of_nat (length a))); simpl; (done || lia).
Qed.

Lemma copy_bytes_ok dst src off n :
  0 <= off -> 0 <= n -> off + n <= Z.of_nat (length src) -> n <= Z.of_nat (length dst) ->
  copy_bytes dst src off n =
    Some (take (Z.to_nat n) (drop (Z.to_nat off) src) ++ drop (Z.to_nat n) dst).
Proof.
  intros H1 H2 H3 H4. unfold copy_bytes. rewrite read_bytes_ok by done.
  assert (length (take (Z.to_nat n) (drop (Z.to_nat off) src)) = Z.to_nat n) as El.
  { rewrite length_take, length_drop. lia. }
  rewrite write_bytes_ok by lia. by rewrite El.
Qed.

(** The two copies and the terminator of [ast_dsp_getdigits], on a queue of
    [current_digits] digits in an array that holds them. *)
Lemma getdigits_spec digits current_digits buf max :
  0 <= current_digits <= Z.of_nat (length digits) ->
  0 <= max ->
  Z.min max current_digits < Z.of_nat (length buf) ->
  exists buf' digits',
    getdigits digits current_digits buf max
      = Some (Z.min max current_digits, buf', digits', current_digits - Z.min max current_digits) /\
    length digits' = length digits /\
    length buf' = length buf /\
    take (Z.to_nat (Z.min max current_digits)) buf'
      = take (Z.to_nat (Z.min max current_digits)) (queue digits current_digits) /\
    buf' !! Z.to_nat (Z.min max current_digits) = Some 0 /\
    drop (S (Z.to_nat (Z.min max current_digits))) buf'
      = drop (S (Z.to_nat (Z.min max current_digits))) buf /\
    queue digits' (current_digits - Z.min max current_digits)
      = drop (Z.to_nat (Z.min max current_digits)) (queue digits current_digits).
Proof.
  intros Hc Hmax Hbuf. unfold getdigits.
  assert ((if max >? current_digits then current_digits else max) = Z.min max current_digits)
    as -> by (destruct (Z.gtb_spec max current_digits); lia).
  set (n := Z.min max current_digits) in *.
  destruct (Z.gtb_spec n 0) as [Hpos|Hzero].
  - rewrite copy_bytes_ok by lia. rewrite copy_bytes_ok by lia.
    change (Z.to_nat 0) with O. rewrite drop_0.
    assert (length (take (Z.to_nat n) digits ++ drop (Z.to_nat n) buf) = length buf) as Elb.
    { rewrite length_app, length_take, length_drop. lia. }
    rewrite store_byte_ok by lia.
    eexists _, _. split; [reflexivity|]. repeat split.
    + rewrite length_app, length_take, !length_drop. lia.
    + by rewrite length_insert.
    + rewrite take_insert_ge by lia. rewrite take_app_le by (rewrite length_take; lia).
      rewrite take_take. unfold queue. rewrite take_take. f_equal; lia.
    + apply list_lookup_insert_eq. lia.
    + rewrite drop_insert_lt by lia. rewrite drop_app_ge by (rewrite length_take; lia).
      rewrite length_take, drop_drop. f_equal. lia.
    + unfold queue. rewrite take_app_le by (rewrite length_take, length_drop; lia).
      rewrite take_take, Nat.min_id. rewrite take_drop_commute. f_equal. f_equal. lia.
  - assert (n = 0) as Hn by lia. rewrite Hn in *.
    rewrite store_byte_ok by lia. rewrite Z.sub_0_r.
    eexists _, _. split; [reflexivity|]. simpl.
    rewrite length_insert. repeat split; try done.
    + apply list_lookup_insert_eq. lia.
    + destruct buf; simpl; [simpl in Hbuf; lia | done].
Qed.

Lemma dtmf_wf_queue s digits' current_digits' lost' :
  dtmf_wf s -> length digits' = length (digits s) ->
  0 <= current_digits' <= MAX_DTMF_DIGITS ->
  dtmf_wf (dtmf_set_queue s digits' current_digits' lost').
Proof. intros (Hl & Hc & Hs) El Hc'. unfold dtmf_wf; simpl. rewrite El. done. Qed.

Lemma mf_wf_queue s digits' current_digits' lost' :
  mf_wf s -> length digits' = length (mf_digits s) ->
  0 <= current_digits' <= MAX_DTMF_DIGITS ->
  mf_wf (mf_set_queue s digits' current_digits' lost').
Proof. intros (Hl & Hc & Hs) El Hc'. unfold mf_wf; simpl. rewrite El. done. Qed.

(** What [ast_dsp_getdigits] does on the detector in use, in terms of the
    handle. *)
Lemma ast_dsp_getdigits_spec dsp buf max :
  td_wf dsp -> 0 <= max ->
  Z.min max (Z.of_nat (length (dsp_queue dsp))) < Z.of_nat (length buf) ->
  exists buf' dsp',
    ast_dsp_getdigits dsp buf max
      = Some (Z.min max (Z.of_nat (length (dsp_queue dsp))), buf', dsp') /\
    length buf' = length buf /\
    take (Z.to_nat (Z.min max (Z.of_nat (length (dsp_queue dsp))))) buf'
      = take (Z.to_nat (Z.min max (Z.of_nat (length (dsp_queue dsp))))) (dsp_queue dsp) /\
    buf' !! Z.to_nat (Z.min max (Z.of_nat (length (dsp_queue dsp)))) = Some 0 /\
    drop (S (Z.to_nat (Z.min max (Z.of_nat (length (dsp_queue dsp)))))) buf'
      = drop (S (Z.to_nat (Z.min max (Z.of_nat (length (dsp_queue dsp)))))) buf /\
    dsp_queue dsp' = drop (Z.to_nat (Z.min max (Z.of_nat (length (dsp_queue dsp))))) (dsp_queue dsp) /\
    td_wf dsp'.
Proof.
  unfold td_wf, dsp_queue, ast_dsp_getdigits. intros Hwf Hmax.
  destruct (td dsp) as [s|s] eqn:Etd; destruct Hwf as (Hmode & Hl & Hc & Hs).
  - assert (0 <= current_digits s <= Z.of_nat (length (digits s))) as Hc'.
    { rewrite Hl. unfold MAX_DTMF_DIGITS in *. lia. }
    rewrite (queue_length _ _ Hc'). intros Hbuf.
    destruct (getdigits_spec _ _ buf max Hc' Hmax Hbuf)
      as (buf' & digits' & E & Eld & Elb & Etake & Enul & Edrop & Eq).
    rewrite Hmode, E. simpl. eexists _, _. split; [reflexivity|].
    split_and!; try done. simpl. split; [done|]. apply dtmf_wf_queue; [done | done | lia].
  - assert (0 <= mf_current_digits s <= Z.of_nat (length (mf_digits s))) as Hc'.
    { rewrite Hl. unfold MAX_DTMF_DIGITS in *. lia. }
    rewrite (queue_length _ _ Hc'). intros Hbuf.
    destruct (getdigits_spec _ _ buf max Hc' Hmax Hbuf)
      as (buf' & digits' & E & Eld & Elb & Etake & Enul & Edrop & Eq).
    destruct (Z.eqb_spec (Z.land (digitmode dsp) DSP_DIGITMODE_MF) 0) as [E0|_]; [done|].
    rewrite E. simpl. eexists _, _. split; [reflexivity|].
    split_and!; try done. simpl. split; [done|]. apply mf_wf_queue; [done | done | lia].
Qed.

(** C5.  With the state of the detector in use well formed, [max >= 0] and
    a buffer with room for the digits asked for and the terminator,
    [ast_dsp_getdigits] returns [min(max, queued)]; the buffer starts with
    that many digits from the front of the queue, in queue order, followed
    by NUL, and is otherwise untouched; the queue is left with the digits
    that follow, in order.  When [max] covers the whole queue the queue is
    left empty, and a further call returns 0 and an empty string. *)
Theorem getdigits_fifo dsp buf max :
  td_wf dsp -> 0 <= max ->
  Z.min max (Z.of_nat (length (dsp_queue dsp))) < Z.of_nat (length buf) ->
  exists buf' dsp',
    ast_dsp_getdigits dsp buf max
      = Some (Z.min max (Z.of_nat (length (dsp_queue dsp))), buf', dsp') /\
    Z.min max (Z.of_nat (length (dsp_queue dsp))) <= Z.of_nat (length (dsp_queue dsp)) /\
    take (Z.to_nat (Z.min max (Z.of_nat (length (dsp_queue dsp))))) buf'
      = take (Z.to_nat (Z.min max (Z.of_nat (length (dsp_queue dsp))))) (dsp_queue dsp) /\
    buf' !! Z.to_nat (Z.min max (Z.of_nat (length (dsp_queue dsp)))) = Some 0 /\
    drop (S (Z.to_nat (Z.min max (Z.of_nat (length (dsp_queue dsp)))))) buf'
      = drop (S (Z.to_nat (Z.min max (Z.of_nat (length (dsp_queue dsp)))))) buf /\
    dsp_queue dsp' = drop (Z.to_nat (Z.min max (Z.of_nat (length (dsp_queue dsp))))) (dsp_queue dsp) /\
    td_wf dsp' /\
    (Z.of_nat (length (dsp_queue dsp)) <= max ->
     dsp_queue dsp' = [] /\
     exists buf'' dsp'',
       ast_dsp_getdigits dsp' buf' max = Some (0, buf'', dsp'') /\
       buf'' !! O = Some 0 /\ dsp_queue dsp'' = []).
Proof.
  intros Hwf Hmax Hbuf.
  destruct (ast_dsp_getdigits_spec dsp buf max Hwf Hmax Hbuf)
    as (buf' & dsp' & E & Elb & Etake & Enul & Edrop & Eq & Hwf').
  exists buf', dsp'. split_and!; try done; [lia|]. intros Hall.
  assert (dsp_queue dsp' = []) as Hempty.
  { rewrite Eq. apply drop_ge. lia. }
  split; [done|].
  destruct (ast_dsp_getdigits_spec dsp' buf' max Hwf' Hmax)
    as (buf'' & dsp'' & E' & _ & _ & Enul' & _ & Eq' & _).
  { rewrite Hempty. simpl. lia. }
  rewrite Hempty in E', Enul', Eq'. simpl in E', Enul', Eq'.
  rewrite Z.min_r in E', Enul', Eq' by lia.
  exists buf'', dsp''. done.
Qed.

End GetDigits.
(** ** Busy detection *)

(** The last [busycount] slots of the history of silences and of the
    history of noises. *)
Definition busy_window (dsp : ast_dsp) : list Z :=
  drop (Z.to_nat (DSP_HISTORY - busycount dsp)) (historicsilence dsp)
  ++ drop (Z.to_nat (DSP_HISTORY - busycount dsp)) (historicnoise dsp).

(** The busy cadence in the words of the specification: over those slots,
    [max - min < 100] ms, [max < 1100] ms and [min > 80] ms. *)
Definition busy_cadence (dsp : ast_dsp) : Prop :=
  exists min max,
    min ∈ busy_window dsp /\ max ∈ busy_window dsp /\
    (forall v, v ∈ busy_window dsp -> min <= v <= max) /\
    max - min < BUSY_THRESHOLD /\ max < BUSY_MAX /\ min > BUSY_MIN.

(** A block ended a run of noise (it is silent and noise was running) or a
    run of silence; the run's length enters its history. *)
Definition run_ended (dsp : ast_dsp) (res : Z) (dsp' : ast_dsp) : Prop :=
  (res = 1 /\ totalnoise dsp <> 0 /\
   historicnoise dsp' = push_history (historicnoise dsp) (totalnoise dsp) /\
   historicsilence dsp' = historicsilence dsp) \/
  (res = 0 /\ totalsilence dsp <> 0 /\
   historicsilence dsp' = push_history (historicsilence dsp) (totalsilence dsp) /\
   historicnoise dsp' = historicnoise dsp).

Section BusyDetect.

Lemma to_int_small z : - 2 ^ 31 <= z < 2 ^ 31 -> CInt.to_int z = z.
Proof. intros Hz. unfold CInt.to_int. rewrite Z.mod_small; lia. Qed.

(** A slot is in the window when its index is one of those the loop
    visits. *)
Definition in_slots (dsp : ast_dsp) (xs : list Z) (v : Z) : Prop :=
  exists x, x ∈ xs /\
    (historicsilence dsp !! Z.to_nat x = Some v \/ historicnoise dsp !! Z.to_nat x = Some v).

Lemma min_chain m hs hn :
  let r := if hn <? (if hs <? m then hs else m) then hn else (if hs <? m then hs else m) in
  r <= m /\ r <= hs /\ r <= hn /\ (r = m \/ r = hs \/ r = hn).
Proof.
  simpl. destruct (Z.ltb_spec hs m); [destruct (Z.ltb_spec hn hs) | destruct (Z.ltb_spec hn m)]; lia.
Qed.

Lemma max_chain m hs hn :
  let r := if hn >? (if hs >? m then hs else m) then hn else (if hs >? m then hs else m) in
  m <= r /\ hs <= r /\ hn <= r /\ (r = m \/ r = hs \/ r = hn).
Proof.
  simpl. destruct (Z.gtb_spec hs m); [destruct (Z.gtb_spec hn hs) | destruct (Z.gtb_spec hn m)]; lia.
Qed.

Lemma busy_scan_spec dsp xs min max :
  length (historicsilence dsp) = Z.to_nat DSP_HISTORY ->
  length (historicnoise dsp) = Z.to_nat DSP_HISTORY ->
  Forall (fun x => 0 <= x < DSP_HISTORY) xs ->
  exists min' max',
    busy_scan dsp xs min max = Some (min', max') /\
    min' <= min /\ max <= max' /\
    (forall v, in_slots dsp xs v -> min' <= v <= max') /\
    (min' = min \/ in_slots dsp xs min') /\
    (max' = max \/ in_slots dsp xs max').
Proof.
  intros Hls Hln Hxs. revert min max. induction Hxs as [|x xs Hx _ IH]; intros min max; simpl.
  - exists min, max. split_and!; try done; try lia; try (by left).
    intros v (x & Hin & _). by apply elem_of_nil in Hin.
  - unfold int_at. destruct (Z.ltb_spec x 0) as [|_]; [lia|].
    destruct (historicsilence dsp !! Z.to_nat x) as [hs|] eqn:Ehs.
    2:{ apply lookup_ge_None in Ehs. unfold DSP_HISTORY in *. lia. }
    destruct (historicnoise dsp !! Z.to_nat x) as [hn|] eqn:Ehn.
    2:{ apply lookup_ge_None in Ehn. unfold DSP_HISTORY in *. lia. }
    set (min1 := if hs <? min then hs else min).
    set (min2 := if hn <? min1 then hn else min1).
    set (max1 := if hs >? max then hs else max).
    set (max2 := if hn >? max1 then hn else max1).
    destruct (IH min2 max2) as (min' & max' & E & Hmin & Hmax & Hall & Hmin' & Hmax').
    assert (in_slots dsp (x :: xs) hs) as Hhs.
    { exists x. split; [by left | by left]. }
    assert (in_slots dsp (x :: xs) hn) as Hhn.
    { exists x. split; [by left | by right]. }
    assert (forall v, in_slots dsp xs v -> in_slots dsp (x :: xs) v) as Hweak.
    { intros v (y & Hy & Hv). exists y. split; [by right | done]. }
    destruct (min_chain min hs hn) as (Hm1 & Hm2 & Hm3 & Hm4).
    destruct (max_chain max hs hn) as (HM1 & HM2 & HM3 & HM4).
    fold min1 in Hm1, Hm2, Hm3, Hm4. fold min2 in Hm1, Hm2, Hm3, Hm4.
    fold max1 in HM1, HM2, HM3, HM4. fold max2 in HM1, HM2, HM3, HM4.
    exists min', max'. split_and!; try done; try lia.
    + intros v (y & Hy & Hv). apply elem_of_cons in Hy as [-> | Hy].
      * rewrite Ehs, Ehn in Hv. destruct Hv as [[= <-] | [= <-]]; lia.
      * apply Hall. by exists y.
    + destruct Hmin' as [-> | Hin]; [|right; by apply Hweak].
      destruct Hm4 as [-> | [-> | ->]]; [by left | by right | by right].
    + destruct Hmax' as [-> | Hin]; [|right; by apply Hweak].
      destruct HM4 as [-> | [-> | ->]]; [by left | by right | by right].
Qed.

Lemma in_window dsp v :
  busy_wf dsp ->
  v ∈ busy_window dsp <->
  in_slots dsp (seqZ (DSP_HISTORY - busycount dsp) (busycount dsp)) v.
Proof.
  intros (Hls & Hln & Hbc). unfold busy_window, in_slots. rewrite elem_of_app.
  rewrite !list_elem_of_lookup. setoid_rewrite lookup_drop. setoid_rewrite elem_of_seqZ.
  split.
  - intros [[i Hi] | [i Hi]].
    + exists (DSP_HISTORY - busycount dsp + Z.of_nat i). split.
      * apply lookup_lt_Some in Hi. unfold DSP_HISTORY in *. lia.
      * left. rewrite <- Hi. f_equal. lia.
    + exists (DSP_HISTORY - busycount dsp + Z.of_nat i). split.
      * apply lookup_lt_Some in Hi. unfold DSP_HISTORY in *. lia.
      * right. rewrite <- Hi. f_equal. lia.
  - intros (x & Hx & [Hv | Hv]).
    + left. exists (Z.to_nat (x - (DSP_HISTORY - busycount dsp))). rewrite <- Hv. f_equal. lia.
    + right. exists (Z.to_nat (x - (DSP_HISTORY - busycount dsp))). rewrite <- Hv. f_equal. lia.
Qed.

Lemma window_not_empty dsp : busy_wf dsp -> exists v, v ∈ busy_window dsp.
Proof.
  intros Hwf. pose proof Hwf as (Hls & Hln & Hbc).
  destruct (historicsilence dsp !! 4%nat) as [v|] eqn:E.
  - exists v. apply in_window; [done|]. exists 4. split; [|by left].
    apply elem_of_seqZ. unfold DSP_HISTORY in *. lia.
  - apply lookup_ge_None in E. unfold DSP_HISTORY in *. lia.
Qed.

(** The verdict of [ast_dsp_busydetect] on a handle with [busymaybe] set. *)
Lemma busydetect_verdict dsp :
  busy_wf dsp -> busymaybe dsp <> 0 ->
  exists res dsp',
    ast_dsp_busydetect dsp = Some (res, dsp') /\
    dsp' = set_silence dsp (totalsilence dsp) (totalnoise dsp) 0
                       (historicnoise dsp) (historicsilence dsp) /\
    (res = 1 /\ busy_cadence dsp \/ res = 0 /\ ~ busy_cadence dsp).
Proof.
  intros Hwf Hmaybe. pose proof Hwf as (Hls & Hln & Hbc).
  unfold ast_dsp_busydetect. destruct (Z.eqb_spec (busymaybe dsp) 0) as [|_]; [done|].
  destruct (busy_scan_spec dsp (seqZ (DSP_HISTORY - busycount dsp) (busycount dsp)) 9999 0
              Hls Hln) as (min' & max' & -> & Hmin & Hmax & Hall & Hmin' & Hmax').
  { apply Forall_forall. intros x Hx. apply elem_of_seqZ in Hx. unfold DSP_HISTORY in *. lia. }
  destruct (window_not_empty dsp Hwf) as (v0 & Hv0).
  pose proof (proj1 (in_window dsp v0 Hwf) Hv0) as Hv0'. apply Hall in Hv0'.
  destruct ((CInt.to_int (max' - min') <? BUSY_THRESHOLD) && (max' <? BUSY_MAX)
            && (min' >? BUSY_MIN)) eqn:Ec.
  - eexists _, _. split; [reflexivity|]. split; [reflexivity|]. left. split; [done|].
    apply andb_true_iff in Ec as [Ec Ec3]. apply andb_true_iff in Ec as [Ec1 Ec2].
    apply Z.ltb_lt in Ec1, Ec2. apply Z.gtb_lt in Ec3.
    unfold BUSY_THRESHOLD, BUSY_MAX, BUSY_MIN in *.
    rewrite to_int_small in Ec1 by lia.
    exists min', max'. unfold BUSY_THRESHOLD, BUSY_MAX, BUSY_MIN. split_and!; try lia.
    + apply in_window; [done|]. destruct Hmin' as [-> | Hin]; [lia | done].
    + apply in_window; [done|]. destruct Hmax' as [-> | Hin]; [lia | done].
    + intros v Hv. apply Hall. by apply in_window.
  - eexists _, _. split; [reflexivity|]. split; [reflexivity|]. right. split; [done|].
    intros (min & max & Hmn & Hmx & Hbetween & Hd & Hlt & Hgt).
    unfold BUSY_THRESHOLD, BUSY_MAX, BUSY_MIN in *.
    assert (min' = min) as ->.
    { pose proof (Hall min (proj1 (in_window dsp min Hwf) Hmn)).
      destruct Hmin' as [-> | Hin]; [pose proof (Hbetween v0 Hv0); lia|].
      apply in_window in Hin; [|done]. pose proof (Hbetween _ Hin). lia. }
    assert (max' = max) as ->.
    { pose proof (Hall max (proj1 (in_window dsp max Hwf) Hmx)).
      destruct Hmax' as [-> | Hin]; [pose proof (Hbetween v0 Hv0); lia|].
      apply in_window in Hin; [|done]. pose proof (Hbetween _ Hin). lia. }
    pose proof (Hbetween v0 Hv0).
    rewrite to_int_small in Ec by lia.
    apply andb_false_iff in Ec as [Ec | Ec]; [apply andb_false_iff in Ec as [Ec | Ec]|].
    + apply Z.ltb_ge in Ec. lia.
    + apply Z.ltb_ge in Ec. lia.
    + destruct (Z.gtb_spec min 80); [done | lia].
Qed.

(** C4.  On a handle whose histories have their five slots and whose
    [busycount] lies in 1..5:
    - [ast_dsp_busydetect] returns 1 when [busymaybe] is set and the last
      [busycount] slots of both histories show the busy cadence, and 0
      otherwise; it leaves [busymaybe] cleared and the histories alone, so
      a second call at once returns 0;
    - [__ast_dsp_silence] sets [busymaybe] when, and only when, the block
      ends a run of noise or of silence, and otherwise leaves the flag and
      both histories as they were. *)
Theorem busydetect_once_per_transition dsp :
  busy_wf dsp ->
  (exists res dsp',
     ast_dsp_busydetect dsp = Some (res, dsp') /\
     (res = 1 /\ busymaybe dsp <> 0 /\ busy_cadence dsp \/
      res = 0 /\ ~ (busymaybe dsp <> 0 /\ busy_cadence dsp)) /\
     busymaybe dsp' = 0 /\
     historicsilence dsp' = historicsilence dsp /\
     historicnoise dsp' = historicnoise dsp /\
     busycount dsp' = busycount dsp /\
     ast_dsp_busydetect dsp' = Some (0, dsp')) /\
  (forall s len res dsp',
     __ast_dsp_silence dsp s len = Some (res, dsp') ->
     busy_wf dsp' /\
     (busymaybe dsp' = 1 /\ run_ended dsp res dsp' \/
      busymaybe dsp' = busymaybe dsp /\ ~ run_ended dsp res dsp' /\
      historicsilence dsp' = historicsilence dsp /\
      historicnoise dsp' = historicnoise dsp)).
Proof.
  intros Hwf. split.
  - destruct (Z.eq_dec (busymaybe dsp) 0) as [Hz|Hnz].
    + exists 0, dsp. unfold ast_dsp_busydetect. rewrite Hz. simpl.
      split_and!; try done. right. split; [done|]. intros [Hc _]. done.
    + destruct (busydetect_verdict dsp Hwf Hnz) as (res & dsp' & E & -> & Hres).
      eexists _, _. split; [exact E|]. split_and!; try done.
      destruct Hres as [[-> Hc] | [-> Hc]]; [by left | right; split; [done | tauto]].
  - intros s len res dsp'. unfold __ast_dsp_silence.
    destruct (Z.max len 0 =? 0); [done|].
    pose proof Hwf as (Hls & Hln & Hbc).
    assert (forall h v, length h = Z.to_nat DSP_HISTORY ->
              length (push_history h v) = Z.to_nat DSP_HISTORY) as Hpush.
    { intros h v Hl. unfold push_history. rewrite length_app, length_drop, Hl. simpl.
      unfold DSP_HISTORY. lia. }
    destruct (_ <? threshold dsp).
    + destruct (Z.eqb_spec (totalnoise dsp) 0) as [Hz|Hnz]; intros [= <- <-]; simpl.
      * split; [done|]. right. split_and!; try done.
        intros [(_ & Hn & _) | (Hr & _)]; done.
      * split; [split; [done | split; [by apply Hpush | done]]|]. left. split; [done|].
        left. done.
    + destruct (Z.eqb_spec (totalsilence dsp) 0) as [Hz|Hnz]; intros [= <- <-]; simpl.
      * split; [done|]. right. split_and!; try done.
        intros [(Hr & _) | (_ & Hn & _)]; done.
      * split; [split; [by apply Hpush | done]|]. left. split; [done|].
        right. done.
Qed.

End BusyDetect.
(** ** The digit queue is bounded *)

(** What a run of a detector keeps of its queue, from the state [s0] it
    started in: the array keeps its size, the count only grows and stays
    within the array, the digits that were queued stay where they are; and
    if the queue held [full] digits or more at the start, the array is
    untouched, the count is what it was, and [lost_digits] has grown as
    much as [detected_digits], modulo 2^32. *)
Definition queue_kept (full : Z) (digits0 : list Z) (current0 lost0 detected0 : Z)
    (digits1 : list Z) (current1 lost1 detected1 : Z) : Prop :=
  length digits1 = length digits0 /\
  current0 <= current1 /\
  (current0 <= MAX_DTMF_DIGITS -> current1 <= MAX_DTMF_DIGITS) /\
  take (Z.to_nat current0) digits1 = take (Z.to_nat current0) digits0 /\
  (full <= current0 ->
   digits1 = digits0 /\ current1 = current0 /\
   exists k, lost1 - lost0 = detected1 - detected0 + k * 2 ^ 32).

Definition dtmf_kept (s0 s : dtmf_detect_state_t) : Prop :=
  queue_kept MAX_DTMF_DIGITS
    (digits s0) (current_digits s0) (lost_digits s0) (detected_digits s0)
    (digits s) (current_digits s) (lost_digits s) (detected_digits s).

Definition mf_kept (s0 s : mf_detect_state_t) : Prop :=
  queue_kept (MAX_DTMF_DIGITS - 2)
    (mf_digits s0) (mf_current_digits s0) (mf_lost_digits s0) (mf_detected_digits s0)
    (mf_digits s) (mf_current_digits s) (mf_lost_digits s) (mf_detected_digits s).

Section QueueBound.

Context `{Headers}.

Variable tone_out2nd_6 : mf_detect_state_t -> goertzel_state_t.

Lemma to_int_mod z : exists k, CInt.to_int z = z + k * 2 ^ 32.
Proof.
  exists (- ((z + 2 ^ 31) / 2 ^ 32)). unfold CInt.to_int.
  pose proof (Z_div_mod_eq_full (z + 2 ^ 31) (2 ^ 32)). lia.
Qed.

Lemma queue_kept_refl full digits current lost detected :
  queue_kept full digits current lost detected digits current lost detected.
Proof. split_and!; try done; try lia. intros _. split_and!; try done. exists 0. lia. Qed.

(** One confirmed digit: [detected_digits] is incremented and the digit is
    queued when fewer than [full] are, and counted as lost otherwise. *)
Lemma queue_kept_confirm full digits0 current0 lost0 detected0
      digits1 current1 lost1 detected1 hit :
  full <= MAX_DTMF_DIGITS ->
  0 <= current0 ->
  queue_kept full digits0 current0 lost0 detected0 digits1 current1 lost1 detected1 ->
  if current1 <? full then
    queue_kept full digits0 current0 lost0 detected0
      (<[Z.to_nat (current1 + 1) := 0]> (<[Z.to_nat current1 := hit]> digits1))
      (current1 + 1) lost1 (CInt.to_int (detected1 + 1))
  else
    queue_kept full digits0 current0 lost0 detected0
      digits1 current1 (CInt.to_int (lost1 + 1)) (CInt.to_int (detected1 + 1)).
Proof.
  intros Hfull H0 (Hl & Hc & Hmax & Hpre & Hfullq).
  destruct (Z.ltb_spec current1 full) as [Hlt|Hge].
  - split_and!.
    + by rewrite !length_insert.
    + lia.
    + intros _. lia.
    + rewrite !take_insert_ge by lia. done.
    + intros Hf. destruct (Hfullq Hf) as (_ & Ec & _). lia.
  - split_and!; try done.
    intros Hf. destruct (Hfullq Hf) as (Ed & Ec & k & Ek).
    split_and!; try done.
    destruct (to_int_mod (lost1 + 1)) as (k1 & ->).
    destruct (to_int_mod (detected1 + 1)) as (k2 & ->).
    exists (k + k1 - k2). lia.
Qed.

(** *** DTMF *)

Lemma dtmf_samples_fields s l :
  digits (foldl dtmf_sample s l) = digits s /\
  current_digits (foldl dtmf_sample s l) = current_digits s /\
  lost_digits (foldl dtmf_sample s l) = lost_digits s /\
  detected_digits (foldl dtmf_sample s l) = detected_digits s /\
  current_sample (foldl dtmf_sample s l) = current_sample s.
Proof.
  revert s. induction l as [|a l IH]; intros s; simpl; [done|].
  destruct (IH (dtmf_sample s a)) as (-> & -> & -> & -> & ->). done.
Qed.

Lemma dtmf_confirm_kept s0 s m dh hit :
  0 <= current_digits s0 ->
  dtmf_kept s0 s ->
  dtmf_kept s0 (dtmf_queue_digit
                  (dtmf_set_detected (dtmf_set_mhit s m)
                                     (CInt.to_int (detected_digits s + 1)) dh) hit).
Proof.
  intros H0 Hk. unfold dtmf_kept, dtmf_queue_digit in *. simpl.
  pose proof (queue_kept_confirm MAX_DTMF_DIGITS _ _ _ _ _ _ _ _ hit ltac:(lia) H0 Hk) as Hq.
  destruct (current_digits s <? MAX_DTMF_DIGITS); simpl; exact Hq.
Qed.

Lemma dtmf_block_digit_kept s0 s amp sample limit dm wb :
  0 <= current_digits s0 ->
  dtmf_kept s0 s ->
  dtmf_kept s0 (dtmf_block_digit s amp sample limit dm wb).1.1.1.
Proof.
  intros H0 Hk. unfold dtmf_block_digit.
  destruct (_ && _ && _); [|done].
  destruct (_ && negb _); destruct (Z.land dm DSP_DIGITMODE_NOQUELCH =? 0); simpl; try done;
    by apply dtmf_confirm_kept.
Qed.

Lemma dtmf_block_fax_kept s0 s fax_energy hit :
  0 <= current_digits s0 ->
  dtmf_kept s0 s ->
  dtmf_kept s0 (dtmf_block_fax s fax_energy hit).1.
Proof.
  intros H0 Hk. unfold dtmf_block_fax.
  destruct (_ && _ && _).
  - destruct (lt _ _); done.
  - destruct (fax_hits s >? 5); [|done]. simpl.
    by apply (dtmf_confirm_kept s0 s (chr "f") (digit_hits s) (chr "f")).
Qed.

Lemma dtmf_block_kept s0 s amp sample limit dm wb :
  0 <= current_digits s0 ->
  dtmf_kept s0 s ->
  dtmf_kept s0 (dtmf_block s amp sample limit dm wb).1.1.1 /\
  current_sample (dtmf_block s amp sample limit dm wb).1.1.1 = 0.
Proof.
  intros H0 Hk. unfold dtmf_block.
  pose proof (dtmf_block_digit_kept s0 s amp sample limit dm wb H0 Hk) as Hd.
  destruct (dtmf_block_digit s amp sample limit dm wb) as [[[s1 amp1] hit1] wb1]. simpl in Hd.
  pose proof (dtmf_block_fax_kept s0 s1 (goertzel_result (fax_tone s)) hit1 H0 Hd) as Hf.
  destruct (dtmf_block_fax s1 _ hit1) as [s2 hit2]. simpl in Hf. simpl. done.
Qed.

Lemma dtmf_loop_kept fuel s0 s amp samples sample hit dm wb :
  0 <= current_digits s0 ->
  dtmf_kept s0 s ->
  0 <= current_sample s < 102 ->
  (Z.to_nat (samples - sample) <= fuel)%nat ->
  exists s' amp' hit' wb',
    dtmf_loop fuel s amp samples sample hit dm wb = Some (s', amp', hit', wb') /\
    dtmf_kept s0 s' /\ 0 <= current_sample s' < 102.
Proof.
  intros H0. revert s amp sample hit wb.
  induction fuel as [|fuel IH]; intros s amp sample hit wb Hk Hcs Hfuel.
  - simpl. destruct (Z.ltb_spec sample samples); [lia|]. by eexists _, _, _, _.
  - simpl. destruct (Z.ltb_spec sample samples) as [Hlt|Hge]; [|by eexists _, _, _, _].
    set (limit := if samples - sample >=? 102 - current_sample s
                  then sample + (102 - current_sample s) else samples).
    destruct (dtmf_samples_fields s (amp_range amp sample limit))
      as (Ed & Ec & El & Edet & Ecs).
    set (s1 := foldl dtmf_sample s (amp_range amp sample limit)) in *.
    assert (forall v, dtmf_kept s0 (dtmf_set_current_sample s1 v)) as Hk1.
    { intros v. unfold dtmf_kept. simpl. rewrite Ed, Ec, El, Edet. exact Hk. }
    simpl current_sample at 1. rewrite Ecs.
    destruct (Z.geb_spec (samples - sample) (102 - current_sample s)) as [Hfull|Hpart];
      subst limit.
    + destruct (Z.ltb_spec (current_sample s + (sample + (102 - current_sample s) - sample)) 102)
        as [|_]; [lia|].
      destruct (dtmf_block_kept s0 _ amp sample (sample + (102 - current_sample s)) dm wb H0
                  (Hk1 (current_sample s + (sample + (102 - current_sample s) - sample))))
        as [Hk2 Hcs2].
      destruct (dtmf_block _ amp sample _ dm wb) as [[[s2 amp2] hit2] wb2]. simpl in Hk2, Hcs2.
      apply IH; [done | lia | lia].
    + destruct (Z.ltb_spec (current_sample s + (samples - sample)) 102) as [Hlt2|]; [|lia].
      destruct (negb (hit =? 0) && _); apply IH; try done; simpl; rewrite ?Ecs; lia.
Qed.

Lemma dtmf_detect_kept s amp samples dm wb :
  dtmf_wf s ->
  exists res s' amp' wb',
    dtmf_detect s amp samples dm wb = Some (res, s', amp', wb') /\
    dtmf_kept s s' /\ dtmf_wf s'.
Proof.
  intros (Hl & Hc & Hcs). unfold dtmf_detect.
  destruct (dtmf_loop_kept (Z.to_nat samples) s s amp samples 0 0 dm wb)
    as (s' & amp' & hit' & wb' & -> & Hk & Hcs'); [lia | apply queue_kept_refl | done | lia |].
  assert (dtmf_wf s') as Hwf.
  { destruct Hk as (Hl' & Hc1 & Hc2 & _). unfold dtmf_wf. rewrite Hl'. split_and!; try done; lia. }
  destruct (_ || _); eexists _, _, _, _; (split; [reflexivity|]); split; done.
Qed.

(** *** MF *)

Lemma mf_samples_fields s l :
  mf_digits (foldl (mf_sample tone_out2nd_6) s l) = mf_digits s /\
  mf_current_digits (foldl (mf_sample tone_out2nd_6) s l) = mf_current_digits s /\
  mf_lost_digits (foldl (mf_sample tone_out2nd_6) s l) = mf_lost_digits s /\
  mf_detected_digits (foldl (mf_sample tone_out2nd_6) s l) = mf_detected_digits s /\
  mf_current_sample (foldl (mf_sample tone_out2nd_6) s l) = mf_current_sample s.
Proof.
  revert s. induction l as [|a l IH]; intros s; simpl; [done|].
  destruct (IH (mf_sample tone_out2nd_6 s a)) as (-> & -> & -> & -> & ->). done.
Qed.

Lemma mf_block_kept s0 s amp sample limit dm wb :
  0 <= mf_current_digits s0 ->
  mf_kept s0 s ->
  mf_kept s0 (mf_block s amp sample limit dm wb).1.1.1 /\
  mf_current_sample (mf_block s amp sample limit dm wb).1.1.1 = 0.
Proof.
  intros H0 Hk. unfold mf_block.
  assert (mf_kept s0 (mf_block_digit s amp sample limit dm wb).1.1.1) as Hd.
  { unfold mf_block_digit. destruct (_ && _ && _); [|done].
    destruct (_ && negb _); destruct (Z.land dm DSP_DIGITMODE_NOQUELCH =? 0); simpl; try done.
    all: unfold mf_kept, mf_queue_digit in *; simpl.
    all: pose proof (queue_kept_confirm (MAX_DTMF_DIGITS - 2) _ _ _ _ _ _ _ _
           (nth (mf_best2 (map goertzel_result (tone_out s))
                          (best_of (map goertzel_result (tone_out s)) 6))
                (nth (best_of (map goertzel_result (tone_out s)) 6) mf_hit []) 0)
           ltac:(lia) H0 Hk) as Hq.
    all: destruct (mf_current_digits s <? MAX_DTMF_DIGITS - 2); simpl; exact Hq. }
  destruct (mf_block_digit s amp sample limit dm wb) as [[[s1 amp1] hit1] wb1]. simpl in Hd.
  simpl. done.
Qed.

Lemma mf_loop_kept fuel s0 s amp samples sample hit dm wb :
  0 <= mf_current_digits s0 ->
  mf_kept s0 s ->
  0 <= mf_current_sample s < MF_GSIZE ->
  (Z.to_nat (samples - sample) <= fuel)%nat ->
  exists s' amp' hit' wb',
    mf_loop tone_out2nd_6 fuel s amp samples sample hit dm wb = Some (s', amp', hit', wb') /\
    mf_kept s0 s' /\ 0 <= mf_current_sample s' < MF_GSIZE.
Proof.
  intros H0. revert s amp sample hit wb.
  induction fuel as [|fuel IH]; intros s amp sample hit wb Hk Hcs Hfuel.
  - simpl. destruct (Z.ltb_spec sample samples); [lia|]. by eexists _, _, _, _.
  - simpl. destruct (Z.ltb_spec sample samples) as [Hlt|Hge]; [|by eexists _, _, _, _].
    set (limit := if samples - sample >=? MF_GSIZE - mf_current_sample s
                  then sample + (MF_GSIZE - mf_current_sample s) else samples).
    destruct (mf_samples_fields s (amp_range amp sample limit))
      as (Ed & Ec & El & Edet & Ecs).
    set (s1 := foldl (mf_sample tone_out2nd_6) s (amp_range amp sample limit)) in *.
    assert (forall v, mf_kept s0 (mf_set_current_sample s1 v)) as Hk1.
    { intros v. unfold mf_kept. simpl. rewrite Ed, Ec, El, Edet. exact Hk. }
    simpl mf_current_sample at 1. rewrite Ecs.
    destruct (Z.geb_spec (samples - sample) (MF_GSIZE - mf_current_sample s)) as [Hfull|Hpart];
      subst limit.
    + destruct (Z.ltb_spec (mf_current_sample s
                            + (sample + (MF_GSIZE - mf_current_sample s) - sample)) MF_GSIZE)
        as [|_]; [lia|].
      destruct (mf_block_kept s0 _ amp sample (sample + (MF_GSIZE - mf_current_sample s))
                  dm wb H0
                  (Hk1 (mf_current_sample s
                        + (sample + (MF_GSIZE - mf_current_sample s) - sample))))
        as [Hk2 Hcs2].
      destruct (mf_block _ amp sample _ dm wb) as [[[s2 amp2] hit2] wb2]. simpl in Hk2, Hcs2.
      apply IH; [done | unfold MF_GSIZE; lia | unfold MF_GSIZE in *; lia].
    + destruct (Z.ltb_spec (mf_current_sample s + (samples - sample)) MF_GSIZE) as [Hlt2|];
        [|lia].
      destruct (negb (hit =? 0) && _); apply IH; try done; simpl; rewrite ?Ecs; lia.
Qed.

Lemma mf_detect_kept s amp samples dm wb :
  mf_wf s ->
  exists res s' amp' wb',
    mf_detect tone_out2nd_6 s amp samples dm wb = Some (res, s', amp', wb') /\
    mf_kept s s' /\ mf_wf s'.
Proof.
  intros (Hl & Hc & Hcs). unfold mf_detect.
  destruct (mf_loop_kept (Z.to_nat samples) s s amp samples 0 0 dm wb)
    as (s' & amp' & hit' & wb' & -> & Hk & Hcs'); [lia | apply queue_kept_refl | done | lia |].
  assert (mf_wf s') as Hwf.
  { destruct Hk as (Hl' & Hc1 & Hc2 & _). unfold mf_wf. rewrite Hl'. split_and!; try done; lia. }
  destruct (_ || _); eexists _, _, _, _; (split; [reflexivity|]); split; done.
Qed.

End QueueBound.
(** C6.  Whatever the samples:
    - [dtmf_detect] and [mf_detect] return, with a queue of at most
      [MAX_DTMF_DIGITS] = 128 digits in an array of unchanged size, and with
      the digits that were queued before still in place;
    - when the DTMF queue is full (128 digits) on entry, the array and the
      count are unchanged on return and [lost_digits] has grown by the number
      of digits confirmed, as [detected_digits] counts them (modulo 2^32);
      the same holds for MF, which already stops queueing at
      [MAX_DTMF_DIGITS - 2] digits;
    - for one confirmed digit on a full queue, the state changes in
      [lost_digits] only, which is incremented. *)
Theorem digit_queue_bounded `{Headers} (tone_out2nd_6 : mf_detect_state_t -> goertzel_state_t) :
  (forall s amp samples digitmode writeback,
     dtmf_wf s ->
     exists res s' amp' writeback',
       dtmf_detect s amp samples digitmode writeback = Some (res, s', amp', writeback') /\
       dtmf_wf s' /\
       current_digits s <= current_digits s' <= MAX_DTMF_DIGITS /\
       queue (digits s') (current_digits s) = queue (digits s) (current_digits s) /\
       (current_digits s = MAX_DTMF_DIGITS ->
        digits s' = digits s /\ current_digits s' = MAX_DTMF_DIGITS /\
        exists k, lost_digits s' - lost_digits s
                  = detected_digits s' - detected_digits s + k * 2 ^ 32)) /\
  (forall s amp samples digitmode writeback,
     mf_wf s ->
     exists res s' amp' writeback',
       mf_detect tone_out2nd_6 s amp samples digitmode writeback
         = Some (res, s', amp', writeback') /\
       mf_wf s' /\
       mf_current_digits s <= mf_current_digits s' <= MAX_DTMF_DIGITS /\
       queue (mf_digits s') (mf_current_digits s) = queue (mf_digits s) (mf_current_digits s) /\
       (MAX_DTMF_DIGITS - 2 <= mf_current_digits s ->
        mf_digits s' = mf_digits s /\ mf_current_digits s' = mf_current_digits s /\
        exists k, mf_lost_digits s' - mf_lost_digits s
                  = mf_detected_digits s' - mf_detected_digits s + k * 2 ^ 32)) /\
  (forall s hit,
     current_digits s = MAX_DTMF_DIGITS ->
     dtmf_queue_digit s hit
       = dtmf_set_queue s (digits s) (current_digits s) (CInt.to_int (lost_digits s + 1))) /\
  (forall s hit,
     MAX_DTMF_DIGITS - 2 <= mf_current_digits s ->
     mf_queue_digit s hit
       = mf_set_queue s (mf_digits s) (mf_current_digits s)
                      (CInt.to_int (mf_lost_digits s + 1))).
Proof.
  split_and!.
  - intros s amp samples digitmode writeback Hwf.
    destruct (dtmf_detect_kept s amp samples digitmode writeback Hwf)
      as (res & s' & amp' & wb' & E & (Hl & Hc & Hmax & Hpre & Hfull) & Hwf').
    exists res, s', amp', wb'. destruct Hwf as (_ & Hc0 & _). split_and!; try done; try lia.
    intros Ef. destruct Hfull as (Ed & Ec & Hk); [lia|]. split_and!; try done. lia.
  - intros s amp samples digitmode writeback Hwf.
    destruct (mf_detect_kept tone_out2nd_6 s amp samples digitmode writeback Hwf)
      as (res & s' & amp' & wb' & E & (Hl & Hc & Hmax & Hpre & Hfull) & Hwf').
    exists res, s', amp', wb'. destruct Hwf as (_ & Hc0 & _). split_and!; try done; lia.
  - intros s hit Ef. unfold dtmf_queue_digit. rewrite Ef.
    destruct (Z.ltb_spec MAX_DTMF_DIGITS MAX_DTMF_DIGITS); [lia | done].
  - intros s hit Ef. unfold mf_queue_digit.
    destruct (Z.ltb_spec (mf_current_digits s) (MAX_DTMF_DIGITS - 2)); [lia | done].
Qed.

(** ** Call progress: what holds of the classifier *)

Section ProgressFacts.

Context `{Headers}.

(** [SPECIAL2] is chosen from [SPECIAL1] only, and [SPECIAL3] from
    [SPECIAL2] only, unless [newstate] already held that value. *)
Lemma special_states_in_order dsp newstate :
  (progress_newstate dsp newstate = TONE_STATE_SPECIAL2 ->
   tstate dsp = TONE_STATE_SPECIAL1 \/ newstate = TONE_STATE_SPECIAL2) /\
  (progress_newstate dsp newstate = TONE_STATE_SPECIAL3 ->
   tstate dsp = TONE_STATE_SPECIAL2 \/ newstate = TONE_STATE_SPECIAL3).
Proof.
  unfold progress_newstate.
  repeat match goal with
         | |- context [if negb (pair_there ?a ?b ?c ?d ?e =? 0) then _ else _] =>
           destruct (negb (pair_there a b c d e =? 0))
         | |- context [if gt_d ?a ?b then _ else _] => destruct (gt_d a b)
         end;
    try (split; discriminate).
  - destruct (Z.eqb_spec (tstate dsp) TONE_STATE_SPECIAL1); split; (discriminate || tauto).
  - destruct (Z.eqb_spec (tstate dsp) TONE_STATE_SPECIAL2); split; (discriminate || tauto).
Qed.

(** A call that does not reach the end of a block changes neither the
    state nor the count, and returns 0. *)
Lemma progress_within_block junk dsp s len :
  0 <= gsamps dsp -> 0 < len -> gsamps dsp + len < GSAMP_SIZE ->
  exists dsp',
    __ast_dsp_call_progress junk dsp s len = Some (0, dsp') /\
    tstate dsp' = tstate dsp /\ tcount dsp' = tcount dsp /\ features dsp' = features dsp /\
    gsamps dsp' = gsamps dsp + len.
Proof.
  intros Hg Hlen Hroom. unfold __ast_dsp_call_progress. simpl.
  destruct (Z.eqb_spec len 0); [lia|].
  destruct (Z.gtb_spec len (GSAMP_SIZE - gsamps dsp)); [lia|].
  assert (forall l d, gsamps (foldl progress_sample d l) = gsamps d /\
                      tstate (foldl progress_sample d l) = tstate d /\
                      tcount (foldl progress_sample d l) = tcount d /\
                      features (foldl progress_sample d l) = features d) as Hfold.
  { induction l as [|a l IH]; intros d; simpl; [done|].
    destruct (IH (progress_sample d a)) as (-> & -> & -> & ->). done. }
  destruct (Hfold (take (Z.to_nat len) s) dsp) as (Eg & Et & Ec & Ef).
  simpl gsamps. rewrite Eg.
  destruct (Z.eqb_spec (gsamps dsp + len) GSAMP_SIZE); [lia|].
  rewrite Z.sub_diag.
  destruct (Z.to_nat len); simpl; eexists; (split; [reflexivity|]); simpl; by rewrite ?Et, ?Ec, ?Ef.
Qed.

End ProgressFacts.

(** ** Scenarios *)

(** A choice of values for the macros of the headers: distinct feature and
    mode bits and distinct control codes. *)
Definition scenario_headers : Headers := {|
  DSP_FEATURE_SILENCE_SUPPRESS := 1;
  DSP_FEATURE_BUSY_DETECT := 2;
  DSP_FEATURE_CALL_PROGRESS := 4;
  DSP_FEATURE_DTMF_DETECT := 8;
  DSP_DIGITMODE_DTMF := 0;
  DSP_DIGITMODE_MF := 1;
  DSP_DIGITMODE_NOQUELCH := 256;
  DSP_DIGITMODE_MUTECONF := 512;
  DSP_DIGITMODE_MUTEMAX := 1024;
  DSP_DIGITMODE_RELAXDTMF := 2048;
  AST_CONTROL_RINGING := 3;
  AST_CONTROL_ANSWER := 4;
  AST_CONTROL_BUSY := 5;
  AST_CONTROL_CONGESTION := 8
|}.

(** [2.0 * cos(2.0 * M_PI * (freq / 8000.0))] in [double], for the
    frequencies of the filters and their second harmonics. *)
Definition scenario_coefficient (freq : Z) : double :=
  match freq with
  | 350 => dconst 8669026088506857 (-52)
  | 440 => dconst 8474700560924631 (-52)
  | 480 => dconst 8374682070768357 (-52)
  | 620 => dconst 7960253124700583 (-52)
  | 697 => dconst 7690967361830221 (-52)
  | 700 => dconst 119998435202069 (-46)
  | 770 => dconst 463105441302327 (-48)
  | 852 => dconst 3532369058001779 (-51)
  | 900 => dconst 6849128046653203 (-52)
  | 941 => dconst 6657241542703821 (-52)
  | 950 => dconst 3307094579864321 (-51)
  | 1100 => dconst 5849707976912621 (-52)
  | 1209 => dconst 2621329222163193 (-51)
  | 1300 => dconst 4706248682712733 (-52)
  | 1336 => dconst 8974505019073849 (-53)
  | 1394 => dconst 1031739124881213 (-50)
  | 1400 => dconst 8178365781827073 (-53)
  | 1477 => dconst 3596657480132303 (-52)
  | 1500 => dconst 1723452963400281 (-51)
  | 1540 => dconst 6367636698916427 (-53)
  | 1633 => dconst 2560443686380741 (-52)
  | 1700 => dconst 4205377814691303 (-53)
  | 1704 => dconst 4150326944523183 (-53)
  | 1800 => dconst 5636145587704695 (-54)
  | 1882 => dconst 1667131211124143 (-53)
  | 2200 => dconst (-5636145587704699) (-54)
  | 2418 => dconst (-1452099734171217) (-51)
  | 2600 => dconst (-8178365781827071) (-53)
  | 2672 => dconst (-4536234526443897) (-52)
  | 2954 => dconst (-6134842451357801) (-52)
  | 3000 => dconst (-1592262918131443) (-50)
  | 3266 => dconst (-14749029834331) (-43)
  | 3400 => dconst (-2006368325159707) (-50)
  | _ => dconst 0 0
  end.

(** A handle as [ast_dsp_new] makes it. *)
Definition dsp_new : ast_dsp := @ast_dsp_new scenario_headers scenario_coefficient.

(** The same with call progress detection switched on. *)
Definition dsp_progress : ast_dsp :=
  ast_dsp_set_features dsp_new
    (@DSP_FEATURE_CALL_PROGRESS scenario_headers).

(** Two blocks (366 samples) of busy tone, 480 Hz + 620 Hz, each of
    amplitude 4000, at 8000 samples per second. *)
Definition busy_tone : list Z :=
   [0; 3344; 6047; 7595; 7711; 6402; 3955; 872; (-2237); (-4779); (-6302); (-6576);
    (-5632); (-3741); (-1341); 1059; 2997; 4147; 4379; 3770; 2568; 1120; (-222); (-1179);
    (-1610); (-1531); (-1096); (-542); (-114); 7; (-240); (-782); (-1426); (-1915);
    (-2006); (-1538); (-497); 971; 2574; 3941; 4702; 4587; 3497; 1548; (-939); (-3490);
    (-5581); (-6741); (-6667); (-5296); (-2828); 296; 3488; 6120; 7663; 7792; 6459; 3909;
    627; (-2755); (-5587); (-7337); (-7693); (-6621); (-4372); (-1417); 1650; 4243; 5895;
    6355; 5620; 3929; 1692; (-605); (-2510); (-3696); (-4022); (-3549); (-2503); (-1208);
    0; 858; 1234; 1145; 744; 261; (-66); (-66); 310; 976; 1725; 2290; 2415; 1931; 822;
    (-763); (-2520); (-4058); (-4987); (-5008); (-4000); (-2063); 490; 3180; 5465; 6846;
    6986; 5785; 3417; 301; (-2977); (-5779); (-7548); (-7925); (-6820); (-4441); (-1246);
    2147; 5088; 7022; 7608; 6776; 4735; 1927; (-1077); (-3696); (-5455); (-6081); (-5546);
    (-4055); (-1988); 191; 2041; 3240; 3640; 3285; 2383; 1237; 166; (-583); (-885); (-765);
    (-376); 55; 295; 183; (-321); (-1118); (-1989); (-2649); (-2828); (-2351); (-1191);
    498; 2404; 4118; 5225; 5402; 4499; 2597; 0; (-2814); (-5284); (-6888); (-7252);
    (-6241); (-3995); (-913); 2428; 5382; 7368; 7992; 7125; 4934; 1849; (-1531); (-4555);
    (-6655); (-7460); (-6865); (-5040); (-2394); 525; 3144; 4987; 5762; 5413; 4118; 2226;
    179; (-1600); (-2790); (-3240); (-2983); (-2209); (-1206); (-273); 357; 570; 399; 0;
    (-399); (-570); (-357); 273; 1206; 2209; 2983; 3240; 2790; 1600; (-179); (-2226);
    (-4118); (-5413); (-5762); (-4987); (-3144); (-525); 2394; 5040; 6865; 7460; 6655;
    4555; 1531; (-1849); (-4934); (-7125); (-7992); (-7368); (-5382); (-2428); 913; 3995;
    6241; 7252; 6888; 5284; 2814; 0; (-2597); (-4499); (-5402); (-5225); (-4118); (-2404);
    (-498); 1191; 2351; 2828; 2649; 1989; 1118; 321; (-183); (-295); (-55); 376; 765; 885;
    583; (-166); (-1237); (-2383); (-3285); (-3640); (-3240); (-2041); (-191); 1988; 4055;
    5546; 6081; 5455; 3696; 1077; (-1927); (-4735); (-6776); (-7608); (-7022); (-5088);
    (-2147); 1246; 4441; 6820; 7925; 7548; 5779; 2977; (-301); (-3417); (-5785); (-6986);
    (-6846); (-5465); (-3180); (-490); 2063; 4000; 5008; 4987; 4058; 2520; 763; (-822);
    (-1931); (-2415); (-2290); (-1725); (-976); (-310); 66; 66; (-261); (-744); (-1145);
    (-1234); (-858); 0; 1208; 2503; 3549; 4022; 3696; 2510; 605; (-1692); (-3929); (-5620);
    (-6355); (-5895); (-4243); (-1650); 1417; 4372; 6621; 7693; 7337; 5587; 2755; (-627);
    (-3909); (-6459); (-7792); (-7663); (-6120); (-3488); (-296); 2828; 5296; 6667; 6741;
    5581; 3490; 939; (-1548); (-3497); (-4587); (-4702); (-3941); (-2574); (-971); 497;
    1538].

(** One block (183 samples) of a 1400 Hz tone of amplitude 4000. *)
Definition tone_1400 : list Z :=
   [0; 3564; 3236; (-626); (-3804); (-2828); 1236; 3951; 2351; (-1816); (-4000); (-1816);
    2351; 3951; 1236; (-2828); (-3804); (-626); 3236; 3564; 0; (-3564); (-3236); 626; 3804;
    2828; (-1236); (-3951); (-2351); 1816; 4000; 1816; (-2351); (-3951); (-1236); 2828;
    3804; 626; (-3236); (-3564); 0; 3564; 3236; (-626); (-3804); (-2828); 1236; 3951; 2351;
    (-1816); (-4000); (-1816); 2351; 3951; 1236; (-2828); (-3804); (-626); 3236; 3564; 0;
    (-3564); (-3236); 626; 3804; 2828; (-1236); (-3951); (-2351); 1816; 4000; 1816;
    (-2351); (-3951); (-1236); 2828; 3804; 626; (-3236); (-3564); 0; 3564; 3236; (-626);
    (-3804); (-2828); 1236; 3951; 2351; (-1816); (-4000); (-1816); 2351; 3951; 1236;
    (-2828); (-3804); (-626); 3236; 3564; 0; (-3564); (-3236); 626; 3804; 2828; (-1236);
    (-3951); (-2351); 1816; 4000; 1816; (-2351); (-3951); (-1236); 2828; 3804; 626;
    (-3236); (-3564); 0; 3564; 3236; (-626); (-3804); (-2828); 1236; 3951; 2351; (-1816);
    (-4000); (-1816); 2351; 3951; 1236; (-2828); (-3804); (-626); 3236; 3564; 0; (-3564);
    (-3236); 626; 3804; 2828; (-1236); (-3951); (-2351); 1816; 4000; 1816; (-2351);
    (-3951); (-1236); 2828; 3804; 626; (-3236); (-3564); 0; 3564; 3236; (-626); (-3804);
    (-2828); 1236; 3951; 2351; (-1816); (-4000); (-1816); 2351; 3951; 1236; (-2828);
    (-3804); (-626); 3236; 3564; 0; (-3564); (-3236)].

(** Three blocks (306 samples) of the DTMF digit 5, 770 Hz + 1336 Hz, each
    of amplitude 6000. *)
Definition digit_5 : list Z :=
   [0; 8614; 10796; 5785; (-1253); (-4459); (-2732); (-85); (-808); (-4582); (-6659);
    (-2961); 5113; 11276; 10015; 1888; (-6786); (-9618); (-5738); 31; 2342; 535; (-1291);
    799; 5880; 8679; 4931; (-3828); (-11008); (-10804); (-3520); 4768; 7874; 4953; 544;
    (-557); 1761; 3160; (-74); (-6488); (-10283); (-6908); 2110; 10038; 10871; 4670;
    (-2821); (-5768); (-3505); (-389); (-689); (-3894); (-5303); (-1267); 6354; 11281;
    8634; (-197); (-8494); (-10195); (-5174); 1195; 3547; 1550; (-484); 1254; 5625; 7464;
    3044; (-5517); (-11560); (-9883); (-1653); 6578; 8846; 4946; (-99); (-1472); 693; 1979;
    (-1083); (-6761); (-9384); (-5023); 4104; 11094; 10485; 3189; (-4534); (-6976);
    (-3992); (-321); (-215); (-2971); (-3918); 211; 7186; 10835; 6945; (-2313); (-9949);
    (-10353); (-4196); 2623; 4802; 2406; 6; 1321; 5023; 6070; 1239; (-6870); (-11645);
    (-8557); 387; 8274; 9486; 4529; (-1090); (-2576); (-362); 1013; (-1724); (-6620);
    (-8175); (-3072); 5874; 11721; 9645; 1412; (-6282); (-7977); (-4124); 129; 559;
    (-1910); (-2615); 1390; 7585; 9980; 5046; (-4343); (-11059); (-10057); (-2841); 4227;
    5996; 3008; 133; 1016; 4150; 4609; (-378); (-7823); (-11267); (-6900); 2490; 9747;
    9727; 3700; (-2367); (-3770); (-1297); 340; (-1973); (-6105); (-6753); (-1172); 7326;
    11883; 8387; (-565); (-7953); (-8677); (-3861); 937; 1557; (-819); (-1494); 2210; 7555;
    8787; 3049; (-6176); (-11754); (-9307); (-1171); 5901; 7020; 3282; (-118); 386; 3100;
    3191; (-1715); (-8341); (-10462); (-5004); 4538; 10902; 9527; 2484; (-3849); (-4943);
    (-2014); 15; (-1837); (-5286); (-5225); 569; 8389; 11576; 6776; (-2636); (-9433);
    (-9002); (-3189); 2053; 2683; 193; (-642); 2637; 7128; 7345; 1070; (-7713); (-11992);
    (-8128); 725; 7532; 7777; 3178; (-738); (-501); 1979; 1924; (-2704); (-8419); (-9292);
    (-2978); 6417; 11660; 8874; 937; (-5435); (-5986); (-2432); 67; (-1352); (-4252);
    (-3704); 2051; 9019; 10826; 4900; (-4683); (-10623); (-8901); (-2125); 3402; 3829;
    1023; (-123); 2668; 6366; 5761; (-778); (-8875); (-11757); (-6579); 2744; 9008; 8186;
    2672; (-1684); (-1553); 895; 899; (-3303); (-8080); (-7842); (-937); 8024; 11971; 7787;
    (-861); (-7015); (-6798); (-2490); 492; (-580); (-3105); (-2299); 3200; 9200; 9688;
    2863; (-6591); (-11438); (-8354); (-716); 4888; 4887; 1583; 26; 2329].

(** What a call progress run leaves: the value returned, the state, the
    count and the call progress bit of [features]. *)
Definition progress_outcome (r : option (Z * ast_dsp)) : option (Z * Z * Z * Z) :=
  match r with
  | Some (res, dsp) =>
    Some (res, tstate dsp, tcount dsp,
          Z.land (features dsp) (@DSP_FEATURE_CALL_PROGRESS scenario_headers))
  | None => None
  end.

(** The handle when the third block of [busy_tone ++ tone_1400] has been
    filtered and its classification is about to start. *)
Definition dsp_before_third_verdict : ast_dsp :=
  match @__ast_dsp_call_progress scenario_headers 0 dsp_progress busy_tone 366 with
  | Some (_, dsp) => foldl progress_sample dsp tone_1400
  | None => dsp_progress
  end.

(** C3, at an input where the code departs from it.  One call with three
    blocks: two of busy tone, then one of a 1400 Hz tone.  The third block
    is not busy tone: its tests leave [newstate] unassigned, as the state is
    not [SPECIAL1].  The variable still holds [BUSY] from the second block,
    so the count reaches [COUNT_THRESH] and BUSY is returned (and the
    feature bit cleared) after two busy blocks, whatever the variable held
    on entry.  And when the first block of a call is such a 1400 Hz block,
    the state becomes whatever the uninitialised variable held: from SILENCE
    it is [SPECIAL2] if that is 6. *)
Theorem progress_keeps_stale_newstate :
  (forall junk,
     progress_outcome
       (@__ast_dsp_call_progress scenario_headers junk dsp_progress busy_tone 366)
     = Some (0, TONE_STATE_BUSY, 2, 4)) /\
  (forall newstate,
     progress_newstate dsp_before_third_verdict newstate = newstate) /\
  (forall junk,
     progress_outcome
       (@__ast_dsp_call_progress scenario_headers junk dsp_progress
          (busy_tone ++ tone_1400) 549)
     = Some (@AST_CONTROL_BUSY scenario_headers, TONE_STATE_BUSY, 3, 0)) /\
  progress_outcome
    (@__ast_dsp_call_progress scenario_headers TONE_STATE_SPECIAL2 dsp_progress tone_1400 183)
  = Some (0, TONE_STATE_SPECIAL2, 1, 4).
Proof.
  split_and!.
  - intros junk. vm_compute. reflexivity.
  - intros newstate. vm_compute. reflexivity.
  - intros junk. vm_compute. reflexivity.
  - vm_compute. reflexivity.
Qed.

(** ** Witnesses *)

(** Busy cadence: the last three silences and the last three noises are
    between 480 and 520 ms, and a run has just ended. *)
Definition dsp_cadence : ast_dsp :=
  set_silence dsp_new 0 0 1 [0; 0; 500; 520; 500] [0; 0; 500; 480; 500].

Lemma busydetect_once_per_transition_witness :
  busy_wf dsp_cadence /\
  exists dsp',
    ast_dsp_busydetect dsp_cadence = Some (1, dsp') /\
    busymaybe dsp' = 0 /\
    ast_dsp_busydetect dsp' = Some (0, dsp').
Proof.
  assert (busy_wf dsp_cadence) as Hwf by (vm_compute; repeat split; discriminate).
  split; [exact Hwf|].
  destruct (proj1 (busydetect_once_per_transition dsp_cadence Hwf))
    as (res & dsp' & E & _ & Hm & _ & _ & _ & E').
  assert (res = 1) as ->.
  { vm_compute in E. injection E as <- _. reflexivity. }
  exists dsp'. split; [exact E | split; [exact Hm | exact E']].
Defined.

(** The DTMF detector of a new handle with the digits 1 and 2 queued. *)
Definition dsp_two_digits : ast_dsp :=
  set_td dsp_new
    (td_dtmf (dtmf_set_queue (ast_dtmf_detect_init scenario_coefficient zeroed_dtmf)
                             ([49; 50] ++ replicate 127 0) 2 0)).

Lemma getdigits_fifo_witness :
  @td_wf scenario_headers dsp_two_digits /\
  exists buf' dsp',
    @ast_dsp_getdigits scenario_headers dsp_two_digits (replicate 8 7) 5
      = Some (2, buf', dsp') /\
    take 2 buf' = [49; 50] /\
    buf' !! 2%nat = Some 0 /\
    dsp_queue dsp' = [].
Proof.
  assert (@td_wf scenario_headers dsp_two_digits) as Hwf.
  { vm_compute. repeat split; discriminate. }
  split; [exact Hwf|].
  destruct (@getdigits_fifo scenario_headers dsp_two_digits (replicate 8 7) 5 Hwf)
    as (buf' & dsp' & E & _ & Etake & Enul & _ & _ & _ & Hall).
  - lia.
  - vm_compute. reflexivity.
  - exists buf', dsp'. split; [exact E|]. split; [exact Etake|]. split; [exact Enul|].
    apply Hall. vm_compute. discriminate.
Defined.

(** A DTMF detector with 128 digits queued. *)
Definition dtmf_full : dtmf_detect_state_t :=
  dtmf_set_queue (ast_dtmf_detect_init scenario_coefficient zeroed_dtmf)
                 (replicate 128 49 ++ [0]) 128 0.

Lemma digit_queue_bounded_witness :
  dtmf_wf dtmf_full /\
  exists res s' amp' writeback',
    @dtmf_detect scenario_headers dtmf_full digit_5 306 0 0
      = Some (res, s', amp', writeback') /\
    res = 53 /\
    digits s' = digits dtmf_full /\
    current_digits s' = MAX_DTMF_DIGITS /\
    detected_digits s' = 1 /\
    lost_digits s' = 1.
Proof.
  assert (dtmf_wf dtmf_full) as Hwf.
  { vm_compute. repeat split; discriminate. }
  split; [exact Hwf|].
  destruct (proj1 (@digit_queue_bounded scenario_headers (fun _ => goertzel_init scenario_coefficient 0))
              dtmf_full digit_5 306 0 0 Hwf)
    as (res & s' & amp' & wb' & E & _ & _ & _ & Hfull).
  destruct (Hfull eq_refl) as (Ed & Ec & _).
  exists res, s', amp', wb'. split; [exact E|].
  vm_compute in E. injection E as <- <- _ _.
  repeat split; assumption || reflexivity.
Defined.


(** ** Resets *)

Section Resets.

Context `{Headers}.

(** What the bytes of the union [td] read as the state of the other
    detector. *)
Variable dtmf_as_mf : dtmf_detect_state_t -> mf_detect_state_t.
Variable mf_as_dtmf : mf_detect_state_t -> dtmf_detect_state_t.

(** [ast_dsp_digitreset(dsp)]: the queue, the filters, the block energy,
    the sample count and the hit history of the detector that [digitmode]
    selects are cleared; [detected_digits], [lost_digits], [digit_hits] and
    [fax_hits] are not. *)
Definition ast_dsp_digitreset (dsp : ast_dsp) : ast_dsp :=
  let td' :=
    if negb (Z.land (digitmode dsp) DSP_DIGITMODE_MF =? 0) then
      let mf := match td dsp with td_mf mf => mf | td_dtmf dtmf => dtmf_as_mf dtmf end in
      td_mf
        {| mf_hit1 := 0; mf_hit2 := 0; mf_hit3 := 0; mf_hit4 := 0; mf_mhit := 0;
           tone_out := map goertzel_reset (tone_out mf);
           tone_out2nd := map goertzel_reset (tone_out2nd mf);
           mf_energy := zero; mf_current_sample := 0;
           mf_digits := replicate (Z.to_nat (MAX_DTMF_DIGITS + 1)) 0;
           mf_current_digits := 0;
           mf_detected_digits := mf_detected_digits mf;
           mf_lost_digits := mf_lost_digits mf;
           mf_fax_hits := mf_fax_hits mf |}
    else
      let dtmf := match td dsp with td_dtmf dtmf => dtmf | td_mf mf => mf_as_dtmf mf end in
      td_dtmf
        {| hit1 := 0; hit2 := 0; hit3 := 0; hit4 := 0; mhit := 0;
           row_out := map goertzel_reset (row_out dtmf);
           col_out := map goertzel_reset (col_out dtmf);
           row_out2nd := map goertzel_reset (row_out2nd dtmf);
           col_out2nd := map goertzel_reset (col_out2nd dtmf);
           fax_tone := goertzel_reset (fax_tone dtmf);
           fax_tone2nd := goertzel_reset (fax_tone2nd dtmf);
           energy := zero; current_sample := 0;
           digits := replicate (Z.to_nat (MAX_DTMF_DIGITS + 1)) 0;
           current_digits := 0;
           detected_digits := detected_digits dtmf;
           lost_digits := lost_digits dtmf;
           digit_hits := digit_hits dtmf;
           fax_hits := fax_hits dtmf |} in
  {| threshold := threshold dsp; totalsilence := totalsilence dsp;
     totalnoise := totalnoise dsp; features := features dsp;
     busymaybe := busymaybe dsp; busycount := busycount dsp;
     historicnoise := historicnoise dsp; historicsilence := historicsilence dsp;
     freqs := freqs dsp; gsamps := gsamps dsp; tstate := tstate dsp; tcount := tcount dsp;
     digitmode := digitmode dsp; thinkdigit := 0;
     genergy := genergy dsp; td := td' |}.

End Resets.

(** [ast_dsp_reset(dsp)]: [totalsilence], [gsamps], the first four call
    progress filters and the two histories are cleared. *)
Definition ast_dsp_reset (dsp : ast_dsp) : ast_dsp :=
  {| threshold := threshold dsp; totalsilence := 0;
     totalnoise := totalnoise dsp; features := features dsp;
     busymaybe := busymaybe dsp; busycount := busycount dsp;
     historicnoise := replicate (Z.to_nat DSP_HISTORY) 0;
     historicsilence := replicate (Z.to_nat DSP_HISTORY) 0;
     freqs := imap (fun x f => if (x <? 4)%nat then goertzel_reset f else f) (freqs dsp);
     gsamps := 0; tstate := tstate dsp; tcount := tcount dsp;
     digitmode := digitmode dsp; thinkdigit := thinkdigit dsp;
     genergy := genergy dsp; td := td dsp |}.

(** ** The handle stays well formed *)

Section HandleInvariant.

Context `{Headers}.

Variable tone_out2nd_6 : mf_detect_state_t -> goertzel_state_t.
Variable coefficient : Z -> double.
Variable dtmf_as_mf : dtmf_detect_state_t -> mf_detect_state_t.
Variable mf_as_dtmf : mf_detect_state_t -> dtmf_detect_state_t.



Definition handle_wf (dsp : ast_dsp) : Prop := td_wf dsp /\ busy_wf dsp.

(** The fields that the detectors of digits and the busy detector rely
    on. *)
Definition same_setup (dsp dsp' : ast_dsp) : Prop :=
  td dsp' = td dsp /\ digitmode dsp' = digitmode dsp /\
  historicsilence dsp' = historicsilence dsp /\ historicnoise dsp' = historicnoise dsp /\
  busycount dsp' = busycount dsp.

Lemma same_setup_wf dsp dsp' : same_setup dsp dsp' -> handle_wf dsp -> handle_wf dsp'.
Proof.
  intros (Etd & Edm & Ehs & Ehn & Ebc) [Htd Hbusy].
  unfold handle_wf, td_wf, busy_wf in *. rewrite Etd, Edm, Ehs, Ehn, Ebc. done.
Qed.

Lemma progress_samples_setup dsp l : same_setup dsp (foldl progress_sample dsp l).
Proof.
  revert dsp. induction l as [|a l IH]; intros dsp; simpl; [done|].
  destruct (IH (progress_sample dsp a)) as (E1 & E2 & E3 & E4 & E5).
  unfold same_setup. rewrite E1, E2, E3, E4, E5. done.
Qed.

Lemma progress_block_setup dsp newstate res :
  same_setup dsp (progress_block dsp newstate res).2.
Proof.
  unfold progress_block.
  repeat match goal with |- context [if ?b then _ else _] => destruct b end; done.
Qed.

Lemma progress_loop_setup fuel dsp s len newstate res0 res dsp' :
  progress_loop fuel dsp s len newstate res0 = Some (res, dsp') -> same_setup dsp dsp'.
Proof.
  revert dsp s len newstate res0. induction fuel as [|fuel IH]; intros dsp s len newstate res0;
    simpl.
  - destruct (len =? 0); [|done]. by intros [= <- <-].
  - destruct (len =? 0); [by intros [= <- <-]|].
    set (pass := if len >? GSAMP_SIZE - gsamps dsp then GSAMP_SIZE - gsamps dsp else len).
    pose proof (progress_samples_setup dsp (take (Z.to_nat pass) s)) as Hs.
    set (dsp1 := foldl progress_sample dsp (take (Z.to_nat pass) s)) in *.
    destruct (_ =? GSAMP_SIZE).
    + pose proof (progress_block_setup
        (set_progress dsp1 (features dsp1) (freqs dsp1) (gsamps dsp1 + pass)
                      (tstate dsp1) (tcount dsp1) (genergy dsp1)) newstate res0) as Hb.
      destruct (progress_block _ _ _) as [[newstate' res'] dsp2]. simpl in Hb.
      intros E. apply IH in E.
      destruct Hs as (? & ? & ? & ? & ?), Hb as (? & ? & ? & ? & ?), E as (? & ? & ? & ? & ?).
      unfold same_setup. simpl in *. split_and!; congruence.
    + intros E. apply IH in E.
      destruct Hs as (? & ? & ? & ? & ?), E as (? & ? & ? & ? & ?).
      unfold same_setup. split_and!; simpl in *; congruence.
Qed.


Lemma silence_keeps_wf dsp s len res dsp' :
  handle_wf dsp -> __ast_dsp_silence dsp s len = Some (res, dsp') -> handle_wf dsp'.
Proof.
  intros [Htd Hbusy] E.
  assert (td dsp' = td dsp /\ digitmode dsp' = digitmode dsp /\ busy_wf dsp') as (Etd & Edm & Hb).
  { revert E. unfold __ast_dsp_silence. destruct (Z.max len 0 =? 0); [done|].
    destruct Hbusy as (Hls & Hln & Hbc).
    assert (forall h v, length h = Z.to_nat DSP_HISTORY ->
              length (push_history h v) = Z.to_nat DSP_HISTORY) as Hpush.
    { intros h v Hl. unfold push_history. rewrite length_app, length_drop, Hl. simpl.
      unfold DSP_HISTORY. lia. }
    destruct (_ <? threshold dsp); [destruct (totalnoise dsp =? 0)
                                   | destruct (totalsilence dsp =? 0)];
      intros [= <- <-]; unfold busy_wf; simpl; split_and!;
      try (by apply Hpush); done || lia. }
  split; [|done]. unfold td_wf. rewrite Etd, Edm. done.
Qed.

Lemma busydetect_keeps_wf dsp res dsp' :
  handle_wf dsp -> ast_dsp_busydetect dsp = Some (res, dsp') -> handle_wf dsp'.
Proof.
  intros Hwf. unfold ast_dsp_busydetect. destruct (busymaybe dsp =? 0); [by intros [= <- <-]|].
  destruct (busy_scan _ _ _ _) as [[mn mx]|]; [|done].
  destruct (_ && _); intros [= <- <-]; apply (same_setup_wf dsp); done.
Qed.


Lemma digitdetect_keeps_wf dsp s len writeback res dsp' s' writeback' :
  handle_wf dsp ->
  __ast_dsp_digitdetect tone_out2nd_6 dsp s len writeback = Some (res, dsp', s', writeback') ->
  handle_wf dsp'.
Proof.
  intros [Htd Hbusy]. unfold __ast_dsp_digitdetect, td_wf in *.
  destruct (td dsp) as [s0|s0] eqn:Etd; destruct Htd as [Hmode Hs0].
  - rewrite Hmode. simpl.
    destruct (dtmf_detect_kept s0 s len (Z.land (digitmode dsp) DSP_DIGITMODE_RELAXDTMF)
                writeback Hs0) as (r & s1 & a1 & w1 & -> & _ & Hs1).
    intros [= <- <- <- <-]. split; [|done]. unfold td_wf. simpl. by rewrite Hmode.
  - destruct (Z.eqb_spec (Z.land (digitmode dsp) DSP_DIGITMODE_MF) 0) as [|Hm]; [done|].
    simpl.
    destruct (mf_detect_kept tone_out2nd_6 s0 s len
                (Z.land (digitmode dsp) DSP_DIGITMODE_RELAXDTMF) writeback Hs0)
      as (r & s1 & a1 & w1 & -> & _ & Hs1).
    intros [= <- <- <- <-]. split; [|done]. unfold td_wf. simpl. done.
Qed.






End HandleInvariant.

(** ** Configuration and resets *)

Section Configuration.

Context `{Headers}.

Variable coefficient : Z -> double.
Variable dtmf_as_mf : dtmf_detect_state_t -> mf_detect_state_t.
Variable mf_as_dtmf : mf_detect_state_t -> dtmf_detect_state_t.

(** The counters of confirmed and of lost digits of the detector in the
    union. *)
Definition digit_counters (dsp : ast_dsp) : Z * Z :=
  match td dsp with
  | td_dtmf s => (detected_digits s, lost_digits s)
  | td_mf s => (mf_detected_digits s, mf_lost_digits s)
  end.

(** The hit history of the detector in the union. *)
Definition hit_history (dsp : ast_dsp) : list Z :=
  match td dsp with
  | td_dtmf s => [hit1 s; hit2 s; hit3 s; hit4 s; mhit s]
  | td_mf s => [mf_hit1 s; mf_hit2 s; mf_hit3 s; mf_hit4 s; mf_mhit s]
  end.

(** An empty queue yields no digit and an empty string. *)
Lemma empty_queue_getdigits dsp buf max :
  td_wf dsp -> dsp_queue dsp = [] -> 0 <= max -> buf <> [] ->
  exists buf' dsp',
    ast_dsp_getdigits dsp buf max = Some (0, buf', dsp') /\ buf' !! O = Some 0.
Proof.
  intros Hwf Hq Hmax Hbuf.
  destruct (ast_dsp_getdigits_spec dsp buf max Hwf Hmax)
    as (buf' & dsp' & E & _ & _ & Enul & _).
  { rewrite Hq. simpl. destruct buf; [done|]. simpl. lia. }
  rewrite Hq in E, Enul.
  replace (Z.min max (Z.of_nat (length (@nil Z)))) with 0 in E, Enul by (simpl; lia).
  by exists buf', dsp'.
Qed.

(** X8. [ast_dsp_digitreset] on a well-formed handle empties the digit
    queue of the detector in use, so that [ast_dsp_getdigits] then returns
    0 and an empty string; it clears the hit history and [thinkdigit], and
    keeps the mode and the counters of detected and lost digits. *)
Theorem digitreset_empties_queue dsp :
  td_wf dsp ->
  td_wf (ast_dsp_digitreset dtmf_as_mf mf_as_dtmf dsp) /\
  dsp_queue (ast_dsp_digitreset dtmf_as_mf mf_as_dtmf dsp) = [] /\
  hit_history (ast_dsp_digitreset dtmf_as_mf mf_as_dtmf dsp) = [0; 0; 0; 0; 0] /\
  thinkdigit (ast_dsp_digitreset dtmf_as_mf mf_as_dtmf dsp) = 0 /\
  digitmode (ast_dsp_digitreset dtmf_as_mf mf_as_dtmf dsp) = digitmode dsp /\
  digit_counters (ast_dsp_digitreset dtmf_as_mf mf_as_dtmf dsp) = digit_counters dsp /\
  (forall buf max,
     0 <= max -> buf <> [] ->
     exists buf' dsp',
       ast_dsp_getdigits (ast_dsp_digitreset dtmf_as_mf mf_as_dtmf dsp) buf max
       = Some (0, buf', dsp') /\
       buf' !! O = Some 0).
Proof.
  intros Hwf.
  assert (td_wf (ast_dsp_digitreset dtmf_as_mf mf_as_dtmf dsp) /\
          dsp_queue (ast_dsp_digitreset dtmf_as_mf mf_as_dtmf dsp) = [] /\
          hit_history (ast_dsp_digitreset dtmf_as_mf mf_as_dtmf dsp) = [0; 0; 0; 0; 0] /\
          digit_counters (ast_dsp_digitreset dtmf_as_mf mf_as_dtmf dsp) = digit_counters dsp)
    as (Hwf' & Hq & Hh & Hc).
  { unfold td_wf, dsp_queue, hit_history, digit_counters, ast_dsp_digitreset in *. simpl.
    destruct (td dsp) as [s|s] eqn:Etd; destruct Hwf as [Hmode Hs].
    - rewrite Hmode. simpl. split_and!; try done;
        unfold dtmf_wf, MAX_DTMF_DIGITS; simpl; split_and!; done || lia.
    - destruct (Z.eqb_spec (Z.land (digitmode dsp) DSP_DIGITMODE_MF) 0) as [|_]; [done|].
      simpl. split_and!; try done;
        unfold mf_wf, MF_GSIZE, MAX_DTMF_DIGITS; simpl; split_and!; done || lia. }
  split_and!; try done. intros buf max Hmax Hbuf. by apply empty_queue_getdigits.
Qed.

(** The bits of the mode that select the detector and the muting. *)
Definition mode_mask : Z :=
  Z.lor (Z.lor (Z.lor DSP_DIGITMODE_DTMF DSP_DIGITMODE_MF) DSP_DIGITMODE_MUTECONF)
        DSP_DIGITMODE_MUTEMAX.

(** X9. [ast_dsp_digitmode] returns 0 and stores the mode.  When the new
    mode agrees with the old one on the DTMF, MF, MUTECONF and MUTEMAX bits
    the detector and its queue are untouched.  When it differs on one of
    them the detector chosen by the MF bit of the new mode is initialised:
    the digits queued so far are dropped and the counters of detected and
    lost digits restart at 0.  Either way a well-formed handle stays well
    formed. *)
Theorem digitmode_switch_drops_queue dsp digitmode' :
  (ast_dsp_digitmode coefficient dtmf_as_mf mf_as_dtmf dsp digitmode').1 = 0 /\
  digitmode (ast_dsp_digitmode coefficient dtmf_as_mf mf_as_dtmf dsp digitmode').2
  = digitmode' /\
  (Z.land (digitmode dsp) mode_mask = Z.land digitmode' mode_mask ->
   td (ast_dsp_digitmode coefficient dtmf_as_mf mf_as_dtmf dsp digitmode').2 = td dsp) /\
  (Z.land (digitmode dsp) mode_mask <> Z.land digitmode' mode_mask ->
   td_wf (ast_dsp_digitmode coefficient dtmf_as_mf mf_as_dtmf dsp digitmode').2 /\
   dsp_queue (ast_dsp_digitmode coefficient dtmf_as_mf mf_as_dtmf dsp digitmode').2 = [] /\
   digit_counters (ast_dsp_digitmode coefficient dtmf_as_mf mf_as_dtmf dsp digitmode').2
   = (0, 0) /\
   forall buf max,
     0 <= max -> buf <> [] ->
     exists buf' dsp',
       ast_dsp_getdigits
         (ast_dsp_digitmode coefficient dtmf_as_mf mf_as_dtmf dsp digitmode').2 buf max
       = Some (0, buf', dsp') /\
       buf' !! O = Some 0) /\
  (td_wf dsp ->
   td_wf (ast_dsp_digitmode coefficient dtmf_as_mf mf_as_dtmf dsp digitmode').2).
Proof.
  assert (forall z, Z.land (Z.land z mode_mask) DSP_DIGITMODE_MF = Z.land z DSP_DIGITMODE_MF)
    as Hmask.
  { intros z. apply Z.bits_inj'. intros n Hn. unfold mode_mask.
    rewrite !Z.land_spec, !Z.lor_spec. destruct (Z.testbit DSP_DIGITMODE_MF n);
      rewrite ?orb_true_r, ?andb_true_r, ?andb_false_r; done. }
  assert (Z.land (digitmode dsp) mode_mask <> Z.land digitmode' mode_mask ->
          td_wf (ast_dsp_digitmode coefficient dtmf_as_mf mf_as_dtmf dsp digitmode').2 /\
          dsp_queue (ast_dsp_digitmode coefficient dtmf_as_mf mf_as_dtmf dsp digitmode').2 = [] /\
          digit_counters (ast_dsp_digitmode coefficient dtmf_as_mf mf_as_dtmf dsp digitmode').2
          = (0, 0)) as Hswitch.
  { intros Hne. unfold td_wf, dsp_queue, digit_counters, ast_dsp_digitmode. simpl.
    fold mode_mask.
    destruct (Z.eqb_spec (Z.land (digitmode dsp) mode_mask) (Z.land digitmode' mode_mask));
      [done|]. simpl. rewrite Hmask.
    destruct (Z.eqb_spec (Z.land digitmode' DSP_DIGITMODE_MF) 0) as [E0|E0]; simpl.
    - split_and!; try done; unfold dtmf_wf, MAX_DTMF_DIGITS; simpl; split_and!; done || lia.
    - split_and!; try done; unfold mf_wf, MF_GSIZE, MAX_DTMF_DIGITS; simpl;
        split_and!; done || lia. }
  assert (Z.land (digitmode dsp) mode_mask = Z.land digitmode' mode_mask ->
          td (ast_dsp_digitmode coefficient dtmf_as_mf mf_as_dtmf dsp digitmode').2 = td dsp)
    as Hsame.
  { intros Heq. unfold ast_dsp_digitmode. simpl. fold mode_mask.
    destruct (Z.eqb_spec (Z.land (digitmode dsp) mode_mask) (Z.land digitmode' mode_mask));
      done. }
  split_and!; try done.
  - intros Hne. destruct (Hswitch Hne) as (Hwf & Hq & Hc). split_and!; try done.
    intros buf max Hmax Hbuf. by apply empty_queue_getdigits.
  - intros Hwf.
    destruct (Z.eq_dec (Z.land (digitmode dsp) mode_mask) (Z.land digitmode' mode_mask))
      as [Heq|Hne]; [|by apply Hswitch].
    unfold td_wf in *. rewrite (Hsame Heq). simpl.
    rewrite <- (Hmask digitmode'), <- Heq, Hmask. done.
Qed.

End Configuration.

(** ** Busy detection after a reset *)

(** The zero slots at the start of a history. *)
Fixpoint leading_zeros (h : list Z) : nat :=
  match h with
  | z :: h' => if z =? 0 then S (leading_zeros h') else O
  | [] => O
  end.

(** [__ast_dsp_silence] on one frame after the other; a frame is its
    samples and their number. *)
Fixpoint silence_frames (dsp : ast_dsp) (frames : list (list Z * Z)) : option ast_dsp :=
  match frames with
  | [] => Some dsp
  | (s, len) :: frames' =>
    match __ast_dsp_silence dsp s len with
    | Some (_, dsp') => silence_frames dsp' frames'
    | None => None
    end
  end.

Section BusyAfterReset.

Lemma leading_zeros_app h l : (leading_zeros h <= leading_zeros (h ++ l))%nat.
Proof. induction h as [|z h IH]; simpl; [lia|]. destruct (z =? 0); lia. Qed.

Lemma leading_zeros_push h v : (leading_zeros h <= S (leading_zeros (push_history h v)))%nat.
Proof.
  unfold push_history. destruct h as [|z h]; simpl; [lia|].
  rewrite drop_0. pose proof (leading_zeros_app h [v]). destruct (z =? 0); lia.
Qed.

Lemma leading_zeros_lookup h i : (i < leading_zeros h)%nat -> h !! i = Some 0.
Proof.
  revert i. induction h as [|z h IH]; intros i; simpl; [lia|].
  destruct (Z.eqb_spec z 0) as [->|]; [|lia]. destruct i as [|i]; simpl; [done|].
  intros Hi. apply IH. lia.
Qed.

Lemma leading_zeros_length h : (leading_zeros h <= length h)%nat.
Proof. induction h as [|z h IH]; simpl; [lia|]. destruct (z =? 0); lia. Qed.

Lemma leading_zeros_replicate n : leading_zeros (replicate n 0) = n.
Proof. induction n as [|n IH]; simpl; [done|]. by rewrite IH. Qed.

(** A zero slot among those the busy detector looks at: no busy. *)
Lemma zero_slot_not_busy dsp :
  busy_wf dsp -> 0 ∈ busy_window dsp ->
  exists dsp', ast_dsp_busydetect dsp = Some (0, dsp').
Proof.
  intros Hwf Hin. destruct (Z.eq_dec (busymaybe dsp) 0) as [Hz|Hnz].
  - exists dsp. unfold ast_dsp_busydetect. by rewrite Hz.
  - destruct (busydetect_verdict dsp Hwf Hnz) as (res & dsp' & E & _ & [[-> Hc] | [-> _]]).
    + destruct Hc as (mn & mx & _ & _ & Hall & _ & _ & Hmin).
      specialize (Hall 0 Hin). unfold BUSY_MIN in *. lia.
    + by exists dsp'.
Qed.

(** What a run of frames through [__ast_dsp_silence] keeps: each frame
    ends at most one run, and so fills at most one slot. *)
Lemma silence_frames_zeros frames dsp dsp' :
  busy_wf dsp -> silence_frames dsp frames = Some dsp' ->
  busy_wf dsp' /\ busycount dsp' = busycount dsp /\
  (leading_zeros (historicsilence dsp) + leading_zeros (historicnoise dsp)
   <= leading_zeros (historicsilence dsp') + leading_zeros (historicnoise dsp')
      + length frames)%nat.
Proof.
  revert dsp. induction frames as [|[s len] frames IH]; intros dsp Hwf; simpl.
  - intros [= <-]. split_and!; done || lia.
  - destruct (__ast_dsp_silence dsp s len) as [[res dsp1]|] eqn:E; [|done].
    intros Hrun.
    assert (busy_wf dsp1 /\ busycount dsp1 = busycount dsp /\
            (leading_zeros (historicsilence dsp) + leading_zeros (historicnoise dsp)
             <= leading_zeros (historicsilence dsp1) + leading_zeros (historicnoise dsp1)
                + 1)%nat) as (Hwf1 & Hbc1 & Hz1).
    { revert E. unfold __ast_dsp_silence. destruct (Z.max len 0 =? 0); [done|].
      destruct Hwf as (Hls & Hln & Hbc).
      assert (forall h v, length h = Z.to_nat DSP_HISTORY ->
                length (push_history h v) = Z.to_nat DSP_HISTORY) as Hpush.
      { intros h v Hl. unfold push_history. rewrite length_app, length_drop, Hl. simpl.
        unfold DSP_HISTORY. lia. }
      pose proof (leading_zeros_push (historicsilence dsp) (totalsilence dsp)).
      pose proof (leading_zeros_push (historicnoise dsp) (totalnoise dsp)).
      destruct (_ <? threshold dsp); [destruct (totalnoise dsp =? 0)
                                     | destruct (totalsilence dsp =? 0)];
        intros [= <- <-]; unfold busy_wf; simpl; split_and!;
        try (by apply Hpush); done || lia. }
    destruct (IH dsp1 Hwf1 Hrun) as (Hwf' & Hbc' & Hz'). split_and!; [done | congruence | lia].
Qed.

(** A run of fewer than [2 * busycount] frames from histories that hold
    zeros only does not fill the slots looked at. *)
Lemma unfilled_histories_not_busy dsp frames dsp' :
  busy_wf dsp ->
  historicsilence dsp = replicate (Z.to_nat DSP_HISTORY) 0 ->
  historicnoise dsp = replicate (Z.to_nat DSP_HISTORY) 0 ->
  silence_frames dsp frames = Some dsp' ->
  Z.of_nat (length frames) < 2 * busycount dsp ->
  exists dsp'', ast_dsp_busydetect dsp' = Some (0, dsp'').
Proof.
  intros Hwf Ehs Ehn Hrun Hfew.
  destruct (silence_frames_zeros frames dsp dsp' Hwf Hrun) as (Hwf' & Hbc & Hz).
  rewrite Ehs, Ehn, !leading_zeros_replicate in Hz.
  apply zero_slot_not_busy; [done|].
  pose proof Hwf' as (Hls & Hln & Hbc'). unfold busy_window, DSP_HISTORY in *.
  apply elem_of_app.
  destruct (decide (Z.to_nat (5 - busycount dsp') < leading_zeros (historicsilence dsp'))%nat)
    as [Hs|Hs].
  - left. apply list_elem_of_lookup. exists O. rewrite lookup_drop, Nat.add_0_r.
    by apply leading_zeros_lookup.
  - right. apply list_elem_of_lookup. exists O. rewrite lookup_drop, Nat.add_0_r.
    apply leading_zeros_lookup. lia.
Qed.

(** X10. [ast_dsp_reset] clears both histories of run lengths, and a new
    handle starts with them cleared.  From there the busy detector looks at
    [busycount] slots of each history, and every frame given to
    [__ast_dsp_silence] fills at most one slot: [ast_dsp_busydetect]
    returns 0, whatever the samples, until at least [2 * busycount] frames
    have been analysed (6 on a new handle). *)
Theorem busy_needs_full_histories `{Headers} (coefficient : Z -> double) :
  (forall dsp frames dsp',
     busy_wf dsp ->
     silence_frames (ast_dsp_reset dsp) frames = Some dsp' ->
     Z.of_nat (length frames) < 2 * busycount dsp ->
     exists dsp'', ast_dsp_busydetect dsp' = Some (0, dsp'')) /\
  (forall frames dsp',
     silence_frames (ast_dsp_new coefficient) frames = Some dsp' ->
     Z.of_nat (length frames) < 6 ->
     exists dsp'', ast_dsp_busydetect dsp' = Some (0, dsp'')).
Proof.
  split.
  - intros dsp frames dsp' (Hls & Hln & Hbc) Hrun Hfew.
    apply (unfilled_histories_not_busy (ast_dsp_reset dsp) frames); try done;
      unfold busy_wf; simpl; rewrite ?length_replicate; done.
  - intros frames dsp' Hrun Hfew.
    apply (unfilled_histories_not_busy (ast_dsp_new coefficient) frames); try done;
      unfold busy_wf, DSP_HISTORY; simpl; split_and!; done || lia.
Qed.

End BusyAfterReset.

(** ** Silence *)

(** A number, not an infinity or a NaN. *)
Definition finite (x : float) : Prop :=
  match x with
  | S754_zero _ | S754_finite _ _ _ => True
  | _ => False
  end.

(** A filter that has seen nothing but zero samples since it was reset. *)
Definition at_rest (f : goertzel_state_t) : Prop :=
  v2 f = zero /\ v3 f = zero /\ finite (fac f).

Definition silent (s : list Z) : Prop := Forall (fun sx => sx = 0) s.

Section Silence.

Context `{Headers}.

Lemma rest_step f : at_rest f -> goertzel_step (of_int 0) f = f.
Proof.
  destruct f as [a b c]. unfold at_rest. simpl. intros (-> & -> & Hc).
  destruct c as [[]| | |[] m e]; done.
Qed.

Lemma rest_result f : at_rest f -> goertzel_result f = zero.
Proof.
  destruct f as [a b c]. unfold at_rest. simpl. intros (-> & -> & Hc).
  destruct c as [[]| | |[] m e]; done.
Qed.

Lemma rest_reset f : finite (fac f) -> at_rest (goertzel_reset f).
Proof. done. Qed.

Lemma rest_finite f : at_rest f -> finite (fac f).
Proof. by intros (_ & _ & ?). Qed.

Lemma rest_steps l : Forall at_rest l -> map (goertzel_step (of_int 0)) l = l.
Proof.
  induction 1 as [|f l Hf _ IH]; [done|]. by rewrite List.map_cons, rest_step, IH.
Qed.

Lemma rest_resets l : Forall at_rest l -> Forall at_rest (map goertzel_reset l).
Proof.
  induction 1 as [|f l Hf _ IH]; constructor; [|done]. by apply rest_reset, rest_finite.
Qed.

Lemma rest_filter_at l i : Forall at_rest l -> goertzel_result (filter_at l i) = zero.
Proof.
  intros Hl. apply rest_result. unfold filter_at.
  destruct (nth_in_or_default i l {| v2 := zero; v3 := zero; fac := zero |}) as [Hin| ->].
  - by apply (proj1 (List.Forall_forall _ _) Hl).
  - done.
Qed.

Lemma rest_energy_at l i : Forall at_rest l -> energy_at (map goertzel_result l) i = zero.
Proof.
  intros Hl. unfold energy_at. revert i. induction Hl as [|f l Hf _ IH]; intros [|i]; simpl;
    try done. by apply rest_result.
Qed.

(** *** Call progress *)

(** The call progress filters and the block energy have seen nothing but
    zero samples since the block began. *)
Definition progress_quiet (dsp : ast_dsp) : Prop :=
  Forall at_rest (freqs dsp) /\ genergy dsp = zero /\ 0 <= gsamps dsp < GSAMP_SIZE.

Lemma quiet_samples dsp l :
  Forall at_rest (freqs dsp) -> genergy dsp = zero -> silent l ->
  foldl progress_sample dsp l = dsp.
Proof.
  intros Hf Hg. induction 1 as [|sx l -> _ IH]; [done|]. simpl.
  assert (progress_sample dsp 0 = dsp) as ->; [|done].
  unfold progress_sample, goertzel_sample.
  rewrite (map_ext _ (goertzel_step (of_int 0))) by done.
  rewrite rest_steps, Hg by done. change (add zero (of_int (0 * 0))) with zero.
  rewrite <- Hg. by destruct dsp.
Qed.

Lemma quiet_newstate dsp newstate :
  Forall at_rest (freqs dsp) -> genergy dsp = zero ->
  progress_newstate dsp newstate = TONE_STATE_SILENCE.
Proof.
  intros Hf Hg. unfold progress_newstate. rewrite !rest_filter_at, Hg by done. reflexivity.
Qed.

Lemma quiet_block dsp newstate res :
  Forall at_rest (freqs dsp) -> genergy dsp = zero ->
  exists newstate' dsp',
    progress_block dsp newstate res = (newstate', res, dsp') /\
    Forall at_rest (freqs dsp') /\ genergy dsp' = zero /\ gsamps dsp' = 0 /\
    features dsp' = features dsp /\ tstate dsp' = TONE_STATE_SILENCE.
Proof.
  intros Hf Hg. unfold progress_block. rewrite quiet_newstate by done.
  pose proof (rest_resets _ Hf) as Hr.
  destruct (Z.eqb_spec TONE_STATE_SILENCE (tstate dsp)) as [E|E].
  - rewrite <- E. change (TONE_STATE_SILENCE =? TONE_STATE_BUSY) with false.
    change (TONE_STATE_SILENCE =? TONE_STATE_TALKING) with false.
    change (TONE_STATE_SILENCE =? TONE_STATE_RINGING) with false.
    change (TONE_STATE_SILENCE =? TONE_STATE_SPECIAL3) with false. simpl.
    destruct (_ =? COUNT_THRESH); eexists _, _; (split; [reflexivity|]); simpl; done.
  - eexists _, _. split; [reflexivity|]. simpl. done.
Qed.

Lemma quiet_loop fuel dsp s len newstate :
  progress_quiet dsp -> silent s -> 0 <= len -> (Z.to_nat len < fuel)%nat ->
  exists dsp',
    progress_loop fuel dsp s len newstate 0 = Some (0, dsp') /\
    progress_quiet dsp' /\ features dsp' = features dsp /\
    (GSAMP_SIZE <= gsamps dsp + len -> tstate dsp' = TONE_STATE_SILENCE) /\
    (gsamps dsp + len < GSAMP_SIZE ->
     tstate dsp' = tstate dsp /\ tcount dsp' = tcount dsp /\ gsamps dsp' = gsamps dsp + len).
Proof.
  revert dsp s len newstate. induction fuel as [|fuel IH];
    intros dsp s len newstate (Hf & Hg & Hgs) Hs Hlen Hfuel; [lia|].
  simpl. destruct (Z.eqb_spec len 0) as [->|Hnz].
  - exists dsp. unfold GSAMP_SIZE in *. split; [done|]. split; [done|]. split; [done|].
    split; [lia|]. intros _. split_and!; done || lia.
  - set (pass := if len >? GSAMP_SIZE - gsamps dsp then GSAMP_SIZE - gsamps dsp else len).
    assert (0 < pass <= len /\ gsamps dsp + pass <= GSAMP_SIZE) as (Hpass & Hroom).
    { subst pass. destruct (Z.gtb_spec len (GSAMP_SIZE - gsamps dsp)); lia. }
    rewrite quiet_samples; try done.
    2:{ unfold silent in *. by apply Forall_take. }
    simpl.
    assert (silent (drop (Z.to_nat pass) s)) as Hs' by (unfold silent in *; by apply Forall_drop).
    destruct (Z.eqb_spec (gsamps dsp + pass) GSAMP_SIZE) as [Efull|Epart].
    + destruct (quiet_block
                  (set_progress dsp (features dsp) (freqs dsp) (gsamps dsp + pass)
                                (tstate dsp) (tcount dsp) (genergy dsp)) newstate 0)
        as (newstate' & dsp1 & -> & Hf1 & Hg1 & Hgs1 & Hfe1 & Ht1); [done | done |].
      destruct (IH dsp1 (drop (Z.to_nat pass) s) (len - pass) newstate')
        as (dsp' & -> & Hq' & Hfe' & Hfull' & Hpart'); [|done|lia|lia|].
      { unfold progress_quiet, GSAMP_SIZE. split_and!; done || lia. }
      exists dsp'. split; [done|]. split; [done|]. split; [by rewrite Hfe', Hfe1|].
      split; [|lia]. intros _.
      destruct (Z_lt_ge_dec (gsamps dsp1 + (len - pass)) GSAMP_SIZE) as [Hlt|Hge].
      * destruct (Hpart' Hlt) as (Et & _). by rewrite Et.
      * apply Hfull'. lia.
    + assert (len = pass) as Elen.
      { subst pass. destruct (Z.gtb_spec len (GSAMP_SIZE - gsamps dsp)); lia. }
      destruct (IH (set_progress dsp (features dsp) (freqs dsp) (gsamps dsp + pass)
                                 (tstate dsp) (tcount dsp) (genergy dsp))
                   (drop (Z.to_nat pass) s) (len - pass) newstate)
        as (dsp' & -> & Hq' & Hfe' & Hfull' & Hpart'); [|done|lia|lia|].
      { unfold progress_quiet. simpl. split_and!; done || lia. }
      exists dsp'. split; [done|]. split; [done|]. split; [done|]. simpl in *.
      split; [lia|]. intros _. destruct Hpart' as (-> & -> & ->); [lia|].
      split_and!; done || lia.
Qed.

(** X11. Silence is never taken for a tone.  On a handle whose call
    progress filters are at rest (as in a new handle and after every
    complete block), [__ast_dsp_call_progress] on samples that are all
    zero returns 0 whatever their number and whatever the state and the
    count were, and leaves [features] as it was; once the samples complete
    a block the state is SILENCE, and before that state and count are
    unchanged. *)
Theorem silence_is_no_tone junk dsp s len :
  progress_quiet dsp -> silent s -> 0 <= len ->
  exists dsp',
    __ast_dsp_call_progress junk dsp s len = Some (0, dsp') /\
    progress_quiet dsp' /\ features dsp' = features dsp /\
    (GSAMP_SIZE <= gsamps dsp + len -> tstate dsp' = TONE_STATE_SILENCE) /\
    (gsamps dsp + len < GSAMP_SIZE ->
     tstate dsp' = tstate dsp /\ tcount dsp' = tcount dsp /\ gsamps dsp' = gsamps dsp + len).
Proof.
  intros Hq Hs Hlen. unfold __ast_dsp_call_progress. apply quiet_loop; try done. lia.
Qed.

(** *** DTMF *)

(** The filters and the block energy of the DTMF detector have seen
    nothing but zero samples since the block began, and no run of fax tone
    blocks is waiting to be confirmed. *)
Definition dtmf_quiet (s : dtmf_detect_state_t) : Prop :=
  Forall at_rest (row_out s) /\ Forall at_rest (col_out s) /\
  Forall at_rest (row_out2nd s) /\ Forall at_rest (col_out2nd s) /\
  at_rest (fax_tone s) /\ at_rest (fax_tone2nd s) /\
  energy s = zero /\ fax_hits s <= 5.

(** The queue and the counters of confirmed and lost digits. *)
Definition dtmf_tally (s : dtmf_detect_state_t) : list Z * Z * Z * Z :=
  (digits s, current_digits s, detected_digits s, lost_digits s).

Lemma dtmf_quiet_sample s : dtmf_quiet s -> dtmf_sample s 0 = s.
Proof.
  intros (Hr & Hc & Hr2 & Hc2 & Hf & Hf2 & He & _). unfold dtmf_sample.
  rewrite !rest_steps, (rest_step (fax_tone s)), He by done.
  change (add zero (mul (of_int 0) (of_int 0))) with zero.
  destruct Hf as (Hfa & _ & _). rewrite Hfa.
  assert ({| v2 := v3 (fax_tone2nd s);
             v3 := add (sub (mul (fac (fax_tone2nd s)) (v3 (fax_tone2nd s))) zero) (of_int 0);
             fac := fac (fax_tone2nd s) |} = fax_tone2nd s) as ->.
  { destruct (fax_tone2nd s) as [a b c]. destruct Hf2 as (Ha & Hb & Hfin). simpl in *.
    subst a b. destruct c as [[]| | |[] m e]; done. }
  rewrite <- He. by destruct s.
Qed.

Lemma dtmf_quiet_samples s l : dtmf_quiet s -> silent l -> foldl dtmf_sample s l = s.
Proof.
  intros Hq. induction 1 as [|sx l -> _ IH]; [done|]. simpl. by rewrite dtmf_quiet_sample.
Qed.

Lemma dtmf_quiet_block s amp sample limit digitmode writeback :
  dtmf_quiet s ->
  dtmf_block s amp sample limit digitmode writeback
  = (dtmf_block_reset (dtmf_set_fax_hits s 0) 0, amp, 0, writeback).
Proof.
  intros (Hr & Hc & Hr2 & Hc2 & Hf & Hf2 & He & Hfax). unfold dtmf_block.
  assert (dtmf_block_digit s amp sample limit digitmode writeback = (s, amp, 0, writeback))
    as ->.
  { unfold dtmf_block_digit. cbv zeta. rewrite !rest_energy_at by done.
    change (ge_d zero DTMF_THRESHOLD) with false. done. }
  unfold dtmf_block_fax. rewrite (rest_result (fax_tone s)) by done.
  change (ge_d zero FAX_THRESHOLD) with false. cbn [Z.eqb andb].
  destruct (Z.gtb_spec (fax_hits s) 5); [lia | done].
Qed.

Lemma dtmf_quiet_loop fuel s amp samples sample digitmode writeback :
  dtmf_quiet s -> 0 <= current_sample s < 102 -> silent amp ->
  (Z.to_nat (samples - sample) <= fuel)%nat ->
  exists s',
    dtmf_loop fuel s amp samples sample 0 digitmode writeback = Some (s', amp, 0, writeback) /\
    dtmf_quiet s' /\ 0 <= current_sample s' < 102 /\ dtmf_tally s' = dtmf_tally s /\
    (hit3 s = 0 \/ 102 <= current_sample s + (samples - sample) -> hit3 s' = 0).
Proof.
  revert s sample. induction fuel as [|fuel IH]; intros s sample Hq Hcs Hs Hfuel; simpl.
  - destruct (Z.ltb_spec sample samples); [lia|]. exists s.
    split; [done|]. split; [done|]. split; [done|]. split; [done|].
    intros [?|?]; done || lia.
  - destruct (Z.ltb_spec sample samples) as [Hlt|Hge].
    2:{ exists s. split; [done|]. split; [done|]. split; [done|]. split; [done|].
        intros [?|?]; done || lia. }
    set (limit := if samples - sample >=? 102 - current_sample s
                  then sample + (102 - current_sample s) else samples).
    assert (sample < limit <= samples) as Hlimit.
    { subst limit. destruct (Z.geb_spec (samples - sample) (102 - current_sample s)); lia. }
    rewrite dtmf_quiet_samples; [|done|].
    2:{ unfold amp_range, silent in *. by apply Forall_take, Forall_drop. }
    simpl.
    destruct (Z.ltb_spec (current_sample s + (limit - sample)) 102) as [Hpart|Hfull].
    + assert (limit = samples) as Elim.
      { subst limit. destruct (Z.geb_spec (samples - sample) (102 - current_sample s)); lia. }
      destruct (IH (dtmf_set_current_sample s (current_sample s + (limit - sample))) limit)
        as (s' & -> & Hq' & Hcs' & Ht' & Hh'); [done | simpl; lia | done | lia |].
      exists s'. split; [done|]. split; [done|]. split; [done|]. split; [done|].
      intros [Hz|Hb]; [|lia]. apply Hh'. by left.
    + rewrite dtmf_quiet_block by done.
      destruct Hq as (Hr & Hc & Hr2 & Hc2 & Hf & Hf2 & He & Hfax).
      destruct (IH (dtmf_block_reset
                      (dtmf_set_fax_hits
                         (dtmf_set_current_sample s (current_sample s + (limit - sample))) 0) 0)
                   limit) as (s' & -> & Hq' & Hcs' & Ht' & Hh').
      * unfold dtmf_quiet. simpl.
        split_and!; try (by apply rest_resets); try (by apply rest_reset, rest_finite);
          done || lia.
      * simpl. lia.
      * done.
      * lia.
      * exists s'. split; [done|]. split; [done|]. split; [done|]. split; [done|].
        intros _. apply Hh'. by left.
Qed.

(** X12. Silence is never taken for a digit.  On a DTMF detector whose
    filters are at rest (as after [ast_dtmf_detect_init] and after every
    complete block) and with at most 5 fax tone blocks counted,
    [dtmf_detect] on samples that are all zero returns 0, whatever their
    number and the mode: the queue and the counters of detected and lost
    digits are unchanged, the samples are not written to and [*writeback]
    is left alone; [mhit] is cleared, and the last block result [hit3] is 0
    once the samples complete a block. *)
Theorem silence_is_no_digit s amp samples digitmode writeback :
  dtmf_wf s -> dtmf_quiet s -> silent amp ->
  exists s',
    dtmf_detect s amp samples digitmode writeback = Some (0, s', amp, writeback) /\
    dtmf_wf s' /\ dtmf_quiet s' /\ dtmf_tally s' = dtmf_tally s /\ mhit s' = 0 /\
    (102 <= current_sample s + samples -> hit3 s' = 0).
Proof.
  intros (Hl & Hc & Hcs) Hq Hs. unfold dtmf_detect.
  destruct (dtmf_quiet_loop (Z.to_nat samples) s amp samples 0 digitmode writeback)
    as (s' & -> & Hq' & Hcs' & Ht' & Hh'); [done | done | done | lia |].
  assert (dtmf_wf s') as Hwf'.
  { unfold dtmf_tally in Ht'. injection Ht' as Ed Ec _ _. unfold dtmf_wf. by rewrite Ed, Ec. }
  rewrite Z.sub_0_r in Hh'.
  destruct (Z.eqb_spec (mhit s') 0) as [Hm|Hm]; simpl.
  - exists (dtmf_set_mhit s' 0). split; [done|]. split_and!; try done. intros Hb. simpl.
    apply Hh'. by right.
  - exists (dtmf_set_mhit s' 0). split; [done|]. split_and!; try done. intros Hb. simpl.
    apply Hh'. by right.
Qed.

End Silence.

(** ** What the digit detectors report and what they write *)

(** The sixteen DTMF characters ["123A456B789C*0#D"] and the ['f'] of a
    fax tone. *)
Definition dtmf_characters : list Z := take 16 dtmf_positions ++ [chr "f"].

(** [amp] is [amp0] with some samples set to 0. *)
Definition only_zeroed (amp0 amp : list Z) : Prop :=
  Forall2 (fun a a' => a' = a \/ a' = 0) amp0 amp.

Section DetectorLoops.

Context `{Headers}.

Variable tone_out2nd_6 : mf_detect_state_t -> goertzel_state_t.

(** A property of the state, the samples, [hit] and [*writeback] that the
    sample loop, the quelching of a short frame and the end of a block
    keep, is kept by the loop of [dtmf_detect]. *)
Section DtmfLoopInvariant.

Variable digitmode : Z.
Variable I : dtmf_detect_state_t -> list Z -> Z -> Z -> Prop.

Hypothesis I_samples : forall s amp hit writeback l v,
  I s amp hit writeback ->
  I (dtmf_set_current_sample (foldl dtmf_sample s l) v) amp hit writeback.
Hypothesis I_quelch : forall s amp hit writeback sample limit,
  I s amp hit writeback -> hit <> 0 -> Z.land digitmode DSP_DIGITMODE_NOQUELCH = 0 ->
  I s (zero_amp amp sample limit) hit 1.
Hypothesis I_block : forall s amp hit writeback sample limit,
  I s amp hit writeback ->
  I (dtmf_block s amp sample limit digitmode writeback).1.1.1
    (dtmf_block s amp sample limit digitmode writeback).1.1.2
    (dtmf_block s amp sample limit digitmode writeback).1.2
    (dtmf_block s amp sample limit digitmode writeback).2.

Lemma dtmf_loop_preserves fuel s amp samples sample hit writeback s' amp' hit' writeback' :
  I s amp hit writeback ->
  dtmf_loop fuel s amp samples sample hit digitmode writeback
  = Some (s', amp', hit', writeback') ->
  I s' amp' hit' writeback'.
Proof.
  revert s amp sample hit writeback.
  induction fuel as [|fuel IH]; intros s amp sample hit writeback HI; simpl.
  - destruct (sample <? samples); [done|]. by intros [= <- <- <- <-].
  - destruct (sample <? samples); [|by intros [= <- <- <- <-]].
    set (limit := if samples - sample >=? 102 - current_sample s
                  then sample + (102 - current_sample s) else samples).
    set (s1 := dtmf_set_current_sample (foldl dtmf_sample s (amp_range amp sample limit))
                 (current_sample (foldl dtmf_sample s (amp_range amp sample limit))
                  + (limit - sample))).
    assert (I s1 amp hit writeback) as H1 by apply I_samples, HI.
    destruct (_ <? 102).
    + destruct (Z.eqb_spec hit 0) as [Hz|Hnz]; simpl; [by apply IH|].
      destruct (Z.eqb_spec (Z.land digitmode DSP_DIGITMODE_NOQUELCH) 0) as [Hq|Hq];
        apply IH; [by apply (I_quelch _ _ _ writeback) | done].
    + pose proof (I_block s1 amp hit writeback sample limit H1) as H2.
      destruct (dtmf_block s1 amp sample limit digitmode writeback) as [[[s2 amp2] hit2] wb2].
      by apply IH.
Qed.

End DtmfLoopInvariant.

(** The same for the loop of [mf_detect]. *)
Section MfLoopInvariant.

Variable digitmode : Z.
Variable I : mf_detect_state_t -> list Z -> Z -> Z -> Prop.

Hypothesis I_samples : forall s amp hit writeback l v,
  I s amp hit writeback ->
  I (mf_set_current_sample (foldl (mf_sample tone_out2nd_6) s l) v) amp hit writeback.
Hypothesis I_quelch : forall s amp hit writeback sample limit,
  I s amp hit writeback -> hit <> 0 -> Z.land digitmode DSP_DIGITMODE_NOQUELCH = 0 ->
  I s (zero_amp amp sample limit) hit 1.
Hypothesis I_block : forall s amp hit writeback sample limit,
  I s amp hit writeback ->
  I (mf_block s amp sample limit digitmode writeback).1.1.1
    (mf_block s amp sample limit digitmode writeback).1.1.2
    (mf_block s amp sample limit digitmode writeback).1.2
    (mf_block s amp sample limit digitmode writeback).2.

Lemma mf_loop_preserves fuel s amp samples sample hit writeback s' amp' hit' writeback' :
  I s amp hit writeback ->
  mf_loop tone_out2nd_6 fuel s amp samples sample hit digitmode writeback
  = Some (s', amp', hit', writeback') ->
  I s' amp' hit' writeback'.
Proof.
  revert s amp sample hit writeback.
  induction fuel as [|fuel IH]; intros s amp sample hit writeback HI; simpl.
  - destruct (sample <? samples); [done|]. by intros [= <- <- <- <-].
  - destruct (sample <? samples); [|by intros [= <- <- <- <-]].
    set (limit := if samples - sample >=? MF_GSIZE - mf_current_sample s
                  then sample + (MF_GSIZE - mf_current_sample s) else samples).
    set (s1 := mf_set_current_sample
                 (foldl (mf_sample tone_out2nd_6) s (amp_range amp sample limit))
                 (mf_current_sample
                    (foldl (mf_sample tone_out2nd_6) s (amp_range amp sample limit))
                  + (limit - sample))).
    assert (I s1 amp hit writeback) as H1 by apply I_samples, HI.
    destruct (_ <? MF_GSIZE).
    + destruct (Z.eqb_spec hit 0) as [Hz|Hnz]; simpl; [by apply IH|].
      destruct (Z.eqb_spec (Z.land digitmode DSP_DIGITMODE_NOQUELCH) 0) as [Hq|Hq];
        apply IH; [by apply (I_quelch _ _ _ writeback) | done].
    + pose proof (I_block s1 amp hit writeback sample limit H1) as H2.
      destruct (mf_block s1 amp sample limit digitmode writeback) as [[[s2 amp2] hit2] wb2].
      by apply IH.
Qed.

End MfLoopInvariant.

End DetectorLoops.

Section DetectorFacts.

Context `{Headers}.

Variable tone_out2nd_6 : mf_detect_state_t -> goertzel_state_t.

Lemma only_zeroed_refl amp : only_zeroed amp amp.
Proof. induction amp; constructor; auto. Qed.

Lemma only_zeroed_imap (p : nat -> bool) amp0 amp :
  only_zeroed amp0 amp ->
  only_zeroed amp0 (imap (fun i a => if p i then 0 else a) amp).
Proof.
  intros Hz. revert p. induction Hz as [|a a' amp0 amp Ha _ IH]; intros p; [constructor|].
  simpl. constructor.
  - destruct (p O); auto.
  - apply (IH (fun i => p (S i))).
Qed.

Lemma only_zeroed_zero_amp amp0 amp sample limit :
  only_zeroed amp0 amp -> only_zeroed amp0 (zero_amp amp sample limit).
Proof.
  apply (only_zeroed_imap (fun i => (sample <=? Z.of_nat i) && (Z.of_nat i <? limit))).
Qed.

(** What a run of a detector may have done to the samples [amp0] and to
    [*writeback], which held [wb0]: samples are only ever set to 0, and
    [*writeback] is 1 whenever a sample was written; with the NOQUELCH bit
    in [digitmode] nothing is written. *)
Definition quelched (digitmode : Z) (amp0 : list Z) (wb0 : Z) (amp : list Z) (wb : Z) : Prop :=
  only_zeroed amp0 amp /\
  (amp = amp0 /\ wb = wb0 \/ wb = 1) /\
  (Z.land digitmode DSP_DIGITMODE_NOQUELCH <> 0 -> amp = amp0 /\ wb = wb0).

Lemma quelched_zero digitmode amp0 wb0 amp wb sample limit :
  quelched digitmode amp0 wb0 amp wb ->
  Z.land digitmode DSP_DIGITMODE_NOQUELCH = 0 ->
  quelched digitmode amp0 wb0 (zero_amp amp sample limit) 1.
Proof.
  intros (Hz & _ & _) Hq. split_and!; [by apply only_zeroed_zero_amp | by right | done].
Qed.

Lemma dtmf_block_writes s amp sample limit digitmode writeback :
  ((dtmf_block s amp sample limit digitmode writeback).1.1.2 = amp /\
   (dtmf_block s amp sample limit digitmode writeback).2 = writeback) \/
  (Z.land digitmode DSP_DIGITMODE_NOQUELCH = 0 /\
   (dtmf_block s amp sample limit digitmode writeback).1.1.2 = zero_amp amp sample limit /\
   (dtmf_block s amp sample limit digitmode writeback).2 = 1).
Proof.
  unfold dtmf_block.
  assert (((dtmf_block_digit s amp sample limit digitmode writeback).1.1.2 = amp /\
           (dtmf_block_digit s amp sample limit digitmode writeback).2 = writeback) \/
          (Z.land digitmode DSP_DIGITMODE_NOQUELCH = 0 /\
           (dtmf_block_digit s amp sample limit digitmode writeback).1.1.2
           = zero_amp amp sample limit /\
           (dtmf_block_digit s amp sample limit digitmode writeback).2 = 1)) as Hd.
  { unfold dtmf_block_digit. destruct (_ && _ && _); [|by left].
    destruct (Z.eqb_spec (Z.land digitmode DSP_DIGITMODE_NOQUELCH) 0); [by right | by left]. }
  destruct (dtmf_block_digit s amp sample limit digitmode writeback) as [[[s1 amp1] hit1] wb1].
  destruct (dtmf_block_fax s1 _ hit1) as [s2 hit2]. exact Hd.
Qed.

Lemma mf_block_writes s amp sample limit digitmode writeback :
  ((mf_block s amp sample limit digitmode writeback).1.1.2 = amp /\
   (mf_block s amp sample limit digitmode writeback).2 = writeback) \/
  (Z.land digitmode DSP_DIGITMODE_NOQUELCH = 0 /\
   (mf_block s amp sample limit digitmode writeback).1.1.2 = zero_amp amp sample limit /\
   (mf_block s amp sample limit digitmode writeback).2 = 1).
Proof.
  unfold mf_block.
  assert (((mf_block_digit s amp sample limit digitmode writeback).1.1.2 = amp /\
           (mf_block_digit s amp sample limit digitmode writeback).2 = writeback) \/
          (Z.land digitmode DSP_DIGITMODE_NOQUELCH = 0 /\
           (mf_block_digit s amp sample limit digitmode writeback).1.1.2
           = zero_amp amp sample limit /\
           (mf_block_digit s amp sample limit digitmode writeback).2 = 1)) as Hd.
  { unfold mf_block_digit. destruct (_ && _ && _); [|by left].
    destruct (Z.eqb_spec (Z.land digitmode DSP_DIGITMODE_NOQUELCH) 0); [by right | by left]. }
  destruct (mf_block_digit s amp sample limit digitmode writeback) as [[[s1 amp1] hit1] wb1].
  exact Hd.
Qed.

Lemma quelched_block digitmode amp0 wb0 amp wb sample limit amp' wb' :
  quelched digitmode amp0 wb0 amp wb ->
  (amp' = amp /\ wb' = wb) \/
  (Z.land digitmode DSP_DIGITMODE_NOQUELCH = 0 /\ amp' = zero_amp amp sample limit /\ wb' = 1) ->
  quelched digitmode amp0 wb0 amp' wb'.
Proof.
  intros Hq [[-> ->] | (Hn & -> & ->)]; [done|]. by apply (quelched_zero _ _ _ _ wb).
Qed.

(** X13. The digit detectors never return without a verdict, and all
    they do to the caller's samples is to set some of them to 0, which the
    flag [*writeback] records: it is 1 when a sample was written and
    otherwise left as it was.  Called with the NOQUELCH bit in [digitmode]
    they write nothing. *)
Theorem detectors_only_zero_samples :
  (forall s amp samples digitmode writeback,
     dtmf_wf s ->
     exists res s' amp' writeback',
       dtmf_detect s amp samples digitmode writeback = Some (res, s', amp', writeback') /\
       only_zeroed amp amp' /\
       (amp' = amp /\ writeback' = writeback \/ writeback' = 1) /\
       (Z.land digitmode DSP_DIGITMODE_NOQUELCH <> 0 -> amp' = amp /\ writeback' = writeback)) /\
  (forall s amp samples digitmode writeback,
     mf_wf s ->
     exists res s' amp' writeback',
       mf_detect tone_out2nd_6 s amp samples digitmode writeback
       = Some (res, s', amp', writeback') /\
       only_zeroed amp amp' /\
       (amp' = amp /\ writeback' = writeback \/ writeback' = 1) /\
       (Z.land digitmode DSP_DIGITMODE_NOQUELCH <> 0 -> amp' = amp /\ writeback' = writeback)).
Proof.
  split.
  - intros s amp samples digitmode writeback Hwf.
    destruct (dtmf_detect_kept s amp samples digitmode writeback Hwf)
      as (res & s' & amp' & wb' & E & _).
    exists res, s', amp', wb'. split; [exact E|].
    revert E. unfold dtmf_detect.
    destruct (dtmf_loop _ _ _ _ _ _ _ _) as [[[[s1 amp1] hit1] wb1]|] eqn:El; [|done].
    assert (quelched digitmode amp writeback amp1 wb1) as Hq.
    { apply (dtmf_loop_preserves digitmode
               (fun _ a _ w => quelched digitmode amp writeback a w))
        with (fuel := Z.to_nat samples) (s := s) (amp := amp) (samples := samples)
             (sample := 0) (hit := 0) (writeback := writeback) (s' := s1) (hit' := hit1).
      - done.
      - intros s0 a0 h0 w0 sample limit Hq0 _ Hn. by apply (quelched_zero _ _ _ _ w0).
      - intros s0 a0 h0 w0 sample limit Hq0.
        eapply quelched_block; [exact Hq0|]. apply dtmf_block_writes.
      - split_and!; [apply only_zeroed_refl | by left | done].
      - exact El. }
    destruct (_ || _); intros [= <- <- <- <-]; exact Hq.
  - intros s amp samples digitmode writeback Hwf.
    destruct (mf_detect_kept tone_out2nd_6 s amp samples digitmode writeback Hwf)
      as (res & s' & amp' & wb' & E & _).
    exists res, s', amp', wb'. split; [exact E|].
    revert E. unfold mf_detect.
    destruct (mf_loop _ _ _ _ _ _ _ _ _) as [[[[s1 amp1] hit1] wb1]|] eqn:El; [|done].
    assert (quelched digitmode amp writeback amp1 wb1) as Hq.
    { apply (mf_loop_preserves tone_out2nd_6 digitmode
               (fun _ a _ w => quelched digitmode amp writeback a w))
        with (fuel := Z.to_nat samples) (s := s) (amp := amp) (samples := samples)
             (sample := 0) (hit := 0) (writeback := writeback) (s' := s1) (hit' := hit1).
      - done.
      - intros s0 a0 h0 w0 sample limit Hq0 _ Hn. by apply (quelched_zero _ _ _ _ w0).
      - intros s0 a0 h0 w0 sample limit Hq0.
        eapply quelched_block; [exact Hq0|]. apply mf_block_writes.
      - split_and!; [apply only_zeroed_refl | by left | done].
      - exact El. }
    destruct (_ || _); intros [= <- <- <- <-]; exact Hq.
Qed.

End DetectorFacts.

Section KnownDigits.

Context `{Headers}.

Definition known (d : Z) : Prop := In d dtmf_characters.

(** The digits array has its size, the count is inside it, and every digit
    queued is a DTMF character or ['f']. *)
Definition known_queue (s : dtmf_detect_state_t) : Prop :=
  length (digits s) = Z.to_nat (MAX_DTMF_DIGITS + 1) /\
  0 <= current_digits s <= MAX_DTMF_DIGITS /\
  Forall known (queue (digits s) (current_digits s)).

Lemma best_of_lt e n : (0 < n)%nat -> (best_of e n < n)%nat.
Proof.
  intros Hn. unfold best_of.
  assert (forall l b, (b < n)%nat -> Forall (fun i => (i < n)%nat) l ->
            (foldl (fun best i => if gt (energy_at e i) (energy_at e best) then i else best)
                   b l < n)%nat) as Hfold.
  { induction l as [|i l IH]; intros b Hb Hl; simpl; [done|].
    apply List.Forall_cons_iff in Hl as [Hi Hl]. apply IH; [|done].
    destruct (gt _ _); done. }
  apply Hfold; [done|]. apply List.Forall_forall. intros i Hi. apply in_seq in Hi. lia.
Qed.

Lemma position_known i : (i < 16)%nat -> known (nth i dtmf_positions 0).
Proof.
  intros Hi. unfold known, dtmf_characters.
  do 16 (destruct i as [|i]; [vm_compute; tauto|]). lia.
Qed.

Lemma fax_known : known (chr "f").
Proof. unfold known, dtmf_characters. vm_compute. tauto. Qed.

Lemma known_queue_digit s hit :
  known_queue s -> known hit -> known_queue (dtmf_queue_digit s hit).
Proof.
  intros (Hl & Hc & Hq) Hh. unfold known_queue, dtmf_queue_digit, queue, MAX_DTMF_DIGITS in *.
  destruct (Z.ltb_spec (current_digits s) 128) as [Hlt|Hge]; simpl; [|done].
  rewrite !length_insert. split_and!; try done; try lia.
  rewrite take_insert_ge by lia.
  replace (Z.to_nat (current_digits s + 1)) with (S (Z.to_nat (current_digits s))) by lia.
  rewrite (take_S_r _ _ hit) by (apply list_lookup_insert_eq; lia).
  rewrite take_insert_ge by lia. apply Forall_app. split; [done|]. by constructor.
Qed.

Lemma known_block s amp sample limit digitmode writeback :
  known_queue s ->
  known_queue (dtmf_block s amp sample limit digitmode writeback).1.1.1 /\
  ((dtmf_block s amp sample limit digitmode writeback).1.2 = 0 \/
   known (dtmf_block s amp sample limit digitmode writeback).1.2).
Proof.
  intros Hk. unfold dtmf_block.
  assert (known_queue (dtmf_block_digit s amp sample limit digitmode writeback).1.1.1 /\
          ((dtmf_block_digit s amp sample limit digitmode writeback).1.2 = 0 \/
           known (dtmf_block_digit s amp sample limit digitmode writeback).1.2)) as Hd.
  { unfold dtmf_block_digit.
    set (best_row := best_of (map goertzel_result (row_out s)) 4).
    set (best_col := best_of (map goertzel_result (col_out s)) 4).
    assert (known (nth (best_row * 4 + best_col) dtmf_positions 0)) as Hpos.
    { apply position_known.
      pose proof (best_of_lt (map goertzel_result (row_out s)) 4 ltac:(lia)).
      pose proof (best_of_lt (map goertzel_result (col_out s)) 4 ltac:(lia)).
      subst best_row best_col. lia. }
    destruct (_ && _ && _); [|by split; [|left]].
    assert (known_queue
              (if (nth (best_row * 4 + best_col) dtmf_positions 0 =? hit3 s)
                  && negb (hit3 s =? hit2 s)
               then dtmf_queue_digit
                      (dtmf_set_detected
                         (dtmf_set_mhit s (nth (best_row * 4 + best_col) dtmf_positions 0))
                         (CInt.to_int (detected_digits s + 1))
                         (alter (fun n => CInt.to_int (n + 1)) (best_row * 4 + best_col)%nat
                                (digit_hits s)))
                      (nth (best_row * 4 + best_col) dtmf_positions 0)
               else s)) as Hs'.
    { destruct (_ && negb _); [|done]. by apply known_queue_digit. }
    destruct (Z.land digitmode DSP_DIGITMODE_NOQUELCH =? 0); simpl; split; try done;
      by right. }
  destruct (dtmf_block_digit s amp sample limit digitmode writeback) as [[[s1 amp1] hit1] wb1].
  simpl in Hd. destruct Hd as [Hk1 Hh1].
  assert (known_queue (dtmf_block_fax s1 (goertzel_result (fax_tone s)) hit1).1 /\
          ((dtmf_block_fax s1 (goertzel_result (fax_tone s)) hit1).2 = 0 \/
           known (dtmf_block_fax s1 (goertzel_result (fax_tone s)) hit1).2)) as Hf.
  { unfold dtmf_block_fax. destruct (_ && _ && _).
    - destruct (lt _ _); simpl; [|done]. split; [done|]. right. apply fax_known.
    - destruct (fax_hits s1 >? 5); simpl; [|done]. split; [|right; apply fax_known].
      by apply (known_queue_digit
                  (dtmf_set_detected (dtmf_set_mhit s1 (chr "f"))
                     (CInt.to_int (detected_digits s1 + 1)) (digit_hits s1))),
               fax_known. }
  destruct (dtmf_block_fax s1 _ hit1) as [s2 hit2]. simpl in *. done.
Qed.

(** X14. Whatever the samples, [dtmf_detect] returns 0, one of the
    sixteen DTMF characters or ['f'], and the digits it queues are of that
    kind too: a queue that held only such characters still does. *)
Theorem dtmf_reports_known_digits s amp samples digitmode writeback :
  dtmf_wf s ->
  Forall known (queue (digits s) (current_digits s)) ->
  exists res s' amp' writeback',
    dtmf_detect s amp samples digitmode writeback = Some (res, s', amp', writeback') /\
    (res = 0 \/ known res) /\
    Forall known (queue (digits s') (current_digits s')).
Proof.
  intros Hwf Hq.
  destruct (dtmf_detect_kept s amp samples digitmode writeback Hwf)
    as (res & s' & amp' & wb' & E & _).
  exists res, s', amp', wb'. split; [exact E|].
  revert E. unfold dtmf_detect.
  destruct (dtmf_loop _ _ _ _ _ _ _ _) as [[[[s1 amp1] hit1] wb1]|] eqn:El; [|done].
  assert (known_queue s1 /\ (hit1 = 0 \/ known hit1)) as [(_ & _ & Hq1) Hh1].
  { apply (dtmf_loop_preserves digitmode
             (fun s0 _ h _ => known_queue s0 /\ (h = 0 \/ known h)))
      with (fuel := Z.to_nat samples) (s := s) (amp := amp) (samples := samples)
           (sample := 0) (hit := 0) (writeback := writeback) (amp' := amp1)
           (writeback' := wb1).
    - intros s0 a0 h0 w0 l v [(Hl0 & Hc0 & Hq0) Hh0]. split; [|done].
      destruct (dtmf_samples_fields s0 l) as (Ed & Ec & _).
      unfold known_queue. simpl. rewrite Ed, Ec. done.
    - intros. done.
    - intros s0 a0 h0 w0 sample limit [Hk0 _]. by apply known_block.
    - destruct Hwf as (Hl & Hc & _). split; [done | by left].
    - exact El. }
  destruct (_ || _); intros [= <- <- <- <-]; simpl; split; try done; by left.
Qed.

End KnownDigits.

Section ShortFrames.

Context `{Headers}.

Variable tone_out2nd_6 : mf_detect_state_t -> goertzel_state_t.

Lemma loop_end_dtmf fuel s amp samples hit digitmode writeback :
  dtmf_loop fuel s amp samples samples hit digitmode writeback = Some (s, amp, hit, writeback).
Proof. destruct fuel; simpl; by rewrite Z.ltb_irrefl. Qed.

Lemma loop_end_mf fuel s amp samples hit digitmode writeback :
  mf_loop tone_out2nd_6 fuel s amp samples samples hit digitmode writeback
  = Some (s, amp, hit, writeback).
Proof. destruct fuel; simpl; by rewrite Z.ltb_irrefl. Qed.

(** X15. Detection works on whole blocks (102 samples for DTMF, 160 for
    MF, 183 for call progress) and buffers what falls short of one.  A
    call whose samples do not complete the block in progress returns 0 and
    writes to no sample; it only feeds the filters and the block energy and
    advances the sample count (the digit detectors also clear [mhit]).
    Hit history, queue and counters, tone state and count, and the
    features are as before. *)
Theorem short_frames_are_buffered :
  (forall s amp samples digitmode writeback,
     0 <= current_sample s -> 0 < samples -> current_sample s + samples < 102 ->
     dtmf_detect s amp samples digitmode writeback
     = Some (0,
             dtmf_set_mhit
               (dtmf_set_current_sample
                  (foldl dtmf_sample s (take (Z.to_nat samples) amp))
                  (current_sample s + samples)) 0,
             amp, writeback)) /\
  (forall s amp samples digitmode writeback,
     0 <= mf_current_sample s -> 0 < samples -> mf_current_sample s + samples < MF_GSIZE ->
     mf_detect tone_out2nd_6 s amp samples digitmode writeback
     = Some (0,
             mf_set_mhit
               (mf_set_current_sample
                  (foldl (mf_sample tone_out2nd_6) s (take (Z.to_nat samples) amp))
                  (mf_current_sample s + samples)) 0,
             amp, writeback)) /\
  (forall junk dsp s len,
     0 <= gsamps dsp -> 0 < len -> gsamps dsp + len < GSAMP_SIZE ->
     exists dsp',
       __ast_dsp_call_progress junk dsp s len = Some (0, dsp') /\
       tstate dsp' = tstate dsp /\ tcount dsp' = tcount dsp /\
       features dsp' = features dsp /\ gsamps dsp' = gsamps dsp + len).
Proof.
  split_and!.
  - intros s amp samples digitmode writeback Hcs Hpos Hshort. unfold dtmf_detect.
    destruct (Z.to_nat samples) as [|fuel] eqn:Efuel; [lia|]. simpl.
    destruct (Z.ltb_spec 0 samples); [|lia].
    destruct (Z.geb_spec (samples - 0) (102 - current_sample s)); [lia|].
    destruct (dtmf_samples_fields s (amp_range amp 0 samples)) as (_ & _ & _ & _ & Ecs).
    rewrite Ecs. destruct (Z.ltb_spec (current_sample s + (samples - 0)) 102); [|lia].
    rewrite loop_end_dtmf. simpl.
    unfold amp_range. rewrite drop_0, !Z.sub_0_r, Efuel.
    by destruct (mhit _ =? 0).
  - intros s amp samples digitmode writeback Hcs Hpos Hshort. unfold mf_detect.
    destruct (Z.to_nat samples) as [|fuel] eqn:Efuel; [lia|]. simpl.
    destruct (Z.ltb_spec 0 samples); [|lia].
    destruct (Z.geb_spec (samples - 0) (MF_GSIZE - mf_current_sample s)); [lia|].
    destruct (mf_samples_fields tone_out2nd_6 s (amp_range amp 0 samples))
      as (_ & _ & _ & _ & Ecs).
    rewrite Ecs. destruct (Z.ltb_spec (mf_current_sample s + (samples - 0)) MF_GSIZE); [|lia].
    rewrite loop_end_mf. simpl.
    unfold amp_range. rewrite drop_0, !Z.sub_0_r, Efuel.
    by destruct (mf_mhit _ =? 0).
  - intros junk dsp s len. apply progress_within_block.
Qed.

End ShortFrames.

(** ** Frames *)

(** The values of the macros of asterisk/frame.h for frame types and audio
    formats, and the conversion macros of asterisk/ulaw.h and
    asterisk/alaw.h, none of which is part of the sources at hand. *)
Class FrameHeaders := {
  AST_FRAME_DTMF : Z;
  AST_FRAME_VOICE : Z;
  AST_FRAME_CONTROL : Z;
  AST_FRAME_NULL : Z;
  AST_FORMAT_SLINEAR : Z;
  AST_FORMAT_ULAW : Z;
  AST_FORMAT_ALAW : Z;
  AST_MULAW : Z -> Z;
  AST_ALAW : Z -> Z;
  AST_LIN2MU : Z -> Z;
  AST_LIN2A : Z -> Z
}.

(** [struct ast_frame], the fields the routines use.  [fdata] is the
    buffer [data] points to, as the routines read it: an array of [short]
    in a signed linear frame, an array of [unsigned char] otherwise. *)
Record ast_frame := {
  frametype : Z;
  subclass : Z;
  datalen : Z;
  fdata : list Z
}.

(** A frame after [memset(&f, 0, sizeof(f))]. *)
Definition zero_frame : ast_frame :=
  {| frametype := 0; subclass := 0; datalen := 0; fdata := [] |}.

Definition set_fdata (f : ast_frame) (fdata' : list Z) : ast_frame :=
  {| frametype := frametype f; subclass := subclass f; datalen := datalen f;
     fdata := fdata' |}.

(** The messages given to [ast_log(LOG_WARNING, ...)]. *)
Inductive warning :=
| NonVoiceFrame
| NotSignedLinear
| UnknownFormat (subclass : Z)
| UnknownProgress (res : Z).

(** What [ast_dsp_process] does besides changing the handle and the frame
    it is given: warnings, frames put on the channel's queue with
    [ast_queue_frame] (as they are at that moment), and the release of the
    frame it was given. *)
Inductive frame_effect :=
| Warn (w : warning)
| QueueFrame (f : ast_frame) (needlock : Z)
| FrFree.

(** The frame [ast_dsp_process] returns: NULL, the frame it was given, or
    the frame [f] inside the handle. *)
Inductive returned := RetNull | RetGiven | RetHandle.

Record processed := {
  p_returned : returned;
  p_dsp : ast_dsp;
  p_f : ast_frame;
  p_af : option ast_frame;
  p_effects : list frame_effect
}.

Section Frames.

Context `{Headers} `{FrameHeaders}.

Variable tone_out2nd_6 : mf_detect_state_t -> goertzel_state_t.

(** [ast_dsp_silence(dsp, f, totalsilence)]: the value returned, the
    handle and the warnings.  When the frame is analysed and
    [totalsilence] is not NULL, [*totalsilence] receives [totalsilence] of
    the handle returned. *)
Definition ast_dsp_silence (dsp : ast_dsp) (f : ast_frame)
  : option (Z * ast_dsp * list warning) :=
  if negb (frametype f =? AST_FRAME_VOICE) then Some (0, dsp, [NonVoiceFrame])
  else if negb (subclass f =? AST_FORMAT_SLINEAR) then Some (0, dsp, [NotSignedLinear])
  else
    match __ast_dsp_silence dsp (fdata f) (Z.quot (datalen f) 2) with
    | Some (res, dsp') => Some (res, dsp', [])
    | None => None
    end.

(** [ast_dsp_call_progress(dsp, inf)] *)
Definition ast_dsp_call_progress (junk : Z) (dsp : ast_dsp) (inf : ast_frame)
  : option (Z * ast_dsp * list warning) :=
  if negb (frametype inf =? AST_FRAME_VOICE) then Some (0, dsp, [NonVoiceFrame])
  else if negb (subclass inf =? AST_FORMAT_SLINEAR) then Some (0, dsp, [NotSignedLinear])
  else
    match __ast_dsp_call_progress junk dsp (fdata inf) (Z.quot (datalen inf) 2) with
    | Some (res, dsp') => Some (res, dsp', [])
    | None => None
    end.

(** [ast_dsp_digitdetect(dsp, inf)]: the samples of the frame are written
    to where the detector quelches; the flag it sets is dropped. *)
Definition ast_dsp_digitdetect (dsp : ast_dsp) (inf : ast_frame)
  : option (Z * ast_dsp * ast_frame * list warning) :=
  if negb (frametype inf =? AST_FRAME_VOICE) then Some (0, dsp, inf, [NonVoiceFrame])
  else if negb (subclass inf =? AST_FORMAT_SLINEAR) then Some (0, dsp, inf, [NotSignedLinear])
  else
    match __ast_dsp_digitdetect tone_out2nd_6 dsp (fdata inf) (Z.quot (datalen inf) 2) 0 with
    | Some (res, dsp', s, _) => Some (res, dsp', set_fdata inf s, [])
    | None => None
    end.

(** The macro [FIX_INF(inf)]: when the detector wrote to the samples, a
    companded frame gets them back, encoded again. *)
Definition FIX_INF (writeback : Z) (inf : ast_frame) (shortdata : list Z) (len : Z)
  : ast_frame :=
  if negb (writeback =? 0) then
    if subclass inf =? AST_FORMAT_SLINEAR then inf
    else if subclass inf =? AST_FORMAT_ULAW then
      set_fdata inf (map AST_LIN2MU (take (Z.to_nat len) shortdata)
                     ++ drop (Z.to_nat len) (fdata inf))
    else if subclass inf =? AST_FORMAT_ALAW then
      set_fdata inf (map AST_LIN2A (take (Z.to_nat len) shortdata)
                     ++ drop (Z.to_nat len) (fdata inf))
    else inf
  else inf.

Definition set_thinkdigit (dsp : ast_dsp) (thinkdigit' : Z) : ast_dsp :=
  {| threshold := threshold dsp; totalsilence := totalsilence dsp;
     totalnoise := totalnoise dsp; features := features dsp;
     busymaybe := busymaybe dsp; busycount := busycount dsp;
     historicnoise := historicnoise dsp; historicsilence := historicsilence dsp;
     freqs := freqs dsp; gsamps := gsamps dsp; tstate := tstate dsp; tcount := tcount dsp;
     digitmode := digitmode dsp; thinkdigit := thinkdigit';
     genergy := genergy dsp; td := td dsp |}.

(** [dsp->f] after [memset], with its type and subclass set. *)
Definition handle_frame (frametype' subclass' : Z) : ast_frame :=
  {| frametype := frametype'; subclass := subclass'; datalen := 0; fdata := [] |}.

(** [FIX_INF(af); if (chan) ast_queue_frame(chan, af, needlock);
    ast_frfree(af); return &dsp->f;] *)
Definition hand_over (chan : bool) (needlock : Z) (dsp : ast_dsp) (f : ast_frame)
    (af : ast_frame) (before : list frame_effect) : processed :=
  {| p_returned := RetHandle; p_dsp := dsp; p_f := f; p_af := Some af;
     p_effects := before ++ (if chan then [QueueFrame af needlock] else []) ++ [FrFree] |}.

(** The oldest digit of the queue of the detector in use leaves it:
    [subclass = digits[0]; memmove(digits, digits + 1, current_digits);
    current_digits--].  [None] when the queue is empty, outside the array,
    or in the other member of the union. *)
Definition pop_digit (dsp : ast_dsp) : option (option (Z * ast_dsp)) :=
  if negb (Z.land (digitmode dsp) DSP_DIGITMODE_MF =? 0) then
    match td dsp with
    | td_mf mf =>
      if negb (mf_current_digits mf =? 0) then
        match int_at (mf_digits mf) 0,
              copy_bytes (mf_digits mf) (mf_digits mf) 1 (mf_current_digits mf) with
        | Some d, Some digits' =>
          Some (Some (d, set_td dsp (td_mf (mf_set_queue mf digits'
                                              (CInt.to_int (mf_current_digits mf - 1))
                                              (mf_lost_digits mf)))))
        | _, _ => None
        end
      else Some None
    | td_dtmf _ => None
    end
  else
    match td dsp with
    | td_dtmf dtmf =>
      if negb (current_digits dtmf =? 0) then
        match int_at (digits dtmf) 0,
              copy_bytes (digits dtmf) (digits dtmf) 1 (current_digits dtmf) with
        | Some d, Some digits' =>
          Some (Some (d, set_td dsp (td_dtmf (dtmf_set_queue dtmf digits'
                                                (CInt.to_int (current_digits dtmf - 1))
                                                (lost_digits dtmf)))))
        | _, _ => None
        end
      else Some None
    | td_mf _ => None
    end.

(** The part of [ast_dsp_process] under [DSP_FEATURE_DTMF_DETECT], once
    the detector has run: either the function returns (with [Some]), or it
    goes on to call progress with the handle given back. *)
Definition after_digitdetect (chan : bool) (needlock : Z) (dsp : ast_dsp) (af : ast_frame)
    (digit : Z) : option (processed + ast_dsp) :=
  if negb (Z.land (digitmode dsp) (Z.lor DSP_DIGITMODE_MUTECONF DSP_DIGITMODE_MUTEMAX) =? 0)
  then
    if thinkdigit dsp =? 0 then
      if negb (digit =? 0) then
        Some (inl (hand_over chan needlock (set_thinkdigit dsp (chr "x"))
                             (handle_frame AST_FRAME_DTMF (chr "m")) af []))
      else Some (inr dsp)
    else
      if negb (digit =? 0) then Some (inr (set_thinkdigit dsp digit))
      else
        let found :=
          if negb (thinkdigit dsp =? chr "x") then
            if chan
            then [QueueFrame (handle_frame AST_FRAME_DTMF (thinkdigit dsp)) needlock]
            else []
          else [] in
        Some (inl (hand_over chan needlock (set_thinkdigit dsp 0)
                             (handle_frame AST_FRAME_DTMF (chr "u")) af found))
  else if digit =? 0 then
    match pop_digit dsp with
    | Some (Some (d, dsp')) =>
      Some (inl (hand_over chan needlock dsp' (handle_frame AST_FRAME_DTMF d) af []))
    | Some None => Some (inr dsp)
    | None => None
    end
  else Some (inr dsp).

(** The part under [DSP_FEATURE_CALL_PROGRESS]: the handle, [dsp->f] and
    the effects. *)
Definition progress_part (junk : Z) (chan : bool) (needlock : Z) (dsp : ast_dsp)
    (shortdata : list Z) (len : Z) : option (ast_dsp * ast_frame * list frame_effect) :=
  match __ast_dsp_call_progress junk dsp shortdata len with
  | None => None
  | Some (res, dsp') =>
    if negb (res =? 0) then
      if (res =? AST_CONTROL_ANSWER) || (res =? AST_CONTROL_BUSY)
         || (res =? AST_CONTROL_RINGING) || (res =? AST_CONTROL_CONGESTION)
      then Some (dsp', handle_frame AST_FRAME_CONTROL res,
                 if chan then [QueueFrame (handle_frame AST_FRAME_CONTROL res) needlock]
                 else [])
      else Some (dsp', handle_frame AST_FRAME_CONTROL 0, [Warn (UnknownProgress res)])
    else Some (dsp', handle_frame AST_FRAME_CONTROL 0, [])
  end.

(** The samples of a voice frame as [short]s, and their number: the data of
    a signed linear frame itself, a decoded copy (in a buffer from
    [alloca], taken to be there) of a mu-law or A-law frame; [None] for
    other formats. *)
Definition short_data (af : ast_frame) : option (list Z * Z) :=
  if subclass af =? AST_FORMAT_SLINEAR
  then Some (fdata af, Z.quot (datalen af) 2)
  else if subclass af =? AST_FORMAT_ULAW
  then Some (map AST_MULAW (take (Z.to_nat (datalen af)) (fdata af)), datalen af)
  else if subclass af =? AST_FORMAT_ALAW
  then Some (map AST_ALAW (take (Z.to_nat (datalen af)) (fdata af)), datalen af)
  else None.

(** [ast_dsp_process] from the call of [__ast_dsp_silence] on. *)
Definition analyse (junk : Z) (chan : bool) (needlock : Z) (dsp : ast_dsp) (f : ast_frame)
    (af : ast_frame) (shortdata : list Z) (len : Z) : option processed :=
  match __ast_dsp_silence dsp shortdata len with
  | None => None
  | Some (silence, dsp) =>
    if negb (Z.land (features dsp) DSP_FEATURE_SILENCE_SUPPRESS =? 0)
       && negb (silence =? 0)
    then Some {| p_returned := RetHandle; p_dsp := dsp;
                 p_f := handle_frame AST_FRAME_NULL 0;
                 p_af := Some af; p_effects := [] |}
    else
      let busy :=
        if negb (Z.land (features dsp) DSP_FEATURE_BUSY_DETECT =? 0)
        then ast_dsp_busydetect dsp
        else Some (0, dsp) in
      match busy with
      | None => None
      | Some (busy, dsp) =>
        if negb (busy =? 0)
        then Some {| p_returned := RetHandle; p_dsp := dsp;
                     p_f := handle_frame AST_FRAME_CONTROL AST_CONTROL_BUSY;
                     p_af := Some af; p_effects := [] |}
        else
          let detected :=
            if negb (Z.land (features dsp) DSP_FEATURE_DTMF_DETECT =? 0) then
              match __ast_dsp_digitdetect tone_out2nd_6 dsp shortdata len 0 with
              | None => None
              | Some (digit, dsp, shortdata, writeback) =>
                let af := if subclass af =? AST_FORMAT_SLINEAR
                          then set_fdata af shortdata else af in
                match after_digitdetect chan needlock dsp
                        (FIX_INF writeback af shortdata len) digit with
                | None => None
                | Some (inl r) => Some (inl r)
                | Some (inr dsp) => Some (inr (dsp, af, shortdata, writeback))
                end
              end
            else Some (inr (dsp, af, shortdata, 0)) in
          match detected with
          | None => None
          | Some (inl r) => Some r
          | Some (inr (dsp, af, shortdata, writeback)) =>
            if negb (Z.land (features dsp) DSP_FEATURE_CALL_PROGRESS =? 0) then
              match progress_part junk chan needlock dsp shortdata len with
              | None => None
              | Some (dsp, f, effects) =>
                Some {| p_returned := RetGiven; p_dsp := dsp; p_f := f;
                        p_af := Some (FIX_INF writeback af shortdata len);
                        p_effects := effects |}
              end
            else
              Some {| p_returned := RetGiven; p_dsp := dsp; p_f := f;
                      p_af := Some (FIX_INF writeback af shortdata len);
                      p_effects := [] |}
          end
      end
  end.

(** [ast_dsp_process(chan, dsp, af, needlock)], on the handle [dsp] with
    its member [f].  [chan] says whether the channel is not NULL, [af] is
    NULL when [None]; [junk] is what the uninitialised variable of
    [__ast_dsp_call_progress] holds. *)
Definition ast_dsp_process (junk : Z) (chan : bool) (dsp : ast_dsp) (f : ast_frame)
    (af : option ast_frame) (needlock : Z) : option processed :=
  match af with
  | None =>
    Some {| p_returned := RetNull; p_dsp := dsp; p_f := f; p_af := None; p_effects := [] |}
  | Some af =>
    if negb (frametype af =? AST_FRAME_VOICE) then
      Some {| p_returned := RetGiven; p_dsp := dsp; p_f := f; p_af := Some af;
              p_effects := [] |}
    else
      match short_data af with
      | None =>
        Some {| p_returned := RetGiven; p_dsp := dsp; p_f := f; p_af := Some af;
                p_effects := [Warn (UnknownFormat (subclass af))] |}
      | Some (shortdata, len) => analyse junk chan needlock dsp f af shortdata len
      end
  end.

End Frames.

(** ** Frames through [ast_dsp_process] *)

Section ProcessFacts.

Context `{Headers} `{FrameHeaders}.

Variable tone_out2nd_6 : mf_detect_state_t -> goertzel_state_t.

(** What [ast_dsp_process] relies on: a well-formed handle whose count of
    call progress samples is inside a block. *)
Definition process_wf (dsp : ast_dsp) : Prop :=
  td_wf dsp /\ busy_wf dsp /\ 0 <= gsamps dsp < GSAMP_SIZE.

Lemma progress_samples_gsamps dsp l : gsamps (foldl progress_sample dsp l) = gsamps dsp.
Proof. revert dsp. induction l as [|a l IH]; intros dsp; simpl; [done|]. by rewrite IH. Qed.

Lemma progress_block_gsamps dsp newstate res : gsamps (progress_block dsp newstate res).2 = 0.
Proof.
  unfold progress_block.
  repeat match goal with |- context [if ?b then _ else _] => destruct b end; done.
Qed.

Lemma progress_loop_total fuel dsp s len newstate res :
  0 <= gsamps dsp < GSAMP_SIZE -> 0 <= len -> (Z.to_nat len < fuel)%nat ->
  exists res' dsp',
    progress_loop fuel dsp s len newstate res = Some (res', dsp') /\
    0 <= gsamps dsp' < GSAMP_SIZE.
Proof.
  revert dsp s len newstate res. induction fuel as [|fuel IH];
    intros dsp s len newstate res Hgs Hlen Hfuel; [lia|].
  simpl. destruct (Z.eqb_spec len 0) as [->|Hnz]; [by eexists _, _|].
  set (pass := if len >? GSAMP_SIZE - gsamps dsp then GSAMP_SIZE - gsamps dsp else len).
  assert (0 < pass <= len /\ gsamps dsp + pass <= GSAMP_SIZE) as (Hpass & Hroom).
  { subst pass. destruct (Z.gtb_spec len (GSAMP_SIZE - gsamps dsp)); lia. }
  rewrite progress_samples_gsamps.
  destruct (Z.eqb_spec (gsamps dsp + pass) GSAMP_SIZE) as [Efull|Epart].
  - match goal with |- context [progress_block ?d newstate res] =>
      pose proof (progress_block_gsamps d newstate res) as Hb;
      destruct (progress_block d newstate res) as [[newstate' res'] dsp1]
    end.
    simpl in Hb. apply IH; unfold GSAMP_SIZE in *; lia.
  - apply IH; simpl; rewrite ?progress_samples_gsamps; lia.
Qed.

Lemma call_progress_wf junk dsp s len :
  process_wf dsp -> 0 <= len ->
  exists res dsp', __ast_dsp_call_progress junk dsp s len = Some (res, dsp') /\ process_wf dsp'.
Proof.
  intros (Htd & Hbusy & Hgs) Hlen. unfold __ast_dsp_call_progress.
  destruct (progress_loop_total (S (Z.to_nat len)) dsp s len junk 0 Hgs Hlen)
    as (res & dsp' & E & Hgs'); [lia|].
  exists res, dsp'. split; [done|].
  pose proof (progress_loop_setup _ _ _ _ _ _ _ _ E) as Hsame.
  destruct (same_setup_wf dsp dsp' Hsame) as [Htd' Hbusy']; done.
Qed.

Lemma silence_wf dsp s len :
  process_wf dsp -> 0 < len ->
  exists res dsp',
    __ast_dsp_silence dsp s len = Some (res, dsp') /\ process_wf dsp' /\
    features dsp' = features dsp.
Proof.
  intros (Htd & Hbusy & Hgs) Hlen.
  assert (exists res dsp', __ast_dsp_silence dsp s len = Some (res, dsp') /\
                           gsamps dsp' = gsamps dsp /\ features dsp' = features dsp)
    as (res & dsp' & E & Eg & Ef).
  { unfold __ast_dsp_silence. destruct (Z.eqb_spec (Z.max len 0) 0); [lia|].
    destruct (_ <? threshold dsp); [destruct (totalnoise dsp =? 0)
                                   | destruct (totalsilence dsp =? 0)];
      eexists _, _; (split; [reflexivity|]); done. }
  exists res, dsp'. split; [done|]. split; [|done].
  destruct (silence_keeps_wf dsp s len res dsp') as [Htd' Hbusy']; try done.
  unfold process_wf. by rewrite Eg.
Qed.

Lemma busydetect_wf dsp :
  process_wf dsp ->
  exists res dsp',
    ast_dsp_busydetect dsp = Some (res, dsp') /\ process_wf dsp' /\
    features dsp' = features dsp.
Proof.
  intros (Htd & Hbusy & Hgs).
  assert (exists res dsp', ast_dsp_busydetect dsp = Some (res, dsp') /\
                           gsamps dsp' = gsamps dsp /\ features dsp' = features dsp)
    as (res & dsp' & E & Eg & Ef).
  { destruct (Z.eq_dec (busymaybe dsp) 0) as [Hz|Hnz].
    - exists 0, dsp. unfold ast_dsp_busydetect. by rewrite Hz.
    - destruct (busydetect_verdict dsp Hbusy Hnz) as (res & dsp' & E & -> & _).
      by exists res, (set_silence dsp (totalsilence dsp) (totalnoise dsp) 0
                                 (historicnoise dsp) (historicsilence dsp)). }
  exists res, dsp'. split; [done|]. split; [|done].
  destruct (busydetect_keeps_wf dsp res dsp') as [Htd' Hbusy']; try done.
  unfold process_wf. by rewrite Eg.
Qed.

Lemma digitdetect_wf dsp s len writeback :
  process_wf dsp ->
  exists res dsp' s' writeback',
    __ast_dsp_digitdetect tone_out2nd_6 dsp s len writeback = Some (res, dsp', s', writeback')
    /\ process_wf dsp' /\ features dsp' = features dsp.
Proof.
  intros (Htd & Hbusy & Hgs).
  assert (exists res dsp' s' writeback',
            __ast_dsp_digitdetect tone_out2nd_6 dsp s len writeback
            = Some (res, dsp', s', writeback') /\
            gsamps dsp' = gsamps dsp /\ features dsp' = features dsp)
    as (res & dsp' & s' & wb' & E & Eg & Ef).
  { unfold __ast_dsp_digitdetect, td_wf in *.
    destruct (td dsp) as [s0|s0] eqn:Etd; destruct Htd as [Hmode Hs0].
    - rewrite Hmode. simpl.
      destruct (dtmf_detect_kept s0 s len (Z.land (digitmode dsp) DSP_DIGITMODE_RELAXDTMF)
                  writeback Hs0) as (r & s1 & a1 & w1 & -> & _).
      by eexists _, _, _, _.
    - destruct (Z.eqb_spec (Z.land (digitmode dsp) DSP_DIGITMODE_MF) 0) as [|Hm]; [done|].
      simpl.
      destruct (mf_detect_kept tone_out2nd_6 s0 s len
                  (Z.land (digitmode dsp) DSP_DIGITMODE_RELAXDTMF) writeback Hs0)
        as (r & s1 & a1 & w1 & -> & _).
      by eexists _, _, _, _. }
  exists res, dsp', s', wb'. split; [done|]. split; [|done].
  destruct (digitdetect_keeps_wf tone_out2nd_6 dsp s len writeback res dsp' s' wb')
    as [Htd' Hbusy']; try done.
  unfold process_wf. by rewrite Eg.
Qed.

(** The queue as a list with its head: the first byte of the array and
    the digits after it. *)
Lemma queue_head digits current_digits d q :
  queue digits current_digits = d :: q ->
  0 < current_digits /\ digits !! O = Some d /\
  q = take (Z.to_nat (current_digits - 1)) (drop 1 digits).
Proof.
  unfold queue. destruct digits as [|d0 digits]; [by rewrite take_nil|].
  destruct (Z.to_nat current_digits) as [|n] eqn:En; [done|]. simpl.
  intros [= -> <-]. rewrite drop_0. split; [lia|]. split; [done|]. f_equal. lia.
Qed.

(** X16. The step of [ast_dsp_process] that delivers a queued digit takes
    the oldest one: on a well-formed handle with the digits [d :: q]
    queued it yields [d] and leaves [q] queued, in order, and on an empty
    queue it yields nothing.  Nothing else in the handle changes. *)
Theorem pop_digit_takes_oldest dsp :
  td_wf dsp ->
  (dsp_queue dsp = [] -> pop_digit dsp = Some None) /\
  (forall d q,
     dsp_queue dsp = d :: q ->
     exists dsp',
       pop_digit dsp = Some (Some (d, dsp')) /\
       dsp_queue dsp' = q /\ td_wf dsp' /\
       digit_counters dsp' = digit_counters dsp /\
       hit_history dsp' = hit_history dsp /\
       set_td dsp' (td dsp) = dsp).
Proof.
  unfold td_wf, dsp_queue, pop_digit, digit_counters, hit_history.
  destruct (td dsp) as [s|s] eqn:Etd; intros [Hmode (Hl & Hc & Hs)].
  - rewrite Hmode. simpl. unfold MAX_DTMF_DIGITS in *. split.
    + unfold queue. intros Hq. apply (f_equal length) in Hq. rewrite length_take in Hq.
      simpl in Hq. destruct (Z.eqb_spec (current_digits s) 0); [done | lia].
    + intros d q Hq. apply queue_head in Hq as (Hpos & Hd & ->).
      destruct (Z.eqb_spec (current_digits s) 0); [lia|]. simpl.
      unfold int_at. change (0 <? 0) with false. cbv iota. change (Z.to_nat 0) with O.
      rewrite Hd.
      rewrite copy_bytes_ok by lia. rewrite to_int_small by lia.
      eexists. split; [reflexivity|]. simpl. split_and!; try done.
      * unfold queue. rewrite take_app_le.
        2:{ rewrite length_take, length_drop, Hl. change (Z.to_nat (128 + 1)) with 129%nat.
            change (Z.to_nat 1) with 1%nat. lia. }
        rewrite take_take. f_equal. apply Nat.min_l. lia.
      * apply dtmf_wf_queue; [done| |unfold MAX_DTMF_DIGITS; lia].
        rewrite length_app, length_take, !length_drop. lia.
      * rewrite <- Etd. by destruct dsp.
  - destruct (Z.eqb_spec (Z.land (digitmode dsp) DSP_DIGITMODE_MF) 0) as [|_]; [done|].
    simpl. unfold MAX_DTMF_DIGITS in *. split.
    + unfold queue. intros Hq. apply (f_equal length) in Hq. rewrite length_take in Hq.
      simpl in Hq. destruct (Z.eqb_spec (mf_current_digits s) 0); [done | lia].
    + intros d q Hq. apply queue_head in Hq as (Hpos & Hd & ->).
      destruct (Z.eqb_spec (mf_current_digits s) 0); [lia|]. simpl.
      unfold int_at. change (0 <? 0) with false. cbv iota. change (Z.to_nat 0) with O.
      rewrite Hd.
      rewrite copy_bytes_ok by lia. rewrite to_int_small by lia.
      eexists. split; [reflexivity|]. simpl. split_and!; try done.
      * unfold queue. rewrite take_app_le.
        2:{ rewrite length_take, length_drop, Hl. change (Z.to_nat (128 + 1)) with 129%nat.
            change (Z.to_nat 1) with 1%nat. lia. }
        rewrite take_take. f_equal. apply Nat.min_l. lia.
      * apply mf_wf_queue; [done| |unfold MAX_DTMF_DIGITS; lia].
        rewrite length_app, length_take, !length_drop. lia.
      * rewrite <- Etd. by destruct dsp.
Qed.

(** Taking a digit off the queue of a well-formed handle goes through and
    changes the detector only. *)
Lemma pop_digit_wf dsp :
  td_wf dsp ->
  exists r,
    pop_digit dsp = Some r /\
    match r with
    | None => True
    | Some (d, dsp') => td_wf dsp' /\ set_td dsp' (td dsp) = dsp
    end.
Proof.
  unfold td_wf, pop_digit.
  destruct (td dsp) as [s|s] eqn:Etd; intros [Hmode (Hl & Hc & Hs)].
  - rewrite Hmode. simpl. unfold MAX_DTMF_DIGITS in *.
    destruct (Z.eqb_spec (current_digits s) 0); simpl; [by eexists|].
    destruct (lookup_lt_is_Some_2 (digits s) O) as [d0 Hd];
      [rewrite Hl; change (Z.to_nat (128 + 1)) with 129%nat; lia|].
    unfold int_at. change (0 <? 0) with false. cbv iota. change (Z.to_nat 0) with O.
    rewrite Hd.
    rewrite copy_bytes_ok by lia. rewrite to_int_small by lia.
    eexists. split; [reflexivity|]. simpl. split; [split; [done|]|].
    + apply dtmf_wf_queue; [done| |unfold MAX_DTMF_DIGITS; lia].
      rewrite length_app, length_take, !length_drop. lia.
    + rewrite <- Etd. by destruct dsp.
  - destruct (Z.eqb_spec (Z.land (digitmode dsp) DSP_DIGITMODE_MF) 0) as [|_]; [done|].
    simpl. unfold MAX_DTMF_DIGITS in *.
    destruct (Z.eqb_spec (mf_current_digits s) 0); simpl; [by eexists|].
    destruct (lookup_lt_is_Some_2 (mf_digits s) O) as [d0 Hd];
      [rewrite Hl; change (Z.to_nat (128 + 1)) with 129%nat; lia|].
    unfold int_at. change (0 <? 0) with false. cbv iota. change (Z.to_nat 0) with O.
    rewrite Hd.
    rewrite copy_bytes_ok by lia. rewrite to_int_small by lia.
    eexists. split; [reflexivity|]. simpl. split; [split; [|]|].
    + by destruct (Z.eqb_spec (Z.land (digitmode dsp) DSP_DIGITMODE_MF) 0).
    + apply mf_wf_queue; [done| |unfold MAX_DTMF_DIGITS; lia].
      rewrite length_app, length_take, !length_drop. lia.
    + rewrite <- Etd. by destruct dsp.
Qed.

Lemma thinkdigit_wf dsp v : process_wf dsp -> process_wf (set_thinkdigit dsp v).
Proof. done. Qed.

Lemma after_digitdetect_wf chan needlock dsp af digit :
  process_wf dsp ->
  exists x,
    after_digitdetect chan needlock dsp af digit = Some x /\
    match x with
    | inl r => process_wf (p_dsp r) /\ p_returned r = RetHandle
    | inr dsp' => process_wf dsp' /\ features dsp' = features dsp
    end.
Proof.
  intros Hwf. unfold after_digitdetect.
  destruct (negb (Z.land (digitmode dsp) _ =? 0)).
  - destruct (thinkdigit dsp =? 0), (negb (digit =? 0)); eexists; (split; [reflexivity|]);
      simpl; split; try done; by apply thinkdigit_wf.
  - destruct (digit =? 0); [|by eexists; split; [reflexivity|]].
    pose proof Hwf as (Htd & Hbusy & Hgs).
    destruct (pop_digit_wf dsp Htd) as ([[d dsp']|] & -> & Hr).
    + destruct Hr as [Htd' Eset].
      eexists; split; [reflexivity|]. simpl. split; [|done].
      rewrite <- Eset in Hbusy, Hgs. simpl in Hbusy, Hgs. done.
    + by eexists; split; [reflexivity|].
Qed.

Lemma progress_part_wf junk chan needlock dsp shortdata len :
  process_wf dsp -> 0 <= len ->
  exists dsp' f effects,
    progress_part junk chan needlock dsp shortdata len = Some (dsp', f, effects) /\
    process_wf dsp'.
Proof.
  intros Hwf Hlen. unfold progress_part.
  destruct (call_progress_wf junk dsp shortdata len Hwf Hlen) as (res & dsp' & -> & Hwf').
  destruct (negb (res =? 0)); [destruct (_ || _)|]; by eexists _, _, _.
Qed.

(** Effects that leave the frame given with its owner: warnings, and
    control frames put on the channel's queue. *)
Definition keeps_frame (e : frame_effect) : Prop :=
  match e with
  | Warn _ => True
  | QueueFrame fr _ => frametype fr = AST_FRAME_CONTROL /\ fdata fr = []
  | FrFree => False
  end.

Lemma fix_inf_0 af shortdata len : FIX_INF 0 af shortdata len = af.
Proof. done. Qed.

Lemma analyse_outcome junk chan needlock dsp f af shortdata len :
  process_wf dsp -> 0 < len ->
  exists r,
    analyse tone_out2nd_6 junk chan needlock dsp f af shortdata len = Some r /\
    process_wf (p_dsp r) /\
    p_returned r <> RetNull /\
    (Z.land (features dsp) DSP_FEATURE_DTMF_DETECT = 0 ->
     p_af r = Some af /\ Forall keeps_frame (p_effects r)).
Proof.
  intros Hwf Hpos. unfold analyse.
  destruct (silence_wf dsp shortdata len Hwf Hpos) as (sil & dsp1 & -> & Hwf1 & Ef1).
  destruct (_ && _); [by eexists; split; [reflexivity|]|].
  assert (exists b dsp2,
            (if negb (Z.land (features dsp1) DSP_FEATURE_BUSY_DETECT =? 0)
             then ast_dsp_busydetect dsp1 else Some (0, dsp1)) = Some (b, dsp2) /\
            process_wf dsp2 /\ features dsp2 = features dsp) as (b & dsp2 & -> & Hwf2 & Ef2).
  { destruct (negb _); [|by eexists _, _].
    destruct (busydetect_wf dsp1 Hwf1) as (b & dsp2 & -> & Hwf2 & Ef2).
    eexists _, _. split; [done|]. split; [done|]. congruence. }
  cbv beta iota zeta. destruct (negb (b =? 0)); [by eexists; split; [reflexivity|]|].
  rewrite Ef2.
  destruct (Z.eqb_spec (Z.land (features dsp) DSP_FEATURE_DTMF_DETECT) 0) as [Hoff|Hon];
    cbn [negb].
  - destruct (negb (Z.land (features dsp2) DSP_FEATURE_CALL_PROGRESS =? 0)).
    + destruct (progress_part_wf junk chan needlock dsp2 shortdata len Hwf2 ltac:(lia))
        as (dsp5 & f5 & e5 & E & Hwf5).
      rewrite E. eexists; split; [reflexivity|]. simpl. split; [done|]. split; [done|].
      intros _. split; [done|].
      revert E. unfold progress_part. destruct (__ast_dsp_call_progress _ _ _ _) as [[res d]|];
        [|done].
      destruct (negb (res =? 0)); [destruct (_ || _)|]; intros [= <- <- <-];
        [destruct chan| |]; repeat constructor.
    + eexists; split; [reflexivity|]. simpl. split; [done|]. split; [done|]. done.
  - destruct (digitdetect_wf dsp2 shortdata len 0 Hwf2)
      as (digit & dsp3 & sd3 & wb3 & -> & Hwf3 & _).
    destruct (after_digitdetect_wf chan needlock dsp3
                (FIX_INF wb3 (if subclass af =? AST_FORMAT_SLINEAR
                              then set_fdata af sd3 else af) sd3 len) digit Hwf3)
      as ([r|dsp4] & -> & Hx).
    + destruct Hx as [Hwf4 Hret]. exists r. split; [done|]. split; [done|].
      rewrite Hret. split; done.
    + destruct Hx as [Hwf4 _].
      destruct (negb (Z.land (features dsp4) DSP_FEATURE_CALL_PROGRESS =? 0)).
      * destruct (progress_part_wf junk chan needlock dsp4 sd3 len Hwf4 ltac:(lia))
          as (dsp5 & f5 & e5 & -> & Hwf5).
        eexists; split; [reflexivity|]. simpl. split; [done|]. split; done.
      * eexists; split; [reflexivity|]. simpl. split; [done|]. split; done.
Qed.

(** The samples of a frame, as [ast_dsp_process] counts them. *)
Definition sample_count (af : ast_frame) : Z :=
  if subclass af =? AST_FORMAT_SLINEAR then Z.quot (datalen af) 2 else datalen af.

Lemma short_data_count af shortdata len :
  short_data af = Some (shortdata, len) -> len = sample_count af.
Proof.
  unfold short_data, sample_count.
  destruct (subclass af =? AST_FORMAT_SLINEAR); [by intros [= <- <-]|].
  destruct (subclass af =? AST_FORMAT_ULAW); [by intros [= <- <-]|].
  destruct (subclass af =? AST_FORMAT_ALAW); [by intros [= <- <-]|done].
Qed.

(** X17. On a well-formed handle [ast_dsp_process] returns for every
    frame but a voice frame that holds no sample (the mean of its samples
    would divide by zero): NULL for NULL, the frame itself or the frame
    inside the handle otherwise.  It leaves the handle well formed, so the
    next frame is processed as safely. *)
Theorem process_returns junk chan dsp f af needlock :
  process_wf dsp ->
  (forall frame, af = Some frame -> frametype frame = AST_FRAME_VOICE ->
                 0 < sample_count frame) ->
  exists r,
    ast_dsp_process tone_out2nd_6 junk chan dsp f af needlock = Some r /\
    process_wf (p_dsp r) /\
    (p_returned r = RetNull <-> af = None).
Proof.
  intros Hwf Hlen. unfold ast_dsp_process.
  destruct af as [af|]; [|by eexists; split; [reflexivity|]].
  specialize (Hlen af eq_refl).
  destruct (Z.eqb_spec (frametype af) AST_FRAME_VOICE) as [Hvoice|_]; simpl.
  2:{ eexists; split; [reflexivity|]. simpl. split; [done|]. split; done. }
  specialize (Hlen Hvoice).
  destruct (short_data af) as [[shortdata len]|] eqn:Es.
  - apply short_data_count in Es. subst len.
    destruct (analyse_outcome junk chan needlock dsp f af shortdata (sample_count af) Hwf Hlen)
      as (r & E & Hwf' & Hret & _).
    exists r. split; [done|]. split; [done|]. split; done.
  - eexists; split; [reflexivity|]. simpl. split; [done|]. split; done.
Qed.

(** X18. With [DSP_FEATURE_DTMF_DETECT] off, [ast_dsp_process] leaves
    the frame it is given to the caller as it was: no sample is written,
    the frame is not released and not put on the channel's queue.  What it
    queues are control frames of its own. *)
Theorem process_without_dtmf_keeps_frame junk chan dsp f af needlock :
  process_wf dsp ->
  (frametype af = AST_FRAME_VOICE -> 0 < sample_count af) ->
  Z.land (features dsp) DSP_FEATURE_DTMF_DETECT = 0 ->
  exists r,
    ast_dsp_process tone_out2nd_6 junk chan dsp f (Some af) needlock = Some r /\
    p_af r = Some af /\
    Forall keeps_frame (p_effects r).
Proof.
  intros Hwf Hlen Hoff. unfold ast_dsp_process.
  destruct (Z.eqb_spec (frametype af) AST_FRAME_VOICE) as [Hvoice|_]; simpl.
  2:{ eexists; split; [reflexivity|]. simpl. split; [done|]. constructor. }
  specialize (Hlen Hvoice).
  destruct (short_data af) as [[shortdata len]|] eqn:Es.
  - apply short_data_count in Es. subst len.
    destruct (analyse_outcome junk chan needlock dsp f af shortdata (sample_count af) Hwf Hlen)
      as (r & E & _ & _ & Hkeep).
    exists r. split; [done|]. by apply Hkeep.
  - eexists; split; [reflexivity|]. simpl. split; [done|]. by repeat constructor.
Qed.

End ProcessFacts.

(** ** Silence suppression and frames that cannot be analysed *)

(** Samples of a [short] array that all lie below [limit] in magnitude. *)
Definition quiet (limit : Z) (s : list Z) : Prop :=
  Forall (fun sx => Z.abs sx < limit /\ Z.abs sx <= 32768) s.

Section SuppressFacts.

Context `{Headers} `{FrameHeaders}.

Variable tone_out2nd_6 : mf_detect_state_t -> goertzel_state_t.

Lemma quiet_accum limit s : forall accum,
  quiet limit s -> 0 < limit -> 0 <= accum ->
  accum + 32768 * Z.of_nat (length s) < 2 ^ 31 ->
  0 <= foldl (fun accum sx => CInt.to_int (accum + Z.abs sx)) accum s
    <= accum + (limit - 1) * Z.of_nat (length s).
Proof.
  induction s as [|sx s IH]; intros accum Hq Hl Ha Hb; simpl in *; [lia|].
  apply List.Forall_cons_iff in Hq as [[Hx Hs] Hq].
  rewrite to_int_small by lia.
  specialize (IH (accum + Z.abs sx) Hq Hl ltac:(lia) ltac:(lia)). nia.
Qed.

Lemma quiet_mean limit s len :
  quiet limit (take (Z.to_nat len) s) -> 0 < limit -> 0 < len <= 65535 ->
  Z.quot (foldl (fun accum sx => CInt.to_int (accum + Z.abs sx)) 0 (take (Z.to_nat len) s))
         (Z.max len 0) < limit.
Proof.
  intros Hq Hl Hlen.
  assert (Z.of_nat (length (take (Z.to_nat len) s)) <= len) as Hn.
  { rewrite length_take. lia. }
  pose proof (quiet_accum limit _ 0 Hq Hl ltac:(lia) ltac:(lia)) as Ha.
  rewrite Z.max_l by lia.
  apply Z.quot_lt_upper_bound; nia.
Qed.

(** X19. A voice frame whose samples all lie below the threshold of the
    handle in magnitude is swallowed when silence suppression is on:
    [ast_dsp_process] returns the frame inside the handle, of type
    [AST_FRAME_NULL], counts the samples as silence and shows the frame
    to no detector; the frame given is neither changed nor released. *)
Theorem quiet_frame_is_suppressed junk chan dsp f af needlock shortdata len :
  frametype af = AST_FRAME_VOICE ->
  short_data af = Some (shortdata, len) ->
  0 < len <= 65535 ->
  0 < threshold dsp ->
  quiet (threshold dsp) (take (Z.to_nat len) shortdata) ->
  Z.land (features dsp) DSP_FEATURE_SILENCE_SUPPRESS <> 0 ->
  exists dsp',
    ast_dsp_process tone_out2nd_6 junk chan dsp f (Some af) needlock =
      Some {| p_returned := RetHandle; p_dsp := dsp';
              p_f := handle_frame AST_FRAME_NULL 0;
              p_af := Some af; p_effects := [] |} /\
    totalsilence dsp' = CInt.to_int (totalsilence dsp + Z.quot len 8) /\
    totalnoise dsp' = 0 /\
    td dsp' = td dsp /\ thinkdigit dsp' = thinkdigit dsp /\
    freqs dsp' = freqs dsp /\ gsamps dsp' = gsamps dsp /\
    tstate dsp' = tstate dsp /\ tcount dsp' = tcount dsp.
Proof.
  intros Hvoice Hshort Hlen Hthr Hq Hon.
  unfold ast_dsp_process. rewrite Hvoice, Z.eqb_refl, Hshort. cbn [negb].
  unfold analyse, __ast_dsp_silence. cbv zeta.
  pose proof (quiet_mean _ _ _ Hq Hthr Hlen) as Hmean.
  destruct (Z.eqb_spec (Z.max len 0) 0); [lia|].
  destruct (Z.ltb_spec
              (Z.quot (foldl (fun accum sx => CInt.to_int (accum + Z.abs sx)) 0
                             (take (Z.to_nat len) shortdata)) (Z.max len 0))
              (threshold dsp)); [|lia].
  destruct (totalnoise dsp =? 0); cbn [features set_silence];
    (destruct (Z.eqb_spec (Z.land (features dsp) DSP_FEATURE_SILENCE_SUPPRESS) 0); [done|]);
    cbn [negb andb Z.eqb]; eexists; (split; [reflexivity|]); done.
Qed.

(** X20. Frames that cannot be analysed leave the handle as it is.
    [ast_dsp_process] returns NULL for NULL and gives a frame that is not
    a voice frame, or a voice frame in a format other than signed linear,
    mu-law and A-law, back unchanged (the latter with a warning).
    [ast_dsp_silence], [ast_dsp_call_progress] and [ast_dsp_digitdetect]
    return 0 with a warning for every frame that is not a signed linear
    voice frame, mu-law and A-law frames included. *)
Theorem unanalysed_frames_leave_handle junk chan dsp f needlock :
  ast_dsp_process tone_out2nd_6 junk chan dsp f None needlock =
    Some {| p_returned := RetNull; p_dsp := dsp; p_f := f; p_af := None;
            p_effects := [] |} /\
  (forall af,
     frametype af <> AST_FRAME_VOICE \/ short_data af = None ->
     exists warnings,
       ast_dsp_process tone_out2nd_6 junk chan dsp f (Some af) needlock =
         Some {| p_returned := RetGiven; p_dsp := dsp; p_f := f; p_af := Some af;
                 p_effects := map Warn warnings |} /\
       (frametype af <> AST_FRAME_VOICE -> warnings = [])) /\
  (forall inf,
     frametype inf <> AST_FRAME_VOICE \/ subclass inf <> AST_FORMAT_SLINEAR ->
     exists w,
       ast_dsp_silence dsp inf = Some (0, dsp, [w]) /\
       ast_dsp_call_progress junk dsp inf = Some (0, dsp, [w]) /\
       ast_dsp_digitdetect tone_out2nd_6 dsp inf = Some (0, dsp, inf, [w])).
Proof.
  split; [done|]. split.
  - intros af Hbad. unfold ast_dsp_process.
    destruct (Z.eqb_spec (frametype af) AST_FRAME_VOICE) as [Hvoice|Hother]; cbn [negb].
    + destruct Hbad as [Hbad|Hbad]; [done|]. rewrite Hbad.
      by exists [UnknownFormat (subclass af)].
    + by exists [].
  - intros inf Hbad. unfold ast_dsp_silence, ast_dsp_call_progress, ast_dsp_digitdetect.
    destruct (Z.eqb_spec (frametype inf) AST_FRAME_VOICE) as [Hvoice|Hother]; cbn [negb].
    + destruct (Z.eqb_spec (subclass inf) AST_FORMAT_SLINEAR) as [Hlin|Hnot]; cbn [negb].
      * by destruct Hbad.
      * by exists NotSignedLinear.
    + by exists NonVoiceFrame.
Qed.

End SuppressFacts.

(** ** Further scenarios *)

(** A choice of values for the macros of asterisk/frame.h, with linear
    stand-ins for the companding tables. *)
Definition scenario_frames : FrameHeaders := {|
  AST_FRAME_DTMF := 1;
  AST_FRAME_VOICE := 2;
  AST_FRAME_NULL := 5;
  AST_FRAME_CONTROL := 4;
  AST_FORMAT_ULAW := 4;
  AST_FORMAT_ALAW := 8;
  AST_FORMAT_SLINEAR := 64;
  AST_MULAW := fun x => (x - 128) * 256;
  AST_ALAW := fun x => (x - 128) * 256;
  AST_LIN2MU := fun x => Z.quot x 256 + 128;
  AST_LIN2A := fun x => Z.quot x 256 + 128
|}.

(** The second harmonic the MF detector reads past its array. *)
Definition scenario_tone (s : mf_detect_state_t) : goertzel_state_t :=
  goertzel_init scenario_coefficient 0.

(** Readings of one member of the union [td] as the other. *)
Definition scenario_dtmf_as_mf (s : dtmf_detect_state_t) : mf_detect_state_t :=
  {| mf_hit1 := hit1 s; mf_hit2 := hit2 s; mf_hit3 := hit3 s; mf_hit4 := hit4 s;
     mf_mhit := mhit s;
     tone_out := row_out s ++ take 2 (col_out s);
     tone_out2nd := drop 2 (col_out s) ++ row_out2nd s;
     mf_energy := energy s; mf_current_sample := current_sample s;
     mf_digits := digits s; mf_current_digits := current_digits s;
     mf_detected_digits := detected_digits s; mf_lost_digits := lost_digits s;
     mf_fax_hits := fax_hits s |}.

Definition scenario_mf_as_dtmf (s : mf_detect_state_t) : dtmf_detect_state_t :=
  {| hit1 := mf_hit1 s; hit2 := mf_hit2 s; hit3 := mf_hit3 s; hit4 := mf_hit4 s;
     mhit := mf_mhit s;
     row_out := take 4 (tone_out s);
     col_out := drop 4 (tone_out s) ++ take 2 (tone_out2nd s);
     row_out2nd := drop 2 (tone_out2nd s);
     col_out2nd := replicate 4 (goertzel_init scenario_coefficient 0);
     fax_tone := goertzel_init scenario_coefficient 0;
     fax_tone2nd := goertzel_init scenario_coefficient 0;
     energy := mf_energy s; current_sample := mf_current_sample s;
     digits := mf_digits s; current_digits := mf_current_digits s;
     detected_digits := mf_detected_digits s; lost_digits := mf_lost_digits s;
     digit_hits := replicate 16 0; fax_hits := mf_fax_hits s |}.

(** A new handle with DTMF detection switched on. *)
Definition dsp_dtmf : ast_dsp :=
  ast_dsp_set_features dsp_new (@DSP_FEATURE_DTMF_DETECT scenario_headers).

(** A signed linear voice frame that holds [samples]. *)
Definition voice_frame (samples : list Z) : ast_frame :=
  {| frametype := @AST_FRAME_VOICE scenario_frames;
     subclass := @AST_FORMAT_SLINEAR scenario_frames;
     datalen := 2 * Z.of_nat (length samples);
     fdata := samples |}.


Lemma digitreset_empties_queue_witness :
  @td_wf scenario_headers dsp_two_digits /\
  dsp_queue dsp_two_digits = [49; 50] /\
  dsp_queue (@ast_dsp_digitreset scenario_headers scenario_dtmf_as_mf scenario_mf_as_dtmf
               dsp_two_digits) = [].
Proof.
  assert (@td_wf scenario_headers dsp_two_digits) as Hwf.
  { vm_compute. repeat split; discriminate. }
  split; [exact Hwf|]. split; [vm_compute; reflexivity|].
  exact (proj1 (proj2 (@digitreset_empties_queue scenario_headers scenario_dtmf_as_mf
                         scenario_mf_as_dtmf dsp_two_digits Hwf))).
Defined.

Lemma silence_is_no_tone_witness :
  progress_quiet dsp_progress /\
  exists dsp',
    @__ast_dsp_call_progress scenario_headers 0 dsp_progress (replicate 200 0) 200
      = Some (0, dsp') /\
    tstate dsp' = TONE_STATE_SILENCE.
Proof.
  assert (progress_quiet dsp_progress) as Hq.
  { vm_compute. repeat split; try discriminate; repeat constructor. }
  split; [exact Hq|].
  destruct (@silence_is_no_tone scenario_headers 0 dsp_progress (replicate 200 0) 200 Hq)
    as (dsp' & E & _ & _ & Hsil & _).
  - apply Forall_replicate. reflexivity.
  - lia.
  - exists dsp'. split; [exact E|]. apply Hsil. vm_compute. discriminate.
Defined.

Lemma silence_is_no_digit_witness :
  dtmf_wf (ast_dtmf_detect_init scenario_coefficient zeroed_dtmf) /\
  exists s',
    @dtmf_detect scenario_headers (ast_dtmf_detect_init scenario_coefficient zeroed_dtmf)
      (replicate 204 0) 204 0 0 = Some (0, s', replicate 204 0, 0) /\
    hit3 s' = 0.
Proof.
  assert (dtmf_wf (ast_dtmf_detect_init scenario_coefficient zeroed_dtmf)) as Hwf.
  { vm_compute. repeat split; discriminate. }
  split; [exact Hwf|].
  destruct (@silence_is_no_digit scenario_headers
              (ast_dtmf_detect_init scenario_coefficient zeroed_dtmf)
              (replicate 204 0) 204 0 0 Hwf)
    as (s' & E & _ & _ & _ & _ & Hhit).
  - vm_compute. repeat split; try discriminate; repeat constructor.
  - apply Forall_replicate. reflexivity.
  - exists s'. split; [exact E|]. apply Hhit. vm_compute. discriminate.
Defined.

Lemma dtmf_reports_known_digits_witness :
  dtmf_wf dtmf_full /\
  exists res s' amp' writeback',
    @dtmf_detect scenario_headers dtmf_full digit_5 306 0 0
      = Some (res, s', amp', writeback') /\
    (res = 0 \/ known res).
Proof.
  assert (dtmf_wf dtmf_full) as Hwf.
  { vm_compute. repeat split; discriminate. }
  split; [exact Hwf|].
  destruct (@dtmf_reports_known_digits scenario_headers dtmf_full digit_5 306 0 0 Hwf)
    as (res & s' & amp' & writeback' & E & Hres & _).
  - apply List.Forall_forall. intros d Hd. vm_compute in Hd. vm_compute.
    repeat (destruct Hd as [<-|Hd]; [tauto|]). destruct Hd.
  - exists res, s', amp', writeback'. split; [exact E|exact Hres].
Defined.

Lemma pop_digit_takes_oldest_witness :
  @td_wf scenario_headers dsp_two_digits /\
  exists dsp',
    @pop_digit scenario_headers dsp_two_digits = Some (Some (49, dsp')) /\
    dsp_queue dsp' = [50].
Proof.
  assert (@td_wf scenario_headers dsp_two_digits) as Hwf.
  { vm_compute. repeat split; discriminate. }
  split; [exact Hwf|].
  destruct (proj2 (@pop_digit_takes_oldest scenario_headers dsp_two_digits Hwf) 49 [50])
    as (dsp' & E & Hq & _).
  - vm_compute. reflexivity.
  - exists dsp'. split; [exact E|exact Hq].
Defined.

Lemma process_returns_witness :
  @process_wf scenario_headers dsp_dtmf /\
  0 < @sample_count scenario_frames (voice_frame [1000; -2000; 3000; -4000]) /\
  exists r,
    @ast_dsp_process scenario_headers scenario_frames scenario_tone 0 true dsp_dtmf
      zero_frame (Some (voice_frame [1000; -2000; 3000; -4000])) 0 = Some r /\
    @process_wf scenario_headers (p_dsp r).
Proof.
  assert (@process_wf scenario_headers dsp_dtmf) as Hwf.
  { vm_compute. repeat split; discriminate. }
  split; [exact Hwf|]. split; [vm_compute; reflexivity|].
  destruct (@process_returns scenario_headers scenario_frames scenario_tone 0 true dsp_dtmf
              zero_frame (Some (voice_frame [1000; -2000; 3000; -4000])) 0 Hwf)
    as (r & E & Hwf' & _).
  - intros frame [= <-] _. vm_compute. reflexivity.
  - exists r. split; [exact E|exact Hwf'].
Defined.

Lemma process_without_dtmf_keeps_frame_witness :
  @process_wf scenario_headers dsp_progress /\
  Z.land (features dsp_progress) (@DSP_FEATURE_DTMF_DETECT scenario_headers) = 0 /\
  exists r,
    @ast_dsp_process scenario_headers scenario_frames scenario_tone 0 true dsp_progress
      zero_frame (Some (voice_frame (take 160 busy_tone))) 0 = Some r /\
    p_af r = Some (voice_frame (take 160 busy_tone)).
Proof.
  assert (@process_wf scenario_headers dsp_progress) as Hwf.
  { vm_compute. repeat split; discriminate. }
  split; [exact Hwf|]. split; [vm_compute; reflexivity|].
  destruct (@process_without_dtmf_keeps_frame scenario_headers scenario_frames
              scenario_tone 0 true dsp_progress zero_frame
              (voice_frame (take 160 busy_tone)) 0 Hwf)
    as (r & E & Haf & _).
  - intros _. vm_compute. reflexivity.
  - vm_compute. reflexivity.
  - exists r. split; [exact E|exact Haf].
Defined.

Lemma quiet_frame_is_suppressed_witness :
  quiet (threshold dsp_new) [3; -5; 10; 0] /\
  exists dsp',
    @ast_dsp_process scenario_headers scenario_frames scenario_tone 0 true dsp_new
      zero_frame (Some (voice_frame [3; -5; 10; 0])) 0
    = Some {| p_returned := RetHandle; p_dsp := dsp';
              p_f := handle_frame (@AST_FRAME_NULL scenario_frames) 0;
              p_af := Some (voice_frame [3; -5; 10; 0]); p_effects := [] |} /\
    td dsp' = td dsp_new.
Proof.
  assert (quiet (threshold dsp_new) [3; -5; 10; 0]) as Hq.
  { repeat (apply List.Forall_cons; [vm_compute; split; [reflexivity|discriminate]|]).
    apply List.Forall_nil. }
  split; [exact Hq|].
  destruct (@quiet_frame_is_suppressed scenario_headers scenario_frames scenario_tone 0 true
              dsp_new zero_frame (voice_frame [3; -5; 10; 0]) 0 [3; -5; 10; 0] 4)
    as (dsp' & E & _ & _ & Htd & _).
  - reflexivity.
  - vm_compute. reflexivity.
  - lia.
  - vm_compute. reflexivity.
  - exact Hq.
  - vm_compute. discriminate.
  - exists dsp'. split; [exact E|exact Htd].
Defined.
End Dsp.

(** * Channel events of the manager interface *)

(** The second half of [main/framehook.c]: the monitors that turn an
    update of a channel snapshot into manager events. *)

From stdpp Require Import strings pretty.

Module ManagerChannels.

Local Open Scope Z_scope.

(** The line end of the manager protocol. *)
Definition CRLF : string := String "013" (String "010" EmptyString).

(** [struct ast_channel_snapshot], the fields the monitors read.  The string
    fields are never NULL; [manager_vars] is NULL when [None]. *)
Record ast_channel_snapshot := {
  name : string;
  state : Z;
  caller_number : string;
  caller_name : string;
  connected_number : string;
  connected_name : string;
  accountcode : string;
  context : string;
  exten : string;
  priority : Z;
  uniqueid : string;
  appl : string;
  data : string;
  flags : Z;
  hangupcause : Z;
  caller_pres : Z;
  manager_vars : option (list (string * string))
}.

(** [struct snapshot_manager_event] *)
Record snapshot_manager_event := {
  event_flags : Z;
  manager_event : string;
  extra_fields : string
}.

(** One call [manager_event(category, event, "%s%s", ...)] with the text
    its format expands to. *)
Record ami_event := {
  ami_category : Z;
  ami_event_name : string;
  ami_contents : string
}.

(** What a library call that needs memory does.  The allocators and the
    dynamic strings of asterisk/astobj2.h, asterisk/strings.h and
    asterisk/stringfields.h are not part of the sources at hand: a call
    either succeeds, or fails with a return value and a buffer content
    about which nothing is assumed. *)
Inductive outcome :=
| Succeeds
| Fails (res : Z) (text : string).

(** The outcomes of the library calls to come, in order; past the end of
    the list every call succeeds. *)
Definition heap := list outcome.

Definition next (h : heap) : outcome * heap :=
  match h with
  | [] => (Succeeds, [])
  | o :: h' => (o, h')
  end.

(** An allocation: whether it returns an object ([true]) or NULL. *)
Definition alloc (h : heap) : bool * heap :=
  let (o, h) := next h in
  (match o with Succeeds => true | Fails _ _ => false end, h).

(** A call that formats [text] into a dynamic string ([ast_str_set],
    [ast_str_append], [ast_string_field_ptr_build_va]): the value returned
    and the content of the string afterwards.  A call that succeeds
    returns the length of [text]. *)
Definition build_text (h : heap) (text : string) : Z * string * heap :=
  let (o, h) := next h in
  match o with
  | Succeeds => (Z.of_nat (String.length text), text, h)
  | Fails res text' => (res, text', h)
  end.

(** [struct stasis_cache_update] with the data of its two messages
    ([stasis_message_data] of a NULL message is NULL); [is_snapshot] says
    whether [update->type] is [ast_channel_snapshot()]. *)
Record stasis_cache_update := {
  is_snapshot : bool;
  old_snapshot : option ast_channel_snapshot;
  new_snapshot : option ast_channel_snapshot
}.

(** [ast_strlen_zero] on a string that is not NULL. *)
Definition ast_strlen_zero (s : string) : bool := String.eqb s EmptyString.

Section Monitors.

(** The macros [EVENT_FLAG_CALL] of asterisk/manager.h and
    [AST_FLAG_ZOMBIE] of asterisk/channel.h, and the functions
    [ast_state2str], [ast_cause2str] and
    [ast_describe_caller_presentation], declared outside the sources at
    hand. *)
Variable EVENT_FLAG_CALL : Z.
Variable AST_FLAG_ZOMBIE : Z.
Variable ast_state2str : Z -> string.
Variable ast_cause2str : Z -> string.
Variable ast_describe_caller_presentation : Z -> string.

(** [ast_test_flag(&snapshot->flags, AST_FLAG_ZOMBIE) ? 1 : 0] *)
Definition is_zombie (snapshot : ast_channel_snapshot) : Z :=
  if negb (Z.land (flags snapshot) AST_FLAG_ZOMBIE =? 0) then 1 else 0.

(** The text of the first [ast_str_set] of
    [manager_build_channel_state_string]. *)
Definition channel_state_text (snapshot : ast_channel_snapshot) : string :=
  "Channel: " +:+ name snapshot +:+ CRLF +:+
  "ChannelState: " +:+ pretty (state snapshot) +:+ CRLF +:+
  "ChannelStateDesc: " +:+ ast_state2str (state snapshot) +:+ CRLF +:+
  "CallerIDNum: " +:+ caller_number snapshot +:+ CRLF +:+
  "CallerIDName: " +:+ caller_name snapshot +:+ CRLF +:+
  "ConnectedLineNum: " +:+ connected_number snapshot +:+ CRLF +:+
  "ConnectedLineName: " +:+ connected_name snapshot +:+ CRLF +:+
  "AccountCode: " +:+ accountcode snapshot +:+ CRLF +:+
  "Context: " +:+ context snapshot +:+ CRLF +:+
  "Exten: " +:+ exten snapshot +:+ CRLF +:+
  "Priority: " +:+ pretty (priority snapshot) +:+ CRLF +:+
  "Uniqueid: " +:+ uniqueid snapshot +:+ CRLF.

(** The [AST_LIST_TRAVERSE] of [manager_build_channel_state_string]; the
    value of [ast_str_append] is ignored. *)
Fixpoint append_vars (h : heap) (out : string) (channel : string)
    (vars : list (string * string)) : string * heap :=
  match vars with
  | [] => (out, h)
  | (var_name, var_value) :: vars' =>
    let '(_, out, h) :=
      build_text h (out +:+ "ChanVariable(" +:+ channel +:+ "): " +:+ var_name +:+ "="
                        +:+ var_value +:+ CRLF) in
    append_vars h out channel vars'
  end.

(** [manager_build_channel_state_string(snapshot)]: the string, NULL when
    [None]. *)
Definition manager_build_channel_state_string (h : heap)
    (snapshot : ast_channel_snapshot) : option string * heap :=
  let (ok, h) := alloc h in
  if negb ok then (None, h)
  else
    let '(res, out, h) := build_text h (channel_state_text snapshot) in
    if res =? 0 then (None, h)
    else
      match manager_vars snapshot with
      | Some vars =>
        let (out, h) := append_vars h out (name snapshot) vars in (Some out, h)
      | None => (Some out, h)
      end.

(** [snapshot_manager_event_create(event_flags, manager_event, fmt, ...)],
    given the text [fmt] expands to: NULL when [ao2_alloc] or
    [ast_string_field_init] fails; [ast_string_field_ptr_build_va] returns
    nothing. *)
Definition snapshot_manager_event_create (h : heap) (event_flags' : Z)
    (manager_event' : string) (extra_fields' : string)
  : option snapshot_manager_event * heap :=
  let (ok, h) := alloc h in
  if negb ok then (None, h)
  else
    let (ok, h) := alloc h in
    if negb ok then (None, h)
    else
      let '(_, extra_fields', h) := build_text h extra_fields' in
      (Some {| event_flags := event_flags'; manager_event := manager_event';
               extra_fields := extra_fields' |}, h).

(** The macro [NO_EXTRA_FIELDS] *)
Definition NO_EXTRA_FIELDS : string := EmptyString.

Definition channel_state_change (h : heap)
    (old_snapshot new_snapshot : option ast_channel_snapshot)
  : option snapshot_manager_event * heap :=
  match new_snapshot with
  | None => (None, h)
  | Some new_snapshot =>
    match old_snapshot with
    | None => snapshot_manager_event_create h EVENT_FLAG_CALL "Newchannel" NO_EXTRA_FIELDS
    | Some old_snapshot =>
      let was_hungup := is_zombie old_snapshot in
      let is_hungup := is_zombie new_snapshot in
      if (was_hungup =? 0) && negb (is_hungup =? 0) then
        snapshot_manager_event_create h EVENT_FLAG_CALL "Hangup"
          ("Cause: " +:+ pretty (hangupcause new_snapshot) +:+ CRLF +:+
           "Cause-txt: " +:+ ast_cause2str (hangupcause new_snapshot) +:+ CRLF)
      else if negb (state old_snapshot =? state new_snapshot) then
        snapshot_manager_event_create h EVENT_FLAG_CALL "Newstate" NO_EXTRA_FIELDS
      else (None, h)
    end
  end.

Definition cep_equal (old_snapshot new_snapshot : ast_channel_snapshot) : bool :=
  if ast_strlen_zero (appl old_snapshot) && negb (ast_strlen_zero (appl new_snapshot))
  then false
  else (priority old_snapshot =? priority new_snapshot)
       && String.eqb (context old_snapshot) (context new_snapshot)
       && String.eqb (exten old_snapshot) (exten new_snapshot).

Definition channel_newexten (h : heap)
    (old_snapshot new_snapshot : option ast_channel_snapshot)
  : option snapshot_manager_event * heap :=
  match new_snapshot with
  | None => (None, h)
  | Some new_snapshot =>
    if ast_strlen_zero (appl new_snapshot) then (None, h)
    else if match old_snapshot with
            | Some old_snapshot => cep_equal old_snapshot new_snapshot
            | None => false
            end
    then (None, h)
    else
      snapshot_manager_event_create h EVENT_FLAG_CALL "Newexten"
        ("Extension: " +:+ exten new_snapshot +:+ CRLF +:+
         "Application: " +:+ appl new_snapshot +:+ CRLF +:+
         "AppData: " +:+ data new_snapshot +:+ CRLF)
  end.

Definition caller_id_equal (old_snapshot new_snapshot : ast_channel_snapshot) : bool :=
  String.eqb (caller_number old_snapshot) (caller_number new_snapshot)
  && String.eqb (caller_name old_snapshot) (caller_name new_snapshot).

Definition channel_new_callerid (h : heap)
    (old_snapshot new_snapshot : option ast_channel_snapshot)
  : option snapshot_manager_event * heap :=
  match old_snapshot, new_snapshot with
  | Some old_snapshot, Some new_snapshot =>
    if caller_id_equal old_snapshot new_snapshot then (None, h)
    else
      snapshot_manager_event_create h EVENT_FLAG_CALL "NewCallerid"
        ("CID-CallingPres: " +:+ pretty (caller_pres new_snapshot) +:+ " (" +:+
         ast_describe_caller_presentation (caller_pres new_snapshot) +:+ ")" +:+ CRLF)
  | _, _ => (None, h)
  end.

(** The type [snapshot_monitor] of the monitors *)
Definition snapshot_monitor : Type :=
  heap -> option ast_channel_snapshot -> option ast_channel_snapshot ->
  option snapshot_manager_event * heap.

Definition monitors : list snapshot_monitor :=
  [channel_state_change; channel_newexten; channel_new_callerid].

(** The loop of [channel_snapshot_update] from monitor [ms] on, with the
    string built so far and the events raised so far.  [None] when
    [manager_build_channel_state_string] is handed a NULL snapshot, which
    it reads from. *)
Fixpoint run_monitors (ms : list snapshot_monitor) (h : heap)
    (old_snapshot new_snapshot : option ast_channel_snapshot)
    (channel_event_string : option string) (raised : list ami_event)
  : option (list ami_event * heap) :=
  match ms with
  | [] => Some (raised, h)
  | monitor :: ms' =>
    let (ev, h) := monitor h old_snapshot new_snapshot in
    match ev with
    | None => run_monitors ms' h old_snapshot new_snapshot channel_event_string raised
    | Some ev =>
      let built :=
        match channel_event_string with
        | Some s => Some (Some s, h)
        | None =>
          match new_snapshot with
          | Some snapshot => Some (manager_build_channel_state_string h snapshot)
          | None => None
          end
        end in
      match built with
      | None => None
      | Some (None, h) => Some (raised, h)
      | Some (Some s, h) =>
        run_monitors ms' h old_snapshot new_snapshot (Some s)
          (raised ++ [{| ami_category := event_flags ev;
                         ami_event_name := manager_event ev;
                         ami_contents := s +:+ extra_fields ev |}])
      end
    end
  end.

(** [channel_snapshot_update(data, sub, topic, message)] on the update the
    message holds: the events raised with [manager_event], in order, and
    the outcomes left afterwards. *)
Definition channel_snapshot_update (h : heap) (update : stasis_cache_update)
  : option (list ami_event * heap) :=
  if negb (is_snapshot update) then Some ([], h)
  else run_monitors monitors h (old_snapshot update) (new_snapshot update) None [].

End Monitors.

(** ** What an update of a snapshot raises *)

Section MonitorFacts.

Variable EVENT_FLAG_CALL : Z.
Variable AST_FLAG_ZOMBIE : Z.
Variable ast_state2str : Z -> string.
Variable ast_cause2str : Z -> string.
Variable ast_describe_caller_presentation : Z -> string.

Local Notation "'update'" :=
  (channel_snapshot_update EVENT_FLAG_CALL AST_FLAG_ZOMBIE ast_state2str
     ast_cause2str ast_describe_caller_presentation).
Local Notation "'build'" := (manager_build_channel_state_string ast_state2str).

(** The call [manager_event] makes of an event and the channel string. *)
Definition ami_of (body : string) (ev : snapshot_manager_event) : ami_event :=
  {| ami_category := event_flags ev; ami_event_name := manager_event ev;
     ami_contents := body +:+ extra_fields ev |}.

(** The zombie flag is clear in [old] and set in [new]. *)
Definition hangs_up (old new : ast_channel_snapshot) : Prop :=
  Z.land (flags old) AST_FLAG_ZOMBIE = 0 /\ Z.land (flags new) AST_FLAG_ZOMBIE <> 0.

Lemma create_full fl nm ex :
  snapshot_manager_event_create [] fl nm ex =
    (Some {| event_flags := fl; manager_event := nm; extra_fields := ex |}, []).
Proof. done. Qed.

Lemma create_cases h fl nm ex :
  exists h',
    snapshot_manager_event_create h fl nm ex = (None, h') \/
    exists ex',
      snapshot_manager_event_create h fl nm ex =
        (Some {| event_flags := fl; manager_event := nm; extra_fields := ex' |}, h').
Proof.
  unfold snapshot_manager_event_create, alloc, build_text, next.
  destruct h as [|[|r1 t1] [|[|r2 t2] [|[|r3 t3] h]]]; simpl; eexists;
    first [by left | right; by eexists].
Qed.

Lemma state_text_length snapshot :
  (Z.of_nat (String.length (channel_state_text ast_state2str snapshot)) =? 0) = false.
Proof.
  unfold channel_state_text.
  match goal with |- context [String.append _ ?rest] => generalize rest end.
  intros rest. apply Z.eqb_neq. cbv [String.append String.length]. lia.
Qed.

Lemma append_vars_full out channel vars :
  exists out', append_vars [] out channel vars = (out', []).
Proof.
  revert out. induction vars as [|[var_name var_value] vars IH]; intros out; simpl.
  - by eexists.
  - apply IH.
Qed.

Lemma build_full snapshot : exists body, build [] snapshot = (Some body, []).
Proof.
  unfold manager_build_channel_state_string. cbn [alloc next negb build_text].
  rewrite state_text_length. destruct (manager_vars snapshot) as [vars|]; [|by eexists].
  destruct (append_vars_full (channel_state_text ast_state2str snapshot) (name snapshot) vars)
    as [out' ->].
  by eexists.
Qed.

(** Whether a monitor wants an event does not depend on the library, and
    none wants one without a new snapshot. *)
Definition pure_monitor (m : snapshot_monitor) (old new : option ast_channel_snapshot)
  : Prop :=
  exists wanted : option snapshot_manager_event,
    (new = None -> wanted = None) /\
    forall h,
      m h old new =
        match wanted with
        | None => (None, h)
        | Some ev =>
          snapshot_manager_event_create h (event_flags ev) (manager_event ev) (extra_fields ev)
        end.

Ltac wants_nothing := exists None; split; [done|]; intros h; reflexivity.
Ltac wants_event :=
  eexists (Some {| event_flags := _; manager_event := _; extra_fields := _ |});
  split; [done|]; intros h; reflexivity.

Lemma monitors_pure old new :
  Forall (fun m => pure_monitor m old new)
         (monitors EVENT_FLAG_CALL AST_FLAG_ZOMBIE ast_cause2str
                   ast_describe_caller_presentation).
Proof.
  unfold monitors. repeat apply Forall_cons_2; [| | |apply Forall_nil_2].
  - unfold pure_monitor, channel_state_change. destruct new as [n|]; [|wants_nothing].
    destruct old as [o|]; [|wants_event].
    destruct (_ && _); [wants_event|].
    destruct (negb _); [wants_event|wants_nothing].
  - unfold pure_monitor, channel_newexten. destruct new as [n|]; [|wants_nothing].
    destruct (ast_strlen_zero (appl n)); [wants_nothing|].
    destruct old as [o|]; [destruct (cep_equal o n)|]; wants_event || wants_nothing.
  - unfold pure_monitor, channel_new_callerid. destruct old as [o|], new as [n|]; try wants_nothing.
    destruct (caller_id_equal o n); wants_event || wants_nothing.
Qed.

(** What identifies an event to the manager: its category and its name. *)
Definition event_key (e : ami_event) : Z * string := (ami_category e, ami_event_name e).

(** Running monitors when library calls may fail and when they do not: the
    former never reads a NULL snapshot and raises, as far as category and
    name go, a sublist of what the latter raises. *)
Lemma run_monitors_loss ms old new :
  Forall (fun m => pure_monitor m old new) ms ->
  forall h ces ces' raised raised',
    exists more full h',
      run_monitors ast_state2str ms h old new ces raised = Some (raised ++ more, h') /\
      run_monitors ast_state2str ms [] old new ces' raised' = Some (raised' ++ full, []) /\
      map event_key more `sublist_of` map event_key full.
Proof.
  intros Hpure. induction Hpure as [|m ms (wanted & Hnone & Hm) _ IH];
    intros h ces ces' raised raised'.
  { exists [], [], h. simpl. by rewrite !app_nil_r. }
  cbn [run_monitors]. rewrite !Hm. destruct wanted as [ev|].
  2:{ apply IH; done. }
  destruct new as [snapshot|]; [|by discriminate Hnone].
  rewrite create_full. cbv beta iota zeta.
  cbn [event_flags manager_event extra_fields].
  assert (exists body', forall raised0,
            match
              match ces' with
              | Some s => Some (Some s, [])
              | None => Some (build [] snapshot)
              end
            with
            | Some (Some s, h0) =>
              run_monitors ast_state2str ms h0 old (Some snapshot) (Some s)
                (raised0 ++ [{| ami_category := event_flags ev;
                                ami_event_name := manager_event ev;
                                ami_contents := s +:+ extra_fields ev |}])
            | Some (None, h0) => Some (raised0, h0)
            | None => None
            end =
            run_monitors ast_state2str ms [] old (Some snapshot) (Some body')
              (raised0 ++ [{| ami_category := event_flags ev;
                              ami_event_name := manager_event ev;
                              ami_contents := body' +:+ extra_fields ev |}]))
    as [body' Hfull].
  { destruct ces' as [s|]; [by exists s|].
    destruct (build_full snapshot) as [body Eb]. exists body. intros raised0. by rewrite Eb. }
  rewrite Hfull. clear Hfull.
  destruct (create_cases h (event_flags ev) (manager_event ev) (extra_fields ev))
    as (h1 & [-> | (ex' & ->)]); cbv beta iota zeta.
  - destruct (IH h1 ces (Some body') raised
                 (raised' ++ [{| ami_category := event_flags ev;
                                 ami_event_name := manager_event ev;
                                 ami_contents := body' +:+ extra_fields ev |}]))
      as (more & full & h' & E1 & E2 & Hsub).
    eexists more, (_ :: full), h'. split; [done|]. split.
    + rewrite E2. by rewrite <- app_assoc.
    + simpl. by apply sublist_cons.
  - cbn [event_flags manager_event extra_fields].
    destruct (match ces with
              | Some s => Some (Some s, h1)
              | None => Some (build h1 snapshot)
              end) as [[[s|] h2]|] eqn:Ebuilt.
    + destruct (IH h2 (Some s) (Some body')
                   (raised ++ [{| ami_category := event_flags ev;
                                  ami_event_name := manager_event ev;
                                  ami_contents := s +:+ ex' |}])
                   (raised' ++ [{| ami_category := event_flags ev;
                                   ami_event_name := manager_event ev;
                                   ami_contents := body' +:+ extra_fields ev |}]))
        as (more & full & h' & E1 & E2 & Hsub).
      eexists (_ :: more), (_ :: full), h'. split; [|split].
      * rewrite E1. by rewrite <- app_assoc.
      * rewrite E2. by rewrite <- app_assoc.
      * simpl. unfold event_key at 1 3. simpl. by apply sublist_skip.
    + destruct (IH [] (Some body') (Some body') raised
                   (raised' ++ [{| ami_category := event_flags ev;
                                   ami_event_name := manager_event ev;
                                   ami_contents := body' +:+ extra_fields ev |}]))
        as (_ & full & _ & _ & E2 & _).
      eexists [], (_ :: full), h2. rewrite app_nil_r. split; [done|]. split.
      * rewrite E2. by rewrite <- app_assoc.
      * apply sublist_nil_l.
    + by destruct ces.
Qed.

Lemma hangs_up_spec o n :
  (is_zombie AST_FLAG_ZOMBIE o =? 0) && negb (is_zombie AST_FLAG_ZOMBIE n =? 0) = true
  <-> hangs_up o n.
Proof.
  unfold is_zombie, hangs_up.
  destruct (Z.eqb_spec (Z.land (flags o) AST_FLAG_ZOMBIE) 0),
           (Z.eqb_spec (Z.land (flags n) AST_FLAG_ZOMBIE) 0); simpl; intuition congruence.
Qed.

Lemma strlen_zero_spec s : ast_strlen_zero s = true <-> s = EmptyString.
Proof. unfold ast_strlen_zero. apply String.eqb_eq. Qed.

Lemma cep_equal_spec o n :
  appl n <> EmptyString ->
  cep_equal o n = false <->
  appl o = EmptyString \/ priority o <> priority n \/ context o <> context n \/
  exten o <> exten n.
Proof.
  intros Hn. unfold cep_equal, ast_strlen_zero.
  destruct (String.eqb_spec (appl o) EmptyString), (String.eqb_spec (appl n) EmptyString),
           (Z.eqb_spec (priority o) (priority n)),
           (String.eqb_spec (context o) (context n)),
           (String.eqb_spec (exten o) (exten n)); simpl; intuition congruence.
Qed.

Lemma caller_id_equal_spec o n :
  caller_id_equal o n = false <->
  caller_number o <> caller_number n \/ caller_name o <> caller_name n.
Proof.
  unfold caller_id_equal.
  destruct (String.eqb_spec (caller_number o) (caller_number n)),
           (String.eqb_spec (caller_name o) (caller_name n)); simpl; intuition congruence.
Qed.

#[local] Set Warnings "-clear-no-such-hyp".

Ltac events_facts :=
  split;
  [ repeat (apply Forall_cons_2; [split; [reflexivity|by eexists]|]); apply Forall_nil_2
  | split;
    [ first [ exists "Newchannel"; split; by repeat constructor
            | exists "Hangup"; split; by repeat constructor
            | exists "Newstate"; split; by repeat constructor ]
    | rewrite ?elem_of_cons, ?elem_of_nil; naive_solver ] ].

(** X21. Updates the monitors have nothing to say about raise no manager
    event and allocate nothing: an update that is not one of a channel
    snapshot, the removal of a snapshot from the cache, and a new snapshot
    that differs from the old one in neither flags, state, application,
    context, extension, priority nor caller number and name (so a change
    of the connected line or of the account code alone goes
    unreported). *)
Theorem unreported_updates_raise_nothing (h : heap) :
  (forall old new,
     update h {| is_snapshot := false; old_snapshot := old; new_snapshot := new |}
     = Some ([], h)) /\
  (forall old,
     update h {| is_snapshot := true; old_snapshot := old; new_snapshot := None |}
     = Some ([], h)) /\
  (forall o n,
     flags o = flags n -> state o = state n -> appl o = appl n ->
     context o = context n -> exten o = exten n -> priority o = priority n ->
     caller_number o = caller_number n -> caller_name o = caller_name n ->
     update h {| is_snapshot := true; old_snapshot := Some o; new_snapshot := Some n |}
     = Some ([], h)).
Proof.
  split; [done|]. split; [by intros [o|]|].
  intros o n Hf Hs Ha Hc He Hp Hcn Hcm.
  unfold channel_snapshot_update, monitors.
  cbn [is_snapshot negb old_snapshot new_snapshot run_monitors].
  unfold channel_state_change, channel_newexten, channel_new_callerid,
    cep_equal, caller_id_equal, is_zombie.
  rewrite Hf, Hs, Ha, Hc, He, Hp, Hcn, Hcm, !Z.eqb_refl, !String.eqb_refl.
  cbn [andb negb].
  destruct (negb (Z.land (flags n) AST_FLAG_ZOMBIE =? 0)); cbn [Z.eqb andb negb];
    destruct (ast_strlen_zero (appl n)); done.
Qed.

(** X22. Whatever the library calls do (the allocations of the string
    and of the events, and the formatting of their texts),
    [channel_snapshot_update] never passes a NULL snapshot to
    [manager_build_channel_state_string] and raises at most three events.
    A failure only loses events or spoils their text: the categories and
    names of the events raised are a sublist, in the same order, of those
    raised when every call succeeds. *)
Theorem failures_only_lose_events (h : heap) (upd : stasis_cache_update) :
  exists raised h' full,
    update h upd = Some (raised, h') /\
    update [] upd = Some (full, []) /\
    map event_key raised `sublist_of` map event_key full /\
    (length raised <= length full <= 3)%nat.
Proof.
  unfold channel_snapshot_update. destruct (is_snapshot upd); cbn [negb].
  2:{ exists [], h, []. split; [done|]. split; [done|]. split; [done|]. simpl. lia. }
  destruct (run_monitors_loss _ (old_snapshot upd) (new_snapshot upd)
              (monitors_pure _ _) h None None [] [])
    as (more & full & h' & E1 & E2 & Hsub).
  exists more, h', full. split; [done|]. split; [done|]. split; [done|].
  split.
  - apply sublist_length in Hsub. by rewrite !length_map in Hsub.
  - revert E2. clear. unfold monitors. cbn [run_monitors].
    repeat match goal with
           | |- context [let (_, _) := ?m [] ?o ?n in _] =>
             let ev := fresh "ev" in let h := fresh "h" in
             destruct (m [] o n) as [ev h]; destruct ev
           | |- context [match ?x with Some _ => _ | None => _ end] => destruct x
           | |- context [let (_, _) := ?x in _] => destruct x
           end;
      intros [= <-]; simpl; lia.
Qed.

(** X23. What an update with a new snapshot raises when memory suffices.
    Every event is of category [EVENT_FLAG_CALL] and begins with the same
    channel string, built from the new snapshot.  The events come in the
    order: one of Newchannel, Hangup and Newstate; Newexten; NewCallerid.
    Newchannel is raised exactly for a first snapshot, Hangup exactly
    when the zombie flag gets set, Newstate exactly when the state changes
    without that; Newexten exactly when the new snapshot has an
    application and is the first, or follows one without application or
    with another context, extension or priority; NewCallerid exactly when
    the caller number or name changes. *)
Theorem snapshot_events_with_memory (old : option ast_channel_snapshot)
    (n : ast_channel_snapshot) :
  exists raised body,
    update [] {| is_snapshot := true; old_snapshot := old; new_snapshot := Some n |}
      = Some (raised, []) /\
    build [] n = (Some body, []) /\
    Forall (fun e => ami_category e = EVENT_FLAG_CALL /\
                     exists extra, ami_contents e = body +:+ extra) raised /\
    (exists first,
       first ∈ ["Newchannel"; "Hangup"; "Newstate"] /\
       map ami_event_name raised `sublist_of` [first; "Newexten"; "NewCallerid"]) /\
    ("Newchannel" ∈ map ami_event_name raised <-> old = None) /\
    ("Hangup" ∈ map ami_event_name raised <->
       exists o, old = Some o /\ hangs_up o n) /\
    ("Newstate" ∈ map ami_event_name raised <->
       exists o, old = Some o /\ ~ hangs_up o n /\ state o <> state n) /\
    ("Newexten" ∈ map ami_event_name raised <->
       appl n <> EmptyString /\
       forall o, old = Some o ->
         appl o = EmptyString \/ priority o <> priority n \/
         context o <> context n \/ exten o <> exten n) /\
    ("NewCallerid" ∈ map ami_event_name raised <->
       exists o, old = Some o /\
         (caller_number o <> caller_number n \/ caller_name o <> caller_name n)).
Proof.
  destruct (build_full n) as [body Hb].
  unfold channel_snapshot_update, monitors.
  cbn [is_snapshot negb old_snapshot new_snapshot run_monitors].
  unfold channel_state_change, channel_newexten, channel_new_callerid, ast_strlen_zero.
  destruct (String.eqb_spec (appl n) EmptyString) as [Happl|Happl].
  - destruct old as [o|].
    + pose proof (hangs_up_spec o n) as Hh.
      pose proof (caller_id_equal_spec o n) as Hcid.
      destruct (_ && _);
        [|destruct (Z.eqb_spec (state o) (state n)); cbn [negb]];
        destruct (caller_id_equal o n);
        repeat (rewrite ?create_full, ?Hb; cbv beta iota zeta);
        eexists _, body; (split; [reflexivity|]); (split; [done|]);
        cbn [app map ami_event_name ami_category ami_contents event_flags manager_event
             extra_fields]; events_facts.
    + repeat (rewrite ?create_full, ?Hb; cbv beta iota zeta).
      eexists _, body. split; [reflexivity|]. split; [done|].
      cbn [app map ami_event_name ami_category ami_contents event_flags manager_event
           extra_fields]. events_facts.
  - destruct old as [o|].
    + pose proof (hangs_up_spec o n) as Hh.
      pose proof (caller_id_equal_spec o n) as Hcid.
      pose proof (cep_equal_spec o n Happl) as Hcep.
      destruct (_ && _);
        [|destruct (Z.eqb_spec (state o) (state n)); cbn [negb]];
        destruct (cep_equal o n);
        destruct (caller_id_equal o n);
        repeat (rewrite ?create_full, ?Hb; cbv beta iota zeta);
        eexists _, body; (split; [reflexivity|]); (split; [done|]);
        cbn [app map ami_event_name ami_category ami_contents event_flags manager_event
             extra_fields]; events_facts.
    + repeat (rewrite ?create_full, ?Hb; cbv beta iota zeta).
      eexists _, body. split; [reflexivity|]. split; [done|].
      cbn [app map ami_event_name ami_category ami_contents event_flags manager_event
           extra_fields]. events_facts.
Qed.

End MonitorFacts.
End ManagerChannels.
